(** * The create-order saga (tugas2/create-order-saga)

    A shallow embedding of the saga orchestrator and of the three domain
    services it drives (order, payment, shipping), followed by the
    properties of the specification that concern them.

    Conventions of the embedding.
    - A Go handler, a method of the server taking a context and a request
      and returning a response and an error, becomes a function from the
      request and the server's store to a result ([inl resp] for a response
      with a nil error, [inr st] for a nil response with the gRPC status
      built by [status.Errorf]) and the store afterwards.  Every handler
      holds [s.mu] from its first read of the map to its last write, so a
      handler is one atomic step on the store.
    - A Go map from strings to record pointers is a [gmap string T]; the
      in-place update [rec.Status = v] of the record a map entry points to
      is the insertion of the updated record under the same key.
    - Protobuf messages are records.  Message-typed fields of requests and
      responses are taken to be populated (the handlers and the
      orchestrator read them with plain field accesses).  The one pointer
      the code itself tests against [nil], [SagaState.OrderID], is an
      [option].
    - [rand.Intn(10)] is an input of the handler that draws it.
    - [float32] is IEEE-754 binary32, with the operations of
      [Floats.SpecFloat] at precision 24 and maximal exponent 128.
    - The orchestrator is written against the client stubs, as in the
      source, in a small monad that threads the world behind the stubs and
      collects what the orchestrator logs and which remote calls it issues.
      The deployed system instantiates the stubs with the three handlers
      behind a transport that may lose the request or the response of any
      call.  One saga runs at a time; interleavings of concurrent sagas are
      not modelled. *)

From Stdlib Require Import ZArith Floats.SpecFloat.
From stdpp Require Import gmap strings list fin_maps.

Local Open Scope Z_scope.
Local Open Scope string_scope.
Local Open Scope list_scope.

(** ** Go's [float32] *)

Module Float32.

Definition float32 : Type := spec_float.

Definition prec : Z := 24.
Definition emax : Z := 128.

Definition zero : float32 := S754_zero false.
Definition add (x y : float32) : float32 := SFadd prec emax x y.
Definition mul (x y : float32) : float32 := SFmul prec emax x y.

(** The conversion [float32(q)] of an [int32]. *)
Definition of_int32 (q : Z) : float32 := binary_normalize prec emax q 0 false.

(** The constant [m * 2^e], rounded to [float32]. *)
Definition lit (m e : Z) : float32 := binary_normalize prec emax m e false.

End Float32.

(** ** gRPC status errors ([google.golang.org/grpc/codes] and [status]) *)

Module grpc.

Inductive Code : Type :=
| Canceled | Unknown | InvalidArgument | DeadlineExceeded | NotFound
| Internal | Unavailable.

Global Instance Code_eq_dec : EqDecision Code.
Proof. solve_decision. Defined.

(** A non-nil [error] returned by a handler or by a client stub. *)
Record Status : Type := Errorf { code : Code; message : string }.

Global Instance Status_eq_dec : EqDecision Status.
Proof. solve_decision. Defined.

(** A response with a nil error is [inl resp]; a nil response with an
    error is [inr err]. *)
Definition result (A : Type) : Type := (A + Status)%type.

End grpc.

(** ** Messages of [proto/common] *)

Module commonpb.

Record OrderID : Type := { Id : string }.

Record Item : Type := {
  ProductId : string;
  Quantity : Z;                      (* int32 *)
  Price : Float32.float32
}.

Record OrderDetails : Type := {
  UserId : string;
  Items : list Item
}.

Record PaymentInfo : Type := {
  CardNumber : string;
  ExpiryDate : string;
  Cvv : string;
  Amount : Float32.float32
}.

Record ShippingAddress : Type := {
  Street : string;
  City : string;
  State : string;
  ZipCode : string;
  Country : string
}.

Record CompensationResponse : Type := {
  Success : bool;
  Message : string
}.

End commonpb.

(** ** Messages of [proto/order] *)

Module orderpb.

Inductive OrderStatus : Type :=
| OrderStatus_ORDER_STATUS_UNSPECIFIED
| OrderStatus_PENDING
| OrderStatus_COMPLETED
| OrderStatus_CANCELLED.

Global Instance OrderStatus_eq_dec : EqDecision OrderStatus.
Proof. solve_decision. Defined.

Record Order : Type := {
  Id : string;
  UserId : string;
  Items : list commonpb.Item;
  TotalAmount : Float32.float32;
  Status : OrderStatus
}.

(** The assignment [order.Status = st]. *)
Definition set_Status (o : Order) (st : OrderStatus) : Order :=
  {| Id := Id o; UserId := UserId o; Items := Items o;
     TotalAmount := TotalAmount o; Status := st |}.

Record CreateOrderRequest : Type := { Details : commonpb.OrderDetails }.

Record CreateOrderResponse : Type := {
  CreateOrderResponse_OrderId : commonpb.OrderID;
  CreateOrderResponse_Status : OrderStatus
}.

Record CancelOrderRequest : Type := {
  CancelOrderRequest_OrderId : commonpb.OrderID
}.

Record CompleteOrderRequest : Type := {
  CompleteOrderRequest_OrderId : commonpb.OrderID
}.

End orderpb.

(** ** Messages of [proto/payment] *)

Module paymentpb.

Inductive PaymentStatus : Type :=
| PaymentStatus_PAYMENT_STATUS_UNSPECIFIED
| PaymentStatus_SUCCESS
| PaymentStatus_FAILED
| PaymentStatus_REFUNDED.

Global Instance PaymentStatus_eq_dec : EqDecision PaymentStatus.
Proof. solve_decision. Defined.

Record Payment : Type := {
  Id : string;
  OrderId : commonpb.OrderID;
  Amount : Float32.float32;
  Status : PaymentStatus;
  TransactionId : string
}.

(** The assignment [payment.Status = st]. *)
Definition set_Status (p : Payment) (st : PaymentStatus) : Payment :=
  {| Id := Id p; OrderId := OrderId p; Amount := Amount p;
     Status := st; TransactionId := TransactionId p |}.

Record ProcessPaymentRequest : Type := {
  ProcessPaymentRequest_OrderId : commonpb.OrderID;
  PaymentInfo : commonpb.PaymentInfo
}.

Record ProcessPaymentResponse : Type := {
  ProcessPaymentResponse_PaymentId : string;
  ProcessPaymentResponse_Status : PaymentStatus;
  ProcessPaymentResponse_Message : string
}.

Record RefundPaymentRequest : Type := {
  RefundPaymentRequest_OrderId : commonpb.OrderID;
  RefundPaymentRequest_PaymentId : string
}.

End paymentpb.

(** ** Messages of [proto/shipping] *)

Module shippingpb.

Inductive ShippingStatus : Type :=
| ShippingStatus_SHIPPING_STATUS_UNSPECIFIED
| ShippingStatus_PENDING
| ShippingStatus_SHIPPED
| ShippingStatus_CANCELLED.

Global Instance ShippingStatus_eq_dec : EqDecision ShippingStatus.
Proof. solve_decision. Defined.

Record Shipment : Type := {
  Id : string;
  OrderId : commonpb.OrderID;
  Address : commonpb.ShippingAddress;
  Status : ShippingStatus;
  TrackingNumber : string
}.

(** The assignment [shipment.Status = st]. *)
Definition set_Status (sh : Shipment) (st : ShippingStatus) : Shipment :=
  {| Id := Id sh; OrderId := OrderId sh; Address := Address sh;
     Status := st; TrackingNumber := TrackingNumber sh |}.

Record ArrangeShippingRequest : Type := {
  ArrangeShippingRequest_OrderId : commonpb.OrderID;
  ArrangeShippingRequest_Address : commonpb.ShippingAddress
}.

Record ArrangeShippingResponse : Type := {
  ArrangeShippingResponse_ShipmentId : string;
  ArrangeShippingResponse_Status : ShippingStatus
}.

Record CancelShippingRequest : Type := {
  CancelShippingRequest_OrderId : commonpb.OrderID;
  CancelShippingRequest_ShipmentId : string
}.

End shippingpb.

(** ** The order service ([internal/order/service.go]) *)

Module order.
Import orderpb.

Record Server : Type := { orders : gmap string Order }.

Definition NewServer : Server := {| orders := empty |}.

(** [calculateTotal]: the loop [total += item.Price * float32(item.Quantity)]
    from [total = 0.0], each operation rounded on its own. *)
Definition calculateTotal (items : list commonpb.Item) : Float32.float32 :=
  fold_left
    (fun total item =>
       Float32.add total
         (Float32.mul (commonpb.Price item)
                      (Float32.of_int32 (commonpb.Quantity item))))
    items Float32.zero.

Definition CreateOrder (s : Server) (req : CreateOrderRequest)
  : grpc.result CreateOrderResponse * Server :=
  let orderID := "order-" +:+ commonpb.UserId (Details req) in
  let newOrder :=
    {| Id := orderID;
       UserId := commonpb.UserId (Details req);
       Items := commonpb.Items (Details req);
       TotalAmount := calculateTotal (commonpb.Items (Details req));
       Status := OrderStatus_PENDING |} in
  (inl {| CreateOrderResponse_OrderId := {| commonpb.Id := orderID |};
          CreateOrderResponse_Status := Status newOrder |},
   {| orders := <[orderID := newOrder]> (orders s) |}).

Definition CancelOrder (s : Server) (req : CancelOrderRequest)
  : grpc.result commonpb.CompensationResponse * Server :=
  let orderID := commonpb.Id (CancelOrderRequest_OrderId req) in
  match orders s !! orderID with
  | None =>
      (inr (grpc.Errorf grpc.NotFound ("Order " +:+ orderID +:+ " not found")), s)
  | Some order =>
      if decide (Status order = OrderStatus_CANCELLED) then
        (inl {| commonpb.Success := true;
                commonpb.Message := "Order already cancelled" |}, s)
      else
        (inl {| commonpb.Success := true;
                commonpb.Message := "Order cancelled successfully" |},
         {| orders :=
              <[orderID := set_Status order OrderStatus_CANCELLED]> (orders s) |})
  end.

Definition CompleteOrder (s : Server) (req : CompleteOrderRequest)
  : grpc.result commonpb.CompensationResponse * Server :=
  let orderID := commonpb.Id (CompleteOrderRequest_OrderId req) in
  match orders s !! orderID with
  | None =>
      (inr (grpc.Errorf grpc.NotFound ("Order " +:+ orderID +:+ " not found")), s)
  | Some order =>
      (inl {| commonpb.Success := true;
              commonpb.Message := "Order completion processed" |},
       if decide (Status order = OrderStatus_PENDING) then
         {| orders :=
              <[orderID := set_Status order OrderStatus_COMPLETED]> (orders s) |}
       else s)
  end.

End order.

(** ** The payment service ([internal/payment/service.go]) *)

Module payment.
Import paymentpb.

Record Server : Type := { payments : gmap string Payment }.

Definition NewServer : Server := {| payments := empty |}.

(** [roll] is the value of [rand.Intn(10)]. *)
Definition ProcessPayment (roll : Z) (s : Server) (req : ProcessPaymentRequest)
  : grpc.result ProcessPaymentResponse * Server :=
  let orderID := commonpb.Id (ProcessPaymentRequest_OrderId req) in
  let paymentID := "pay-" +:+ orderID in
  let succeeded := (2 <? roll)%Z in
  let paymentStatus :=
    if succeeded then PaymentStatus_SUCCESS else PaymentStatus_FAILED in
  let message :=
    if succeeded then "Payment processed successfully."
    else "Payment failed due to insufficient funds." in
  let newPayment :=
    {| Id := paymentID;
       OrderId := ProcessPaymentRequest_OrderId req;
       Amount := commonpb.Amount (PaymentInfo req);
       Status := paymentStatus;
       TransactionId := "" |} in
  (inl {| ProcessPaymentResponse_PaymentId := paymentID;
          ProcessPaymentResponse_Status := paymentStatus;
          ProcessPaymentResponse_Message := message |},
   {| payments := <[paymentID := newPayment]> (payments s) |}).

Definition RefundPayment (s : Server) (req : RefundPaymentRequest)
  : grpc.result commonpb.CompensationResponse * Server :=
  let orderID := commonpb.Id (RefundPaymentRequest_OrderId req) in
  let paymentID := RefundPaymentRequest_PaymentId req in
  match payments s !! paymentID with
  | None =>
      (inr (grpc.Errorf grpc.NotFound
              ("Payment " +:+ paymentID +:+ " not found")), s)
  | Some payment =>
      if decide (commonpb.Id (OrderId payment) <> orderID) then
        (inr (grpc.Errorf grpc.InvalidArgument
                ("Payment " +:+ paymentID +:+ " does not belong to order "
                 +:+ orderID)), s)
      else if decide (Status payment = PaymentStatus_REFUNDED) then
        (inl {| commonpb.Success := true;
                commonpb.Message := "Payment already refunded" |}, s)
      else if decide (Status payment = PaymentStatus_FAILED) then
        (inl {| commonpb.Success := true;
                commonpb.Message :=
                  "Payment originally failed, no refund needed" |}, s)
      else
        (inl {| commonpb.Success := true;
                commonpb.Message := "Payment refunded successfully" |},
         {| payments :=
              <[paymentID := set_Status payment PaymentStatus_REFUNDED]>
                (payments s) |})
  end.

End payment.

(** ** The shipping service ([internal/shipping/service.go]) *)

Module shipping.
Import shippingpb.

Record Server : Type := { shipments : gmap string Shipment }.

Definition NewServer : Server := {| shipments := empty |}.

(** [roll] is the value of [rand.Intn(10)]. *)
Definition ArrangeShipping (roll : Z) (s : Server) (req : ArrangeShippingRequest)
  : grpc.result ArrangeShippingResponse * Server :=
  let orderID := commonpb.Id (ArrangeShippingRequest_OrderId req) in
  let shipmentID := "ship-" +:+ orderID in
  let succeeded := (1 <? roll)%Z in
  if negb succeeded then
    (inr (grpc.Errorf grpc.Internal
            ("Failed to arrange shipping for order " +:+ orderID
             +:+ ": Carrier unavailable")), s)
  else
    let newShipment :=
      {| Id := shipmentID;
         OrderId := ArrangeShippingRequest_OrderId req;
         Address := ArrangeShippingRequest_Address req;
         Status := ShippingStatus_PENDING;
         TrackingNumber := "" |} in
    let newShipment := set_Status newShipment ShippingStatus_SHIPPED in
    (inl {| ArrangeShippingResponse_ShipmentId := shipmentID;
            ArrangeShippingResponse_Status := Status newShipment |},
     {| shipments := <[shipmentID := newShipment]> (shipments s) |}).

Definition CancelShipping (s : Server) (req : CancelShippingRequest)
  : grpc.result commonpb.CompensationResponse * Server :=
  let orderID := commonpb.Id (CancelShippingRequest_OrderId req) in
  let shipmentID := CancelShippingRequest_ShipmentId req in
  match shipments s !! shipmentID with
  | None =>
      (inr (grpc.Errorf grpc.NotFound
              ("Shipment " +:+ shipmentID +:+ " not found")), s)
  | Some shipment =>
      if decide (commonpb.Id (OrderId shipment) <> orderID) then
        (inr (grpc.Errorf grpc.InvalidArgument
                ("Shipment " +:+ shipmentID +:+ " does not belong to order "
                 +:+ orderID)), s)
      else if decide (Status shipment = ShippingStatus_CANCELLED) then
        (inl {| commonpb.Success := true;
                commonpb.Message := "Shipment already cancelled" |}, s)
      else
        (inl {| commonpb.Success := true;
                commonpb.Message := "Shipping cancelled successfully" |},
         {| shipments :=
              <[shipmentID := set_Status shipment ShippingStatus_CANCELLED]>
                (shipments s) |})
  end.

End shipping.

(** ** Contexts and client stubs ([context], [pkg/grpc_clients]) *)

Module context.

(** Only the shape of a context is kept: which parent it derives from and
    the timeout it was given.  Time itself is not modelled; a deadline that
    has passed shows as a failed call. *)
Inductive Context : Type :=
| Background
| WithTimeout (parent : Context) (seconds : Z).

End context.

Module grpc_clients.

(** The generated client stubs.  A stub either delivers the response of the
    remote handler or returns a status error; [W] is whatever lies behind
    the stubs (the network and the three servers). *)
Record OrderServiceClient (W : Type) : Type := {
  CreateOrder : context.Context -> orderpb.CreateOrderRequest ->
                W -> grpc.result orderpb.CreateOrderResponse * W;
  CancelOrder : context.Context -> orderpb.CancelOrderRequest ->
                W -> grpc.result commonpb.CompensationResponse * W;
  CompleteOrder : context.Context -> orderpb.CompleteOrderRequest ->
                  W -> grpc.result commonpb.CompensationResponse * W
}.

Record PaymentServiceClient (W : Type) : Type := {
  ProcessPayment : context.Context -> paymentpb.ProcessPaymentRequest ->
                   W -> grpc.result paymentpb.ProcessPaymentResponse * W;
  RefundPayment : context.Context -> paymentpb.RefundPaymentRequest ->
                  W -> grpc.result commonpb.CompensationResponse * W
}.

Record ShippingServiceClient (W : Type) : Type := {
  ArrangeShipping : context.Context -> shippingpb.ArrangeShippingRequest ->
                    W -> grpc.result shippingpb.ArrangeShippingResponse * W;
  CancelShipping : context.Context -> shippingpb.CancelShippingRequest ->
                   W -> grpc.result commonpb.CompensationResponse * W
}.

Record ServiceClients (W : Type) : Type := {
  Order : OrderServiceClient W;
  Payment : PaymentServiceClient W;
  Shipping : ShippingServiceClient W
}.

Arguments CreateOrder {W} _ _ _ _.
Arguments CancelOrder {W} _ _ _ _.
Arguments CompleteOrder {W} _ _ _ _.
Arguments ProcessPayment {W} _ _ _ _.
Arguments RefundPayment {W} _ _ _ _.
Arguments ArrangeShipping {W} _ _ _ _.
Arguments CancelShipping {W} _ _ _ _.
Arguments Order {W} _.
Arguments Payment {W} _.
Arguments Shipping {W} _.

End grpc_clients.

(** ** The orchestrator ([internal/orchestrator/orchestrator.go]) *)

Module orchestrator.

(** The remote calls the orchestrator can issue, with their arguments. *)
Inductive Call : Type :=
| Call_CreateOrder (ctx : context.Context) (req : orderpb.CreateOrderRequest)
| Call_CancelOrder (ctx : context.Context) (req : orderpb.CancelOrderRequest)
| Call_CompleteOrder (ctx : context.Context) (req : orderpb.CompleteOrderRequest)
| Call_ProcessPayment (ctx : context.Context) (req : paymentpb.ProcessPaymentRequest)
| Call_RefundPayment (ctx : context.Context) (req : paymentpb.RefundPaymentRequest)
| Call_ArrangeShipping (ctx : context.Context) (req : shippingpb.ArrangeShippingRequest)
| Call_CancelShipping (ctx : context.Context) (req : shippingpb.CancelShippingRequest).

(** One constructor for each [log.Println] and [log.Printf] of the file, in
    the order of the source, with the values it prints. *)
Inductive LogLine : Type :=
| Log_Starting
| Log_Step1
| Log_Step1_Failed (err : grpc.Status)
| Log_Step1_Success (orderID : string)
| Log_Step2
| Log_Step2_Failed (err : option grpc.Status) (st : paymentpb.PaymentStatus)
| Log_Step2_Success (paymentID : string)
| Log_Step3
| Log_Step3_Failed (c : grpc.Code) (msg : string)
| Log_Step3_Success (shipmentID : string)
| Log_Saga_Completed (orderID : string)
| Log_Marking_Completed (orderID : string)
| Log_Complete_WARNING (orderID : string) (err : grpc.Status)
| Log_Complete_Marked (orderID : string)
| Log_Order_Skipping
| Log_Order_Compensating (orderID : string)
| Log_Order_CRITICAL (orderID : string) (err : grpc.Status)
| Log_Order_Compensation_Success (orderID : string)
| Log_Payment_Skipping (orderID : string)
| Log_Payment_Compensating (paymentID orderID : string)
| Log_Payment_CRITICAL (orderID paymentID : string) (err : grpc.Status)
| Log_Payment_Compensation_Success (paymentID : string)
| Log_Shipping_Skipping (orderID : string)
| Log_Shipping_Compensating (shipmentID orderID : string)
| Log_Shipping_CRITICAL (orderID shipmentID : string) (err : grpc.Status)
| Log_Shipping_Compensation_Success (shipmentID : string).

(** What an observer of the orchestrator sees, in order: its log lines and
    the remote calls it issues. *)
Inductive Event : Type :=
| Logged (l : LogLine)
| Invoked (c : Call).

(** The remote calls of a trace, in order. *)
Definition call_of (e : Event) : option Call :=
  match e with
  | Invoked c => Some c
  | Logged _ => None
  end.

Definition calls (t : list Event) : list Call := omap call_of t.

(** The compensating actions, and what a trace shows of each attempt at one:
    the compensation function either issued the remote call or logged that
    it skips it. *)
Inductive Compensation : Type := CancelShipping | RefundPayment | CancelOrder.

Inductive Attempt : Type :=
| Called (c : Compensation)
| Skipped (c : Compensation).

Global Instance Compensation_eq_dec : EqDecision Compensation.
Proof. solve_decision. Defined.

Global Instance Attempt_eq_dec : EqDecision Attempt.
Proof. solve_decision. Defined.

Definition attempt_of (e : Event) : option Attempt :=
  match e with
  | Invoked (Call_CancelShipping _ _) => Some (Called CancelShipping)
  | Invoked (Call_RefundPayment _ _) => Some (Called RefundPayment)
  | Invoked (Call_CancelOrder _ _) => Some (Called CancelOrder)
  | Logged (Log_Shipping_Skipping _) => Some (Skipped CancelShipping)
  | Logged (Log_Payment_Skipping _) => Some (Skipped RefundPayment)
  | Logged Log_Order_Skipping => Some (Skipped CancelOrder)
  | _ => None
  end.

Definition attempts (t : list Event) : list Attempt := omap attempt_of t.

(** A computation of the orchestrator: from the world behind the stubs to a
    value, the events of the computation, and the world afterwards. *)
Definition Saga (W A : Type) : Type := W -> A * list Event * W.

Definition ret {W A} (a : A) : Saga W A := fun w => (a, [], w).

Definition bind {W A B} (m : Saga W A) (f : A -> Saga W B) : Saga W B :=
  fun w =>
    let '(a, t1, w1) := m w in
    let '(b, t2, w2) := f a w1 in
    (b, (t1 ++ t2)%list, w2).

Definition logf {W} (l : LogLine) : Saga W unit :=
  fun w => (tt, [Logged l], w).

(** A remote call through a stub: the call is observed, then the stub runs. *)
Definition invoke {W A} (c : Call) (stub : W -> grpc.result A * W)
  : Saga W (grpc.result A) :=
  fun w => let '(r, w1) := stub w in (r, [Invoked c], w1).

Declare Scope saga_scope.
Delimit Scope saga_scope with saga.
Notation "x <- m ;; k" := (bind m (fun x => k))
  (at level 100, m at next level, right associativity) : saga_scope.
Notation "m ;; k" := (bind m (fun _ => k))
  (at level 100, right associativity) : saga_scope.

(** [SagaState]: the intermediate results of one execution. *)
Record SagaState : Type := {
  OrderID : option commonpb.OrderID;
  PaymentID : string;
  ShipmentID : string
}.

(** The result of [ExecuteCreateOrderSaga], a Go [error]: [None] is [nil],
    [Some msg] is [errors.New(msg)]. *)
Definition error : Type := option string.

(** The context of every compensating and finalizing call:
    [context.WithTimeout(context.Background(), 5*time.Second)]. *)
Definition fresh_ctx : context.Context :=
  context.WithTimeout context.Background 5.

(** The test [paymentFailed] of step 2: the call returned an error, or it
    returned a response whose status is FAILED. *)
Definition paymentFailed
    (r : grpc.result paymentpb.ProcessPaymentResponse) : bool :=
  match r with
  | inr _ => true
  | inl processPaymentResp =>
      bool_decide
        (paymentpb.ProcessPaymentResponse_Status processPaymentResp
         = paymentpb.PaymentStatus_FAILED)
  end.

Section Orchestrator.
Context {W : Type}.
Variable clients : grpc_clients.ServiceClients W.

Local Open Scope saga_scope.

Definition compensateCreateOrder (orderID : option commonpb.OrderID)
  : Saga W unit :=
  match orderID with
  | None => logf Log_Order_Skipping
  | Some orderID =>
      if decide (commonpb.Id orderID = "") then logf Log_Order_Skipping
      else
        logf (Log_Order_Compensating (commonpb.Id orderID)) ;;
        let req := {| orderpb.CancelOrderRequest_OrderId := orderID |} in
        r <- invoke (Call_CancelOrder fresh_ctx req)
               (grpc_clients.CancelOrder (grpc_clients.Order clients)
                  fresh_ctx req) ;;
        match r with
        | inr err => logf (Log_Order_CRITICAL (commonpb.Id orderID) err)
        | inl _ => logf (Log_Order_Compensation_Success (commonpb.Id orderID))
        end
  end.

(** [orderID] is [state.OrderID] after step 1 succeeded, a non-nil pointer. *)
Definition compensateProcessPayment (orderID : commonpb.OrderID)
    (paymentID : string) : Saga W unit :=
  if decide (paymentID = "") then
    logf (Log_Payment_Skipping (commonpb.Id orderID))
  else
    logf (Log_Payment_Compensating paymentID (commonpb.Id orderID)) ;;
    let req := {| paymentpb.RefundPaymentRequest_OrderId := orderID;
                  paymentpb.RefundPaymentRequest_PaymentId := paymentID |} in
    r <- invoke (Call_RefundPayment fresh_ctx req)
           (grpc_clients.RefundPayment (grpc_clients.Payment clients)
              fresh_ctx req) ;;
    match r with
    | inr err =>
        logf (Log_Payment_CRITICAL (commonpb.Id orderID) paymentID err)
    | inl _ => logf (Log_Payment_Compensation_Success paymentID)
    end.

(** [orderID] is [state.OrderID] after step 1 succeeded, a non-nil pointer. *)
Definition compensateArrangeShipping (orderID : commonpb.OrderID)
    (shipmentID : string) : Saga W unit :=
  if decide (shipmentID = "") then
    logf (Log_Shipping_Skipping (commonpb.Id orderID))
  else
    logf (Log_Shipping_Compensating shipmentID (commonpb.Id orderID)) ;;
    let req := {| shippingpb.CancelShippingRequest_OrderId := orderID;
                  shippingpb.CancelShippingRequest_ShipmentId := shipmentID |} in
    r <- invoke (Call_CancelShipping fresh_ctx req)
           (grpc_clients.CancelShipping (grpc_clients.Shipping clients)
              fresh_ctx req) ;;
    match r with
    | inr err =>
        logf (Log_Shipping_CRITICAL (commonpb.Id orderID) shipmentID err)
    | inl _ => logf (Log_Shipping_Compensation_Success shipmentID)
    end.

(** [ExecuteCreateOrderSaga].  After step 1 has succeeded [state.OrderID]
    is the identifier of the response; [orderID] names it where the source
    dereferences the pointer.  Every error a stub returns is a gRPC status,
    so at step 3 [status.FromError] succeeds. *)
Definition ExecuteCreateOrderSaga (ctx : context.Context)
    (details : commonpb.OrderDetails) (paymentInfo : commonpb.PaymentInfo)
    (shippingAddr : commonpb.ShippingAddress) : Saga W error :=
  logf Log_Starting ;;
  let state := {| OrderID := None; PaymentID := ""; ShipmentID := "" |} in
  (* --- Step 1: Create Order --- *)
  logf Log_Step1 ;;
  let createOrderReq := {| orderpb.Details := details |} in
  r1 <- invoke (Call_CreateOrder ctx createOrderReq)
          (grpc_clients.CreateOrder (grpc_clients.Order clients)
             ctx createOrderReq) ;;
  match r1 with
  | inr err =>
      logf (Log_Step1_Failed err) ;;
      compensateCreateOrder (OrderID state) ;;
      ret (Some "failed to create order")
  | inl createOrderResp =>
      let orderID := orderpb.CreateOrderResponse_OrderId createOrderResp in
      let state := {| OrderID := Some orderID;
                      PaymentID := PaymentID state;
                      ShipmentID := ShipmentID state |} in
      logf (Log_Step1_Success (commonpb.Id orderID)) ;;
      (* --- Step 2: Process Payment --- *)
      logf Log_Step2 ;;
      let processPaymentReq :=
        {| paymentpb.ProcessPaymentRequest_OrderId := orderID;
           paymentpb.PaymentInfo := paymentInfo |} in
      r2 <- invoke (Call_ProcessPayment ctx processPaymentReq)
              (grpc_clients.ProcessPayment (grpc_clients.Payment clients)
                 ctx processPaymentReq) ;;
      if paymentFailed r2 then
        logf (Log_Step2_Failed
                (match r2 with inr err => Some err | inl _ => None end)
                (match r2 with
                 | inr _ => paymentpb.PaymentStatus_PAYMENT_STATUS_UNSPECIFIED
                 | inl resp => paymentpb.ProcessPaymentResponse_Status resp
                 end)) ;;
        compensateProcessPayment orderID (PaymentID state) ;;
        compensateCreateOrder (OrderID state) ;;
        ret (Some "failed to process payment")
      else
        match r2 with
        | inr _ =>
            (* excluded: paymentFailed holds whenever the call erred *)
            ret (Some "failed to process payment")
        | inl processPaymentResp =>
            let state :=
              {| OrderID := OrderID state;
                 PaymentID :=
                   paymentpb.ProcessPaymentResponse_PaymentId processPaymentResp;
                 ShipmentID := ShipmentID state |} in
            logf (Log_Step2_Success (PaymentID state)) ;;
            (* --- Step 3: Arrange Shipping --- *)
            logf Log_Step3 ;;
            let arrangeShippingReq :=
              {| shippingpb.ArrangeShippingRequest_OrderId := orderID;
                 shippingpb.ArrangeShippingRequest_Address := shippingAddr |} in
            r3 <- invoke (Call_ArrangeShipping ctx arrangeShippingReq)
                    (grpc_clients.ArrangeShipping
                       (grpc_clients.Shipping clients)
                       ctx arrangeShippingReq) ;;
            match r3 with
            | inr err =>
                logf (Log_Step3_Failed (grpc.code err) (grpc.message err)) ;;
                compensateArrangeShipping orderID (ShipmentID state) ;;
                compensateProcessPayment orderID (PaymentID state) ;;
                compensateCreateOrder (OrderID state) ;;
                ret (Some "failed to arrange shipping")
            | inl arrangeShippingResp =>
                let state :=
                  {| OrderID := OrderID state;
                     PaymentID := PaymentID state;
                     ShipmentID :=
                       shippingpb.ArrangeShippingResponse_ShipmentId
                         arrangeShippingResp |} in
                logf (Log_Step3_Success (ShipmentID state)) ;;
                (* --- Saga Success --- *)
                logf (Log_Saga_Completed (commonpb.Id orderID)) ;;
                logf (Log_Marking_Completed (commonpb.Id orderID)) ;;
                let completeReq :=
                  {| orderpb.CompleteOrderRequest_OrderId := orderID |} in
                r4 <- invoke (Call_CompleteOrder fresh_ctx completeReq)
                        (grpc_clients.CompleteOrder
                           (grpc_clients.Order clients)
                           fresh_ctx completeReq) ;;
                match r4 with
                | inr completeErr =>
                    logf (Log_Complete_WARNING (commonpb.Id orderID)
                            completeErr)
                | inl _ => logf (Log_Complete_Marked (commonpb.Id orderID))
                end ;;
                ret None
            end
        end
  end.

End Orchestrator.

End orchestrator.

(** ** The deployed system: the orchestrator's stubs wired to the servers *)

Module system.

(** The three server processes, each with its own store. *)
Record Servers : Type := {
  orderSrv : order.Server;
  paymentSrv : payment.Server;
  shippingSrv : shipping.Server
}.

Definition NewServers : Servers :=
  {| orderSrv := order.NewServer;
     paymentSrv := payment.NewServer;
     shippingSrv := shipping.NewServer |}.

(** The fate of one remote call on the wire: the handler runs and its
    response arrives; the request never reaches the handler; or the handler
    runs and its response is lost.  In the last two cases the stub returns
    the transport's own status error (a deadline that passed, a connection
    that broke). *)
Inductive Transport : Type :=
| Delivered
| RequestLost (err : grpc.Status)
| ReplyLost (err : grpc.Status).

(** What lies behind the stubs: the servers, the fate of the n-th remote
    call, and the n-th number the servers draw with [rand.Intn]. *)
Record World : Type := {
  servers : Servers;
  net : nat -> Transport;
  sent : nat;
  dice : nat -> Z;
  drawn : nat
}.

Definition with_servers (w : World) (s : Servers) : World :=
  {| servers := s; net := net w; sent := sent w;
     dice := dice w; drawn := drawn w |}.

Definition next_call (w : World) : World :=
  {| servers := servers w; net := net w; sent := S (sent w);
     dice := dice w; drawn := drawn w |}.

Definition next_draw (w : World) : World :=
  {| servers := servers w; net := net w; sent := sent w;
     dice := dice w; drawn := S (drawn w) |}.

(** [rand.Intn(10)]: the next number of the stream, in the range 0..9. *)
Definition Intn10 (w : World) : Z * World :=
  (Z.modulo (dice w (drawn w)) 10, next_draw w).

(** A stub: the transport decides whether the handler runs and whether its
    response comes back. *)
Definition remote {A} (handler : World -> grpc.result A * World) (w : World)
  : grpc.result A * World :=
  let w0 := next_call w in
  match net w (sent w) with
  | Delivered => handler w0
  | RequestLost err => (inr err, w0)
  | ReplyLost err => let '(_, w1) := handler w0 in (inr err, w1)
  end.

Definition on_order {A} (h : order.Server -> grpc.result A * order.Server)
    (w : World) : grpc.result A * World :=
  let '(r, s) := h (orderSrv (servers w)) in
  (r, with_servers w {| orderSrv := s;
                        paymentSrv := paymentSrv (servers w);
                        shippingSrv := shippingSrv (servers w) |}).

Definition on_payment {A}
    (h : payment.Server -> grpc.result A * payment.Server)
    (w : World) : grpc.result A * World :=
  let '(r, s) := h (paymentSrv (servers w)) in
  (r, with_servers w {| orderSrv := orderSrv (servers w);
                        paymentSrv := s;
                        shippingSrv := shippingSrv (servers w) |}).

Definition on_shipping {A}
    (h : shipping.Server -> grpc.result A * shipping.Server)
    (w : World) : grpc.result A * World :=
  let '(r, s) := h (shippingSrv (servers w)) in
  (r, with_servers w {| orderSrv := orderSrv (servers w);
                        paymentSrv := paymentSrv (servers w);
                        shippingSrv := s |}).

(** [grpc_clients.NewServiceClients]: one stub per service. *)
Definition clients : grpc_clients.ServiceClients World :=
  {| grpc_clients.Order :=
       {| grpc_clients.CreateOrder := fun _ req =>
            remote (on_order (fun s => order.CreateOrder s req));
          grpc_clients.CancelOrder := fun _ req =>
            remote (on_order (fun s => order.CancelOrder s req));
          grpc_clients.CompleteOrder := fun _ req =>
            remote (on_order (fun s => order.CompleteOrder s req)) |};
     grpc_clients.Payment :=
       {| grpc_clients.ProcessPayment := fun _ req =>
            remote (fun w =>
                      let '(roll, w1) := Intn10 w in
                      on_payment
                        (fun s => payment.ProcessPayment roll s req) w1);
          grpc_clients.RefundPayment := fun _ req =>
            remote (on_payment (fun s => payment.RefundPayment s req)) |};
     grpc_clients.Shipping :=
       {| grpc_clients.ArrangeShipping := fun _ req =>
            remote (fun w =>
                      let '(roll, w1) := Intn10 w in
                      on_shipping
                        (fun s => shipping.ArrangeShipping roll s req) w1);
          grpc_clients.CancelShipping := fun _ req =>
            remote (on_shipping (fun s => shipping.CancelShipping s req)) |}
  |}.

(** One execution of the saga against the deployed services. *)
Definition ExecuteCreateOrderSaga (ctx : context.Context)
    (details : commonpb.OrderDetails) (paymentInfo : commonpb.PaymentInfo)
    (shippingAddr : commonpb.ShippingAddress)
  : orchestrator.Saga World orchestrator.error :=
  orchestrator.ExecuteCreateOrderSaga clients ctx details paymentInfo
    shippingAddr.

(** The operations that change the status of a stored record, as requests
    that reach the servers, and a sequence of them. *)
Inductive StoreOp : Type :=
| Op_CancelOrder (req : orderpb.CancelOrderRequest)
| Op_CompleteOrder (req : orderpb.CompleteOrderRequest)
| Op_RefundPayment (req : paymentpb.RefundPaymentRequest)
| Op_CancelShipping (req : shippingpb.CancelShippingRequest).

Definition apply_op (s : Servers) (op : StoreOp) : Servers :=
  match op with
  | Op_CancelOrder req =>
      {| orderSrv := snd (order.CancelOrder (orderSrv s) req);
         paymentSrv := paymentSrv s; shippingSrv := shippingSrv s |}
  | Op_CompleteOrder req =>
      {| orderSrv := snd (order.CompleteOrder (orderSrv s) req);
         paymentSrv := paymentSrv s; shippingSrv := shippingSrv s |}
  | Op_RefundPayment req =>
      {| orderSrv := orderSrv s;
         paymentSrv := snd (payment.RefundPayment (paymentSrv s) req);
         shippingSrv := shippingSrv s |}
  | Op_CancelShipping req =>
      {| orderSrv := orderSrv s; paymentSrv := paymentSrv s;
         shippingSrv := snd (shipping.CancelShipping (shippingSrv s) req) |}
  end.

Definition apply_ops (s : Servers) (ops : list StoreOp) : Servers :=
  fold_left apply_op ops s.

(** The status of the record stored under a key, if there is one. *)
Definition order_status (s : Servers) (k : string)
  : option orderpb.OrderStatus :=
  orderpb.Status <$> order.orders (orderSrv s) !! k.

Definition payment_status (s : Servers) (k : string)
  : option paymentpb.PaymentStatus :=
  paymentpb.Status <$> payment.payments (paymentSrv s) !! k.

Definition shipment_status (s : Servers) (k : string)
  : option shippingpb.ShippingStatus :=
  shippingpb.Status <$> shipping.shipments (shippingSrv s) !! k.

End system.

(** ** A concrete scenario

    The order of the end-to-end examples of the specification: user u1 buys
    two units of product A at 10.5, pays 21.0, and has it shipped. *)

Module scenario.

Definition ctx : context.Context := context.WithTimeout context.Background 30.

Definition details : commonpb.OrderDetails :=
  {| commonpb.UserId := "u1";
     commonpb.Items :=
       [ {| commonpb.ProductId := "A"; commonpb.Quantity := 2;
            commonpb.Price := Float32.lit 21 (-1) |} ] |}.

Definition paymentInfo : commonpb.PaymentInfo :=
  {| commonpb.CardNumber := "xxxx-xxxx-xxxx-1234";
     commonpb.ExpiryDate := "12/26";
     commonpb.Cvv := "123";
     commonpb.Amount := Float32.lit 21 0 |}.

Definition shippingAddr : commonpb.ShippingAddress :=
  {| commonpb.Street := "123 Saga Lane";
     commonpb.City := "Orchestration City";
     commonpb.State := "Workflow";
     commonpb.ZipCode := "98765";
     commonpb.Country := "GoLand" |}.

Definition orderID : commonpb.OrderID := {| commonpb.Id := "order-u1" |}.
Definition otherOrderID : commonpb.OrderID := {| commonpb.Id := "order-u2" |}.

(** A world: the given servers, a transport and a stream of draws. *)
Definition world (s : system.Servers) (n : nat -> system.Transport)
    (d : nat -> Z) : system.World :=
  {| system.servers := s; system.net := n; system.sent := 0%nat;
     system.dice := d; system.drawn := 0%nat |}.

(** Transports: every call delivered; every call delivered but the n-th,
    whose request is lost. *)
Definition reliable : nat -> system.Transport := fun _ => system.Delivered.

Definition timeout : grpc.Status :=
  grpc.Errorf grpc.DeadlineExceeded "context deadline exceeded".

Definition losing (n : nat) : nat -> system.Transport :=
  fun i => if decide (i = n) then system.RequestLost timeout
           else system.Delivered.

(** Streams of draws: every draw succeeds (9); every draw fails (0); the
    payment succeeds and the carrier fails (9 then 0). *)
Definition lucky : nat -> Z := fun _ => 9.
Definition unlucky : nat -> Z := fun _ => 0.
Definition carrier_down : nat -> Z :=
  fun i => if decide (i = 0%nat) then 9 else 0.

(** The saga of the scenario, run in a world. *)
Definition run (w : system.World)
  : orchestrator.error * list orchestrator.Event * system.World :=
  system.ExecuteCreateOrderSaga ctx details paymentInfo shippingAddr w.

(** The servers after a first saga that succeeded end to end. *)
Definition after_success : system.Servers :=
  system.servers (snd (run (world system.NewServers reliable lucky))).

(** The servers after a saga whose payment was declined. *)
Definition after_declined : system.Servers :=
  system.servers (snd (run (world system.NewServers reliable unlucky))).

Definition cancelOrderReq : orderpb.CancelOrderRequest :=
  {| orderpb.CancelOrderRequest_OrderId := orderID |}.

Definition completeOrderReq : orderpb.CompleteOrderRequest :=
  {| orderpb.CompleteOrderRequest_OrderId := orderID |}.

Definition refundReq : paymentpb.RefundPaymentRequest :=
  {| paymentpb.RefundPaymentRequest_OrderId := orderID;
     paymentpb.RefundPaymentRequest_PaymentId := "pay-order-u1" |}.

(** A refund of the same payment on behalf of another order. *)
Definition foreignRefundReq : paymentpb.RefundPaymentRequest :=
  {| paymentpb.RefundPaymentRequest_OrderId := otherOrderID;
     paymentpb.RefundPaymentRequest_PaymentId := "pay-order-u1" |}.

Definition cancelShippingReq : shippingpb.CancelShippingRequest :=
  {| shippingpb.CancelShippingRequest_OrderId := orderID;
     shippingpb.CancelShippingRequest_ShipmentId := "ship-order-u1" |}.

Definition foreignCancelShippingReq : shippingpb.CancelShippingRequest :=
  {| shippingpb.CancelShippingRequest_OrderId := otherOrderID;
     shippingpb.CancelShippingRequest_ShipmentId := "ship-order-u1" |}.

End scenario.

(** ** The generated enum tables of [proto/payment] *)

Module paymentpb_tables.
Import paymentpb.

(** The [int32] behind a [PaymentStatus] constant. *)
Definition Number (x : PaymentStatus) : Z :=
  match x with
  | PaymentStatus_PAYMENT_STATUS_UNSPECIFIED => 0
  | PaymentStatus_SUCCESS => 1
  | PaymentStatus_FAILED => 2
  | PaymentStatus_REFUNDED => 3
  end.

Definition PaymentStatus_name : gmap Z string :=
  <[0 := "PAYMENT_STATUS_UNSPECIFIED"]>
    (<[1 := "SUCCESS"]> (<[2 := "FAILED"]> (<[3 := "REFUNDED"]> empty))).

Definition PaymentStatus_value : gmap string Z :=
  <["PAYMENT_STATUS_UNSPECIFIED" := 0]>
    (<["SUCCESS" := 1]> (<["FAILED" := 2]> (<["REFUNDED" := 3]> empty))).

End paymentpb_tables.

(** ** Requests reaching the servers *)

Module traffic.
Import system.

(** Any request one of the three servers can receive, from the orchestrator
    or from any other client, with the draw of the handlers that draw. *)
Inductive Request : Type :=
| Req_CreateOrder (req : orderpb.CreateOrderRequest)
| Req_CancelOrder (req : orderpb.CancelOrderRequest)
| Req_CompleteOrder (req : orderpb.CompleteOrderRequest)
| Req_ProcessPayment (roll : Z) (req : paymentpb.ProcessPaymentRequest)
| Req_RefundPayment (req : paymentpb.RefundPaymentRequest)
| Req_ArrangeShipping (roll : Z) (req : shippingpb.ArrangeShippingRequest)
| Req_CancelShipping (req : shippingpb.CancelShippingRequest).

(** The servers after a request has been handled. *)
Definition handle (s : Servers) (r : Request) : Servers :=
  match r with
  | Req_CreateOrder req =>
      {| orderSrv := snd (order.CreateOrder (orderSrv s) req);
         paymentSrv := paymentSrv s; shippingSrv := shippingSrv s |}
  | Req_CancelOrder req =>
      {| orderSrv := snd (order.CancelOrder (orderSrv s) req);
         paymentSrv := paymentSrv s; shippingSrv := shippingSrv s |}
  | Req_CompleteOrder req =>
      {| orderSrv := snd (order.CompleteOrder (orderSrv s) req);
         paymentSrv := paymentSrv s; shippingSrv := shippingSrv s |}
  | Req_ProcessPayment roll req =>
      {| orderSrv := orderSrv s;
         paymentSrv := snd (payment.ProcessPayment roll (paymentSrv s) req);
         shippingSrv := shippingSrv s |}
  | Req_RefundPayment req =>
      {| orderSrv := orderSrv s;
         paymentSrv := snd (payment.RefundPayment (paymentSrv s) req);
         shippingSrv := shippingSrv s |}
  | Req_ArrangeShipping roll req =>
      {| orderSrv := orderSrv s; paymentSrv := paymentSrv s;
         shippingSrv :=
           snd (shipping.ArrangeShipping roll (shippingSrv s) req) |}
  | Req_CancelShipping req =>
      {| orderSrv := orderSrv s; paymentSrv := paymentSrv s;
         shippingSrv := snd (shipping.CancelShipping (shippingSrv s) req) |}
  end.

Definition handle_all (s : Servers) (rs : list Request) : Servers :=
  fold_left handle rs s.

(** Records sit under the key made from their own identity: an order under
    its id, which is order- and the user id; a payment under its id, which
    is pay- and the id of its order; a shipment under its id, which is
    ship- and the id of its order. *)
Definition well_keyed (s : Servers) : Prop :=
  (forall k o, order.orders (orderSrv s) !! k = Some o ->
               orderpb.Id o = k /\ k = "order-" +:+ orderpb.UserId o)
  /\ (forall k p, payment.payments (paymentSrv s) !! k = Some p ->
                  paymentpb.Id p = k
                  /\ k = "pay-" +:+ commonpb.Id (paymentpb.OrderId p))
  /\ (forall k sh, shipping.shipments (shippingSrv s) !! k = Some sh ->
                   shippingpb.Id sh = k
                   /\ k = "ship-" +:+ commonpb.Id (shippingpb.OrderId sh)).

(** Two records that differ at most in their status. *)
Definition same_order (o o' : orderpb.Order) : Prop :=
  orderpb.Id o' = orderpb.Id o /\ orderpb.UserId o' = orderpb.UserId o
  /\ orderpb.Items o' = orderpb.Items o
  /\ orderpb.TotalAmount o' = orderpb.TotalAmount o.

Definition same_payment (p p' : paymentpb.Payment) : Prop :=
  paymentpb.Id p' = paymentpb.Id p
  /\ paymentpb.OrderId p' = paymentpb.OrderId p
  /\ paymentpb.Amount p' = paymentpb.Amount p
  /\ paymentpb.TransactionId p' = paymentpb.TransactionId p.

Definition same_shipment (sh sh' : shippingpb.Shipment) : Prop :=
  shippingpb.Id sh' = shippingpb.Id sh
  /\ shippingpb.OrderId sh' = shippingpb.OrderId sh
  /\ shippingpb.Address sh' = shippingpb.Address sh
  /\ shippingpb.TrackingNumber sh' = shippingpb.TrackingNumber sh.

(** Two optional records: both absent, or both present and differing at
    most in their status. *)
Definition same_but_status {A} (R : A -> A -> Prop) (x y : option A) : Prop :=
  match x, y with
  | None, None => True
  | Some a, Some b => R a b
  | _, _ => False
  end.

End traffic.

(** ** Reading a trace *)

Module observe.
Import orchestrator.

(** The context a remote call was issued with. *)
Definition ctx_of (c : Call) : context.Context :=
  match c with
  | Call_CreateOrder ctx _ | Call_CancelOrder ctx _ | Call_CompleteOrder ctx _
  | Call_ProcessPayment ctx _ | Call_RefundPayment ctx _
  | Call_ArrangeShipping ctx _ | Call_CancelShipping ctx _ => ctx
  end.

(** The forward steps of the saga, as opposed to its compensating and
    finalizing calls. *)
Definition is_forward (c : Call) : bool :=
  match c with
  | Call_CreateOrder _ _ | Call_ProcessPayment _ _ | Call_ArrangeShipping _ _ =>
      true
  | _ => false
  end.

Definition is_CancelShipping (c : Call) : bool :=
  match c with Call_CancelShipping _ _ => true | _ => false end.

Definition is_CompleteOrder (c : Call) : bool :=
  match c with Call_CompleteOrder _ _ => true | _ => false end.

End observe.

(** ** The records of one order *)

Module isolation.
Import system.

(** The servers [s'] hold what [s] holds under every key other than the
    three keys of the order [oid]: its own, that of its payment and that of
    its shipment. *)
Definition untouched_outside (oid : string) (s s' : Servers) : Prop :=
  (forall k, k <> oid ->
             order.orders (orderSrv s') !! k = order.orders (orderSrv s) !! k)
  /\ (forall k, k <> "pay-" +:+ oid ->
                payment.payments (paymentSrv s') !! k
                = payment.payments (paymentSrv s) !! k)
  /\ (forall k, k <> "ship-" +:+ oid ->
                shipping.shipments (shippingSrv s') !! k
                = shipping.shipments (shippingSrv s) !! k).

End isolation.

(** ** Further concrete inputs *)

Module examples.

(** A payment request for the order of the scenario. *)
Definition processPaymentReq : paymentpb.ProcessPaymentRequest :=
  {| paymentpb.ProcessPaymentRequest_OrderId := scenario.orderID;
     paymentpb.PaymentInfo := scenario.paymentInfo |}.

Definition arrangeShippingReq : shippingpb.ArrangeShippingRequest :=
  {| shippingpb.ArrangeShippingRequest_OrderId := scenario.orderID;
     shippingpb.ArrangeShippingRequest_Address := scenario.shippingAddr |}.

(** The servers of a saga whose carrier was down: order CANCELLED, payment
    REFUNDED, no shipment. *)
Definition after_carrier_down : system.Servers :=
  system.servers
    (snd (scenario.run
            (scenario.world system.NewServers scenario.reliable
               scenario.carrier_down))).

(** A transport that delivers every call but the n-th, whose reply is lost
    after the handler ran. *)
Definition dropping_reply (n : nat) : nat -> system.Transport :=
  fun i => if decide (i = n) then system.ReplyLost scenario.timeout
           else system.Delivered.

(** An item whose price is not a number. *)
Definition nan_item : commonpb.Item :=
  {| commonpb.ProductId := "B"; commonpb.Quantity := 1;
     commonpb.Price := S754_nan |}.

End examples.

(** * Properties *)

(** ** The order store *)

Section OrderStore.
Import orderpb.

Implicit Types (s : order.Server) (k : string).

Lemma CreateOrder_response s (req : CreateOrderRequest) :
  fst (order.CreateOrder s req)
  = inl {| CreateOrderResponse_OrderId :=
             {| commonpb.Id := "order-" +:+ commonpb.UserId (Details req) |};
           CreateOrderResponse_Status := OrderStatus_PENDING |}.
Proof. reflexivity. Qed.

Lemma CreateOrder_stored s (req : CreateOrderRequest) :
  order.orders (snd (order.CreateOrder s req))
    !! ("order-" +:+ commonpb.UserId (Details req))
  = Some {| Id := "order-" +:+ commonpb.UserId (Details req);
            UserId := commonpb.UserId (Details req);
            Items := commonpb.Items (Details req);
            TotalAmount := order.calculateTotal (commonpb.Items (Details req));
            Status := OrderStatus_PENDING |}.
Proof. unfold order.CreateOrder; simpl. apply lookup_insert_eq. Qed.

Lemma CreateOrder_other_keys s (req : CreateOrderRequest) k :
  k <> "order-" +:+ commonpb.UserId (Details req) ->
  order.orders (snd (order.CreateOrder s req)) !! k = order.orders s !! k.
Proof.
  intros Hk. unfold order.CreateOrder; simpl.
  apply lookup_insert_ne. congruence.
Qed.

(** The status under a key after [CancelOrder]: CANCELLED if the request
    names that key and a record is stored there, unchanged otherwise. *)
Lemma CancelOrder_status s (req : CancelOrderRequest) k :
  Status <$> order.orders (snd (order.CancelOrder s req)) !! k
  = if decide (commonpb.Id (CancelOrderRequest_OrderId req) = k)
    then (fun _ => OrderStatus_CANCELLED) <$> order.orders s !! k
    else Status <$> order.orders s !! k.
Proof.
  unfold order.CancelOrder.
  destruct (decide (commonpb.Id (CancelOrderRequest_OrderId req) = k))
    as [->|Hne].
  - destruct (order.orders s !! k) as [o|] eqn:Hk; simpl;
      [|rewrite Hk; reflexivity].
    destruct (decide (Status o = OrderStatus_CANCELLED)) as [Hc|Hc]; simpl.
    + rewrite Hk. simpl. congruence.
    + rewrite lookup_insert_eq. reflexivity.
  - destruct (order.orders s !! commonpb.Id (CancelOrderRequest_OrderId req))
      as [o|]; simpl; [|reflexivity].
    destruct (decide (Status o = OrderStatus_CANCELLED)); simpl;
      [reflexivity|].
    rewrite lookup_insert_ne by exact Hne. reflexivity.
Qed.

(** The status under a key after [CompleteOrder]: COMPLETED if the request
    names that key and the record there is PENDING, unchanged otherwise. *)
Lemma CompleteOrder_status s (req : CompleteOrderRequest) k :
  Status <$> order.orders (snd (order.CompleteOrder s req)) !! k
  = if decide (commonpb.Id (CompleteOrderRequest_OrderId req) = k)
    then (fun st => if decide (st = OrderStatus_PENDING)
                    then OrderStatus_COMPLETED else st)
           <$> (Status <$> order.orders s !! k)
    else Status <$> order.orders s !! k.
Proof.
  unfold order.CompleteOrder.
  destruct (decide (commonpb.Id (CompleteOrderRequest_OrderId req) = k))
    as [->|Hne].
  - destruct (order.orders s !! k) as [o|] eqn:Hk; simpl;
      [|rewrite Hk; reflexivity].
    destruct (decide (Status o = OrderStatus_PENDING)) as [Hc|Hc]; simpl.
    + rewrite lookup_insert_eq. reflexivity.
    + rewrite Hk. reflexivity.
  - destruct (order.orders s !! commonpb.Id (CompleteOrderRequest_OrderId req))
      as [o|]; simpl; [|reflexivity].
    destruct (decide (Status o = OrderStatus_PENDING)); simpl;
      [|reflexivity].
    rewrite lookup_insert_ne by exact Hne. reflexivity.
Qed.

(** C10.  [CreateOrder] never fails: for every request and every store it
    answers with the identifier made of the prefix order- and the user id,
    with status PENDING, and stores a PENDING record under that key, whatever
    was stored there.  A second call for the same user id, on any later
    store, answers with the same identifier and leaves a PENDING record
    under it, also when the record it replaces was CANCELLED or COMPLETED. *)
Theorem CreateOrder_total_and_overwrites :
  forall s (req : CreateOrderRequest),
    let oid := "order-" +:+ commonpb.UserId (Details req) in
    (exists s',
        order.CreateOrder s req
        = (inl {| CreateOrderResponse_OrderId := {| commonpb.Id := oid |};
                  CreateOrderResponse_Status := OrderStatus_PENDING |}, s')
        /\ Status <$> order.orders s' !! oid = Some OrderStatus_PENDING
        /\ (forall k, k <> oid -> order.orders s' !! k = order.orders s !! k))
    /\ (forall s1 (req2 : CreateOrderRequest) (old : Order),
          commonpb.UserId (Details req2) = commonpb.UserId (Details req) ->
          order.orders s1 !! oid = Some old ->
          fst (order.CreateOrder s1 req2) = fst (order.CreateOrder s req)
          /\ order.orders (snd (order.CreateOrder s1 req2)) !! oid
             = Some {| Id := oid;
                       UserId := commonpb.UserId (Details req2);
                       Items := commonpb.Items (Details req2);
                       TotalAmount :=
                         order.calculateTotal (commonpb.Items (Details req2));
                       Status := OrderStatus_PENDING |}).
Proof.
  intros s req oid. split.
  - exists (snd (order.CreateOrder s req)). split; [reflexivity|]. split.
    + subst oid. rewrite CreateOrder_stored. reflexivity.
    + intros k Hk. apply CreateOrder_other_keys. exact Hk.
  - intros s1 req2 old Hu _. split.
    + rewrite !CreateOrder_response. rewrite Hu. reflexivity.
    + subst oid. rewrite <- Hu. apply CreateOrder_stored.
Qed.

(** A run of C10: the order of user u1 is created, completed by a first
    saga, and created again; the second call answers order-u1 as the first
    did and the stored record is PENDING again. *)
Lemma CreateOrder_total_and_overwrites_witness :
  system.order_status scenario.after_success "order-u1"
  = Some OrderStatus_COMPLETED
  /\ fst (order.CreateOrder (system.orderSrv scenario.after_success)
            {| Details := scenario.details |})
     = fst (order.CreateOrder order.NewServer {| Details := scenario.details |})
  /\ Status <$>
       order.orders
         (snd (order.CreateOrder (system.orderSrv scenario.after_success)
                 {| Details := scenario.details |})) !! "order-u1"
     = Some OrderStatus_PENDING.
Proof.
  split; [vm_compute; reflexivity|].
  destruct (order.orders (system.orderSrv scenario.after_success) !! "order-u1")
    as [old|] eqn:Hold; [|vm_compute in Hold; discriminate].
  destruct (proj2 (CreateOrder_total_and_overwrites
                     order.NewServer {| Details := scenario.details |})
              (system.orderSrv scenario.after_success)
              {| Details := scenario.details |} old eq_refl Hold)
    as [H1 H2].
  split; [exact H1|]. exact (f_equal (fmap Status) H2).
Defined.

End OrderStore.

(** ** The payment store *)

Section PaymentStore.
Import paymentpb.

Implicit Types (s : payment.Server) (k : string).

Lemma ProcessPayment_response roll s (req : ProcessPaymentRequest) :
  fst (payment.ProcessPayment roll s req)
  = inl {| ProcessPaymentResponse_PaymentId :=
             "pay-" +:+ commonpb.Id (ProcessPaymentRequest_OrderId req);
           ProcessPaymentResponse_Status :=
             if (2 <? roll)%Z then PaymentStatus_SUCCESS
             else PaymentStatus_FAILED;
           ProcessPaymentResponse_Message :=
             if (2 <? roll)%Z then "Payment processed successfully."
             else "Payment failed due to insufficient funds." |}.
Proof. reflexivity. Qed.

Lemma ProcessPayment_stored roll s (req : ProcessPaymentRequest) :
  payment.payments (snd (payment.ProcessPayment roll s req))
    !! ("pay-" +:+ commonpb.Id (ProcessPaymentRequest_OrderId req))
  = Some {| Id := "pay-" +:+ commonpb.Id (ProcessPaymentRequest_OrderId req);
            OrderId := ProcessPaymentRequest_OrderId req;
            Amount := commonpb.Amount (PaymentInfo req);
            Status := if (2 <? roll)%Z then PaymentStatus_SUCCESS
                      else PaymentStatus_FAILED;
            TransactionId := "" |}.
Proof. unfold payment.ProcessPayment; simpl. apply lookup_insert_eq. Qed.

(** [RefundPayment] never fails once the record exists and belongs to the
    order of the request. *)
Lemma RefundPayment_owned s (req : RefundPaymentRequest) (p : Payment) :
  payment.payments s !! RefundPaymentRequest_PaymentId req = Some p ->
  commonpb.Id (OrderId p) = commonpb.Id (RefundPaymentRequest_OrderId req) ->
  payment.RefundPayment s req
  = if decide (Status p = PaymentStatus_REFUNDED) then
      (inl {| commonpb.Success := true;
              commonpb.Message := "Payment already refunded" |}, s)
    else if decide (Status p = PaymentStatus_FAILED) then
      (inl {| commonpb.Success := true;
              commonpb.Message :=
                "Payment originally failed, no refund needed" |}, s)
    else
      (inl {| commonpb.Success := true;
              commonpb.Message := "Payment refunded successfully" |},
       {| payment.payments :=
            <[RefundPaymentRequest_PaymentId req :=
                set_Status p PaymentStatus_REFUNDED]> (payment.payments s) |}).
Proof.
  intros Hp Ho. unfold payment.RefundPayment. rewrite Hp.
  destruct (decide (commonpb.Id (OrderId p)
                    <> commonpb.Id (RefundPaymentRequest_OrderId req)));
    [contradiction|reflexivity].
Qed.

(** The status under a key after [RefundPayment]: a record other than the
    one named keeps its status; so does a REFUNDED record. *)
Lemma RefundPayment_status_other s (req : RefundPaymentRequest) k :
  RefundPaymentRequest_PaymentId req <> k ->
  payment.payments (snd (payment.RefundPayment s req)) !! k
  = payment.payments s !! k.
Proof.
  intros Hne. unfold payment.RefundPayment.
  destruct (payment.payments s !! RefundPaymentRequest_PaymentId req)
    as [p|]; [|reflexivity].
  repeat (case_decide; simpl; try reflexivity).
  apply lookup_insert_ne. exact Hne.
Qed.

Lemma RefundPayment_keeps_REFUNDED s (req : RefundPaymentRequest) k :
  Status <$> payment.payments s !! k = Some PaymentStatus_REFUNDED ->
  Status <$> payment.payments (snd (payment.RefundPayment s req)) !! k
  = Some PaymentStatus_REFUNDED.
Proof.
  intros Hk.
  destruct (decide (RefundPaymentRequest_PaymentId req = k)) as [He|Hne];
    [|rewrite RefundPayment_status_other by exact Hne; exact Hk].
  unfold payment.RefundPayment. rewrite He.
  destruct (payment.payments s !! k) as [p|] eqn:Hp; [|discriminate].
  simpl in Hk. injection Hk as Hst.
  repeat (case_decide; simpl; try (rewrite Hp; simpl; congruence)).
  congruence.
Qed.

End PaymentStore.

(** ** The shipping store *)

Section ShippingStore.
Import shippingpb.

Implicit Types (s : shipping.Server) (k : string).

Lemma ArrangeShipping_success roll s (req : ArrangeShippingRequest) :
  (1 <? roll)%Z = true ->
  shipping.ArrangeShipping roll s req
  = (inl {| ArrangeShippingResponse_ShipmentId :=
              "ship-" +:+ commonpb.Id (ArrangeShippingRequest_OrderId req);
            ArrangeShippingResponse_Status := ShippingStatus_SHIPPED |},
     {| shipping.shipments :=
          <["ship-" +:+ commonpb.Id (ArrangeShippingRequest_OrderId req) :=
              {| Id := "ship-"
                       +:+ commonpb.Id (ArrangeShippingRequest_OrderId req);
                 OrderId := ArrangeShippingRequest_OrderId req;
                 Address := ArrangeShippingRequest_Address req;
                 Status := ShippingStatus_SHIPPED;
                 TrackingNumber := "" |}]> (shipping.shipments s) |}).
Proof. intros H. unfold shipping.ArrangeShipping. rewrite H. reflexivity. Qed.

Lemma ArrangeShipping_failure roll s (req : ArrangeShippingRequest) :
  (1 <? roll)%Z = false ->
  shipping.ArrangeShipping roll s req
  = (inr (grpc.Errorf grpc.Internal
            ("Failed to arrange shipping for order "
             +:+ commonpb.Id (ArrangeShippingRequest_OrderId req)
             +:+ ": Carrier unavailable")), s).
Proof. intros H. unfold shipping.ArrangeShipping. rewrite H. reflexivity. Qed.

Lemma CancelShipping_owned s (req : CancelShippingRequest) (sh : Shipment) :
  shipping.shipments s !! CancelShippingRequest_ShipmentId req = Some sh ->
  commonpb.Id (OrderId sh) = commonpb.Id (CancelShippingRequest_OrderId req) ->
  shipping.CancelShipping s req
  = if decide (Status sh = ShippingStatus_CANCELLED) then
      (inl {| commonpb.Success := true;
              commonpb.Message := "Shipment already cancelled" |}, s)
    else
      (inl {| commonpb.Success := true;
              commonpb.Message := "Shipping cancelled successfully" |},
       {| shipping.shipments :=
            <[CancelShippingRequest_ShipmentId req :=
                set_Status sh ShippingStatus_CANCELLED]>
              (shipping.shipments s) |}).
Proof.
  intros Hp Ho. unfold shipping.CancelShipping. rewrite Hp.
  destruct (decide (commonpb.Id (OrderId sh)
                    <> commonpb.Id (CancelShippingRequest_OrderId req)));
    [contradiction|reflexivity].
Qed.

Lemma CancelShipping_status_other s (req : CancelShippingRequest) k :
  CancelShippingRequest_ShipmentId req <> k ->
  shipping.shipments (snd (shipping.CancelShipping s req)) !! k
  = shipping.shipments s !! k.
Proof.
  intros Hne. unfold shipping.CancelShipping.
  destruct (shipping.shipments s !! CancelShippingRequest_ShipmentId req)
    as [sh|]; [|reflexivity].
  repeat (case_decide; simpl; try reflexivity).
  apply lookup_insert_ne. exact Hne.
Qed.

Lemma CancelShipping_keeps_CANCELLED s (req : CancelShippingRequest) k :
  Status <$> shipping.shipments s !! k = Some ShippingStatus_CANCELLED ->
  Status <$> shipping.shipments (snd (shipping.CancelShipping s req)) !! k
  = Some ShippingStatus_CANCELLED.
Proof.
  intros Hk.
  destruct (decide (CancelShippingRequest_ShipmentId req = k)) as [He|Hne];
    [|rewrite CancelShipping_status_other by exact Hne; exact Hk].
  unfold shipping.CancelShipping. rewrite He.
  destruct (shipping.shipments s !! k) as [sh|] eqn:Hp; [|discriminate].
  simpl in Hk. injection Hk as Hst.
  repeat (case_decide; simpl; try (rewrite Hp; simpl; congruence)).
  congruence.
Qed.

End ShippingStore.

(** ** Forward operations: what they persist *)

(** C9.  [ProcessPayment] answers and stores a record on every attempt: the
    status of the response is SUCCESS when the draw exceeds 2 and FAILED
    otherwise, and the record stored under the returned payment id carries
    that status and the order of the request.  [ArrangeShipping] stores a
    record (SHIPPED) only when the draw exceeds 1; otherwise it returns the
    error Internal and the store is the one it started from. *)
Theorem ProcessPayment_always_stores_ArrangeShipping_only_on_success :
  (forall (roll : Z) (s : payment.Server)
          (req : paymentpb.ProcessPaymentRequest),
      exists resp s' p,
        payment.ProcessPayment roll s req = (inl resp, s')
        /\ paymentpb.ProcessPaymentResponse_Status resp
           = (if (2 <? roll)%Z then paymentpb.PaymentStatus_SUCCESS
              else paymentpb.PaymentStatus_FAILED)
        /\ payment.payments s'
             !! paymentpb.ProcessPaymentResponse_PaymentId resp = Some p
        /\ paymentpb.Status p = paymentpb.ProcessPaymentResponse_Status resp
        /\ paymentpb.OrderId p = paymentpb.ProcessPaymentRequest_OrderId req)
  /\ (forall (roll : Z) (s : shipping.Server)
             (req : shippingpb.ArrangeShippingRequest),
        if (1 <? roll)%Z then
          exists resp s' sh,
            shipping.ArrangeShipping roll s req = (inl resp, s')
            /\ shipping.shipments s'
                 !! shippingpb.ArrangeShippingResponse_ShipmentId resp
               = Some sh
            /\ shippingpb.Status sh = shippingpb.ShippingStatus_SHIPPED
            /\ shippingpb.OrderId sh
               = shippingpb.ArrangeShippingRequest_OrderId req
        else
          exists err,
            shipping.ArrangeShipping roll s req = (inr err, s)
            /\ grpc.code err = grpc.Internal).
Proof.
  split.
  - intros roll s req.
    eexists _, (snd (payment.ProcessPayment roll s req)), _.
    split; [reflexivity|]. simpl.
    split; [reflexivity|].
    split; [apply lookup_insert_eq|].
    split; reflexivity.
  - intros roll s req. destruct (1 <? roll)%Z eqn:Hroll.
    + rewrite (ArrangeShipping_success _ _ _ Hroll).
      eexists _, _, _. split; [reflexivity|]. simpl.
      split; [apply lookup_insert_eq|]. split; reflexivity.
    + rewrite (ArrangeShipping_failure _ _ _ Hroll).
      eexists. split; reflexivity.
Qed.

(** ** Compensations: errors *)

(** C8.  A compensation aimed at an identifier under which nothing is stored
    fails with NotFound; [RefundPayment] and [CancelShipping] aimed at a
    record of another order fail with InvalidArgument; in each case the
    store returned is the store given.  ([CancelOrder] takes the order id
    alone, which is the key of the record.) *)
Theorem compensation_errors_leave_store_unchanged :
  (forall (s : order.Server) (req : orderpb.CancelOrderRequest),
      order.orders s !! commonpb.Id (orderpb.CancelOrderRequest_OrderId req)
      = None ->
      exists err, order.CancelOrder s req = (inr err, s)
                  /\ grpc.code err = grpc.NotFound)
  /\ (forall (s : payment.Server) (req : paymentpb.RefundPaymentRequest),
        payment.payments s !! paymentpb.RefundPaymentRequest_PaymentId req
        = None ->
        exists err, payment.RefundPayment s req = (inr err, s)
                    /\ grpc.code err = grpc.NotFound)
  /\ (forall (s : payment.Server) (req : paymentpb.RefundPaymentRequest)
             (p : paymentpb.Payment),
        payment.payments s !! paymentpb.RefundPaymentRequest_PaymentId req
        = Some p ->
        commonpb.Id (paymentpb.OrderId p)
        <> commonpb.Id (paymentpb.RefundPaymentRequest_OrderId req) ->
        exists err, payment.RefundPayment s req = (inr err, s)
                    /\ grpc.code err = grpc.InvalidArgument)
  /\ (forall (s : shipping.Server) (req : shippingpb.CancelShippingRequest),
        shipping.shipments s
          !! shippingpb.CancelShippingRequest_ShipmentId req = None ->
        exists err, shipping.CancelShipping s req = (inr err, s)
                    /\ grpc.code err = grpc.NotFound)
  /\ (forall (s : shipping.Server) (req : shippingpb.CancelShippingRequest)
             (sh : shippingpb.Shipment),
        shipping.shipments s
          !! shippingpb.CancelShippingRequest_ShipmentId req = Some sh ->
        commonpb.Id (shippingpb.OrderId sh)
        <> commonpb.Id (shippingpb.CancelShippingRequest_OrderId req) ->
        exists err, shipping.CancelShipping s req = (inr err, s)
                    /\ grpc.code err = grpc.InvalidArgument).
Proof.
  repeat split.
  - intros s req H. unfold order.CancelOrder. rewrite H.
    eexists; split; reflexivity.
  - intros s req H. unfold payment.RefundPayment. rewrite H.
    eexists; split; reflexivity.
  - intros s req p H Hne. unfold payment.RefundPayment. rewrite H.
    rewrite decide_True by exact Hne. eexists; split; reflexivity.
  - intros s req H. unfold shipping.CancelShipping. rewrite H.
    eexists; split; reflexivity.
  - intros s req sh H Hne. unfold shipping.CancelShipping. rewrite H.
    rewrite decide_True by exact Hne. eexists; split; reflexivity.
Qed.

(** C8 at work: on fresh servers the three compensations answer NotFound;
    after a successful saga for order-u1, a refund and a shipping
    cancellation on behalf of order-u2 answer InvalidArgument; no store
    changes. *)
Lemma compensation_errors_leave_store_unchanged_witness :
  (exists err, order.CancelOrder order.NewServer scenario.cancelOrderReq
               = (inr err, order.NewServer)
               /\ grpc.code err = grpc.NotFound)
  /\ (exists err, payment.RefundPayment payment.NewServer scenario.refundReq
                  = (inr err, payment.NewServer)
                  /\ grpc.code err = grpc.NotFound)
  /\ (exists err,
         payment.RefundPayment (system.paymentSrv scenario.after_success)
           scenario.foreignRefundReq
         = (inr err, system.paymentSrv scenario.after_success)
         /\ grpc.code err = grpc.InvalidArgument)
  /\ (exists err,
         shipping.CancelShipping shipping.NewServer scenario.cancelShippingReq
         = (inr err, shipping.NewServer)
         /\ grpc.code err = grpc.NotFound)
  /\ (exists err,
         shipping.CancelShipping (system.shippingSrv scenario.after_success)
           scenario.foreignCancelShippingReq
         = (inr err, system.shippingSrv scenario.after_success)
         /\ grpc.code err = grpc.InvalidArgument).
Proof.
  destruct compensation_errors_leave_store_unchanged
    as (HO & HP1 & HP2 & HS1 & HS2).
  split; [apply HO; reflexivity|].
  split; [apply HP1; reflexivity|].
  split.
  { destruct (payment.payments (system.paymentSrv scenario.after_success)
                !! "pay-order-u1") as [p|] eqn:Hp;
      [|vm_compute in Hp; discriminate].
    apply (HP2 _ scenario.foreignRefundReq p Hp).
    vm_compute in Hp. injection Hp as <-. vm_compute. discriminate. }
  split; [apply HS1; reflexivity|].
  destruct (shipping.shipments (system.shippingSrv scenario.after_success)
              !! "ship-order-u1") as [sh|] eqn:Hsh;
    [|vm_compute in Hsh; discriminate].
  apply (HS2 _ scenario.foreignCancelShippingReq sh Hsh).
  vm_compute in Hsh. injection Hsh as <-. vm_compute. discriminate.
Defined.

(** ** Compensations: idempotence *)

(** C7.  Each compensating action, aimed at a record that exists (and, for
    payments and shipments, belongs to the order of the request):
    - answers success without touching the store when the record is already
      in its compensated state (CANCELLED, REFUNDED, CANCELLED);
    - called twice with the same request, answers success both times, and
      the second call returns the store the first one left, in which the
      record is in its compensated state (a payment that had FAILED stays
      FAILED at both calls). *)
Theorem compensations_idempotent :
  (forall (s : order.Server) (req : orderpb.CancelOrderRequest)
          (o : orderpb.Order),
      order.orders s !! commonpb.Id (orderpb.CancelOrderRequest_OrderId req)
      = Some o ->
      (orderpb.Status o = orderpb.OrderStatus_CANCELLED ->
       order.CancelOrder s req
       = (inl {| commonpb.Success := true;
                 commonpb.Message := "Order already cancelled" |}, s))
      /\ exists m1 m2 s1,
          order.CancelOrder s req
          = (inl {| commonpb.Success := true; commonpb.Message := m1 |}, s1)
          /\ order.CancelOrder s1 req
             = (inl {| commonpb.Success := true; commonpb.Message := m2 |}, s1)
          /\ orderpb.Status <$>
               order.orders s1
                 !! commonpb.Id (orderpb.CancelOrderRequest_OrderId req)
             = Some orderpb.OrderStatus_CANCELLED)
  /\ (forall (s : payment.Server) (req : paymentpb.RefundPaymentRequest)
             (p : paymentpb.Payment),
        payment.payments s !! paymentpb.RefundPaymentRequest_PaymentId req
        = Some p ->
        commonpb.Id (paymentpb.OrderId p)
        = commonpb.Id (paymentpb.RefundPaymentRequest_OrderId req) ->
        (paymentpb.Status p = paymentpb.PaymentStatus_REFUNDED ->
         payment.RefundPayment s req
         = (inl {| commonpb.Success := true;
                   commonpb.Message := "Payment already refunded" |}, s))
        /\ exists m1 m2 s1,
            payment.RefundPayment s req
            = (inl {| commonpb.Success := true; commonpb.Message := m1 |}, s1)
            /\ payment.RefundPayment s1 req
               = (inl {| commonpb.Success := true; commonpb.Message := m2 |},
                  s1)
            /\ paymentpb.Status <$>
                 payment.payments s1
                   !! paymentpb.RefundPaymentRequest_PaymentId req
               = Some (if decide (paymentpb.Status p
                                  = paymentpb.PaymentStatus_FAILED)
                       then paymentpb.PaymentStatus_FAILED
                       else paymentpb.PaymentStatus_REFUNDED))
  /\ (forall (s : shipping.Server) (req : shippingpb.CancelShippingRequest)
             (sh : shippingpb.Shipment),
        shipping.shipments s
          !! shippingpb.CancelShippingRequest_ShipmentId req = Some sh ->
        commonpb.Id (shippingpb.OrderId sh)
        = commonpb.Id (shippingpb.CancelShippingRequest_OrderId req) ->
        (shippingpb.Status sh = shippingpb.ShippingStatus_CANCELLED ->
         shipping.CancelShipping s req
         = (inl {| commonpb.Success := true;
                   commonpb.Message := "Shipment already cancelled" |}, s))
        /\ exists m1 m2 s1,
            shipping.CancelShipping s req
            = (inl {| commonpb.Success := true; commonpb.Message := m1 |}, s1)
            /\ shipping.CancelShipping s1 req
               = (inl {| commonpb.Success := true; commonpb.Message := m2 |},
                  s1)
            /\ shippingpb.Status <$>
                 shipping.shipments s1
                   !! shippingpb.CancelShippingRequest_ShipmentId req
               = Some shippingpb.ShippingStatus_CANCELLED).
Proof.
  split; [|split].
  - intros s req o Ho. split.
    + intros Hc. unfold order.CancelOrder. rewrite Ho.
      rewrite decide_True by exact Hc. reflexivity.
    + unfold order.CancelOrder at 1. rewrite Ho.
      destruct (decide (orderpb.Status o = orderpb.OrderStatus_CANCELLED))
        as [Hc|Hc].
      * eexists _, _, s. split; [reflexivity|].
        unfold order.CancelOrder. rewrite Ho.
        rewrite decide_True by exact Hc.
        split; [reflexivity|]. simpl. congruence.
      * eexists _, _, _. split; [reflexivity|].
        unfold order.CancelOrder; simpl. rewrite lookup_insert_eq. simpl.
        split; reflexivity.
  - intros s req p Hp Ho. split.
    + intros Hc. rewrite (RefundPayment_owned _ _ _ Hp Ho).
      rewrite decide_True by exact Hc. reflexivity.
    + rewrite (RefundPayment_owned _ _ _ Hp Ho).
      destruct (decide (paymentpb.Status p = paymentpb.PaymentStatus_REFUNDED))
        as [Hr|Hr];
        [|destruct (decide (paymentpb.Status p
                            = paymentpb.PaymentStatus_FAILED)) as [Hf|Hf]].
      * eexists _, _, s. split; [reflexivity|].
        rewrite (RefundPayment_owned _ _ _ Hp Ho).
        rewrite decide_True by exact Hr. split; [reflexivity|].
        rewrite Hp; simpl. rewrite Hr.
        rewrite decide_False by discriminate. reflexivity.
      * eexists _, _, s. split; [reflexivity|].
        rewrite (RefundPayment_owned _ _ _ Hp Ho).
        rewrite decide_False by exact Hr. rewrite decide_True by exact Hf.
        split; [reflexivity|]. rewrite Hp; simpl. congruence.
      * eexists _, _, _. split; [reflexivity|].
        rewrite (RefundPayment_owned _ _
                   (paymentpb.set_Status p paymentpb.PaymentStatus_REFUNDED))
          by first [apply lookup_insert_eq | exact Ho].
        simpl. split; [reflexivity|]. rewrite lookup_insert_eq. reflexivity.
  - intros s req sh Hp Ho. split.
    + intros Hc. rewrite (CancelShipping_owned _ _ _ Hp Ho).
      rewrite decide_True by exact Hc. reflexivity.
    + rewrite (CancelShipping_owned _ _ _ Hp Ho).
      destruct (decide (shippingpb.Status sh
                        = shippingpb.ShippingStatus_CANCELLED)) as [Hc|Hc].
      * eexists _, _, s. split; [reflexivity|].
        rewrite (CancelShipping_owned _ _ _ Hp Ho).
        rewrite decide_True by exact Hc. split; [reflexivity|].
        rewrite Hp; simpl. congruence.
      * eexists _, _, _. split; [reflexivity|].
        rewrite (CancelShipping_owned _ _
                   (shippingpb.set_Status sh
                      shippingpb.ShippingStatus_CANCELLED))
          by first [apply lookup_insert_eq | exact Ho].
        simpl. split; [reflexivity|]. rewrite lookup_insert_eq. reflexivity.
Qed.

(** C7 at work: the order of a declined saga is already CANCELLED and
    cancelling it again changes nothing; the payment and the shipment of a
    successful saga are compensated by the first call and left alone by the
    second. *)
Lemma compensations_idempotent_witness :
  order.CancelOrder (system.orderSrv scenario.after_declined)
    scenario.cancelOrderReq
  = (inl {| commonpb.Success := true;
            commonpb.Message := "Order already cancelled" |},
     system.orderSrv scenario.after_declined)
  /\ (exists m1 m2 s1,
         payment.RefundPayment (system.paymentSrv scenario.after_success)
           scenario.refundReq
         = (inl {| commonpb.Success := true; commonpb.Message := m1 |}, s1)
         /\ payment.RefundPayment s1 scenario.refundReq
            = (inl {| commonpb.Success := true; commonpb.Message := m2 |}, s1)
         /\ paymentpb.Status <$> payment.payments s1 !! "pay-order-u1"
            = Some paymentpb.PaymentStatus_REFUNDED)
  /\ (exists m1 m2 s1,
         shipping.CancelShipping (system.shippingSrv scenario.after_success)
           scenario.cancelShippingReq
         = (inl {| commonpb.Success := true; commonpb.Message := m1 |}, s1)
         /\ shipping.CancelShipping s1 scenario.cancelShippingReq
            = (inl {| commonpb.Success := true; commonpb.Message := m2 |}, s1)
         /\ shippingpb.Status <$> shipping.shipments s1 !! "ship-order-u1"
            = Some shippingpb.ShippingStatus_CANCELLED).
Proof.
  destruct compensations_idempotent as (HO & HP & HS).
  split; [|split].
  - destruct (order.orders (system.orderSrv scenario.after_declined)
                !! "order-u1") as [o|] eqn:Ho;
      [|vm_compute in Ho; discriminate].
    apply (proj1 (HO _ scenario.cancelOrderReq o Ho)).
    vm_compute in Ho. injection Ho as <-. reflexivity.
  - destruct (payment.payments (system.paymentSrv scenario.after_success)
                !! "pay-order-u1") as [p|] eqn:Hp;
      [|vm_compute in Hp; discriminate].
    assert (Hown : commonpb.Id (paymentpb.OrderId p) = "order-u1")
      by (vm_compute in Hp; injection Hp as <-; reflexivity).
    assert (Hst : paymentpb.Status p = paymentpb.PaymentStatus_SUCCESS)
      by (vm_compute in Hp; injection Hp as <-; reflexivity).
    destruct (proj2 (HP _ scenario.refundReq p Hp Hown))
      as (m1 & m2 & s1 & H1 & H2 & H3).
    exists m1, m2, s1. split; [exact H1|]. split; [exact H2|].
    rewrite Hst in H3. exact H3.
  - destruct (shipping.shipments (system.shippingSrv scenario.after_success)
                !! "ship-order-u1") as [sh|] eqn:Hsh;
      [|vm_compute in Hsh; discriminate].
    assert (Hown : commonpb.Id (shippingpb.OrderId sh) = "order-u1")
      by (vm_compute in Hsh; injection Hsh as <-; reflexivity).
    exact (proj2 (HS _ scenario.cancelShippingReq sh Hsh Hown)).
Defined.

(** ** Terminal statuses *)

Section Terminal.
Import system.

Lemma apply_op_keeps_order_CANCELLED (s : Servers) (op : StoreOp) k :
  order_status s k = Some orderpb.OrderStatus_CANCELLED ->
  order_status (apply_op s op) k = Some orderpb.OrderStatus_CANCELLED.
Proof.
  unfold order_status. intros H. destruct op as [req|req|req|req]; simpl;
    try exact H.
  - rewrite CancelOrder_status. case_decide; [|exact H].
    destruct (order.orders (orderSrv s) !! k); [reflexivity|discriminate].
  - rewrite CompleteOrder_status. case_decide; [|exact H].
    rewrite H. reflexivity.
Qed.

(** One operation on a COMPLETED order: it stays COMPLETED unless the
    operation is a [CancelOrder] that names it. *)
Lemma apply_op_order_COMPLETED (s : Servers) (op : StoreOp) k :
  order_status s k = Some orderpb.OrderStatus_COMPLETED ->
  order_status (apply_op s op) k
  = match op with
    | Op_CancelOrder req =>
        if decide (commonpb.Id (orderpb.CancelOrderRequest_OrderId req) = k)
        then Some orderpb.OrderStatus_CANCELLED
        else Some orderpb.OrderStatus_COMPLETED
    | _ => Some orderpb.OrderStatus_COMPLETED
    end.
Proof.
  unfold order_status. intros H. destruct op as [req|req|req|req]; simpl;
    try exact H.
  - rewrite CancelOrder_status. case_decide; [|exact H].
    destruct (order.orders (orderSrv s) !! k); [reflexivity|discriminate].
  - rewrite CompleteOrder_status. case_decide; [|exact H].
    rewrite H. reflexivity.
Qed.

Lemma apply_op_keeps_payment_REFUNDED (s : Servers) (op : StoreOp) k :
  payment_status s k = Some paymentpb.PaymentStatus_REFUNDED ->
  payment_status (apply_op s op) k = Some paymentpb.PaymentStatus_REFUNDED.
Proof.
  unfold payment_status. intros H. destruct op as [req|req|req|req]; simpl;
    try exact H.
  apply RefundPayment_keeps_REFUNDED. exact H.
Qed.

Lemma apply_op_keeps_shipment_CANCELLED (s : Servers) (op : StoreOp) k :
  shipment_status s k = Some shippingpb.ShippingStatus_CANCELLED ->
  shipment_status (apply_op s op) k = Some shippingpb.ShippingStatus_CANCELLED.
Proof.
  unfold shipment_status. intros H. destruct op as [req|req|req|req]; simpl;
    try exact H.
  apply CancelShipping_keeps_CANCELLED. exact H.
Qed.

(** An invariant of single operations is an invariant of sequences. *)
Lemma apply_ops_invariant (P : Servers -> Prop) :
  (forall s op, P s -> P (apply_op s op)) ->
  forall ops s, P s -> P (apply_ops s ops).
Proof.
  intros Hstep ops. unfold apply_ops.
  induction ops as [|op ops IH]; intros s Hs; simpl; [exact Hs|].
  apply IH, Hstep, Hs.
Qed.

End Terminal.

(** C6, refuted as stated: COMPLETED is not terminal.  The order of a saga
    that succeeded end to end is COMPLETED; one [CancelOrder] for it, which
    the order service accepts from any caller, leaves it CANCELLED. *)
Lemma CancelOrder_moves_COMPLETED_to_CANCELLED :
  system.order_status scenario.after_success "order-u1"
  = Some orderpb.OrderStatus_COMPLETED
  /\ order.CancelOrder (system.orderSrv scenario.after_success)
       scenario.cancelOrderReq
     = (inl {| commonpb.Success := true;
               commonpb.Message := "Order cancelled successfully" |},
        system.orderSrv
          (system.apply_ops scenario.after_success
             [system.Op_CancelOrder scenario.cancelOrderReq]))
  /\ system.order_status
       (system.apply_ops scenario.after_success
          [system.Op_CancelOrder scenario.cancelOrderReq]) "order-u1"
     = Some orderpb.OrderStatus_CANCELLED.
Proof. repeat split; vm_compute; reflexivity. Qed.

(** C6, amended.  Over every sequence of [CancelOrder], [CompleteOrder],
    [RefundPayment] and [CancelShipping] requests, and for every key:
    a CANCELLED order stays CANCELLED, a REFUNDED payment stays REFUNDED, a
    CANCELLED shipment stays CANCELLED; a COMPLETED order ends COMPLETED or
    CANCELLED, and it ends COMPLETED when no [CancelOrder] of the sequence
    names it. *)
Theorem terminal_statuses_except_cancel_of_completed :
  forall (s : system.Servers) (ops : list system.StoreOp) (k : string),
    (system.order_status s k = Some orderpb.OrderStatus_CANCELLED ->
     system.order_status (system.apply_ops s ops) k
     = Some orderpb.OrderStatus_CANCELLED)
    /\ (system.payment_status s k = Some paymentpb.PaymentStatus_REFUNDED ->
        system.payment_status (system.apply_ops s ops) k
        = Some paymentpb.PaymentStatus_REFUNDED)
    /\ (system.shipment_status s k = Some shippingpb.ShippingStatus_CANCELLED ->
        system.shipment_status (system.apply_ops s ops) k
        = Some shippingpb.ShippingStatus_CANCELLED)
    /\ (system.order_status s k = Some orderpb.OrderStatus_COMPLETED ->
        system.order_status (system.apply_ops s ops) k
        = Some orderpb.OrderStatus_COMPLETED
        \/ system.order_status (system.apply_ops s ops) k
           = Some orderpb.OrderStatus_CANCELLED)
    /\ (system.order_status s k = Some orderpb.OrderStatus_COMPLETED ->
        (forall req, In (system.Op_CancelOrder req) ops ->
                     commonpb.Id (orderpb.CancelOrderRequest_OrderId req) <> k) ->
        system.order_status (system.apply_ops s ops) k
        = Some orderpb.OrderStatus_COMPLETED).
Proof.
  intros s ops k. repeat split.
  - apply (apply_ops_invariant
             (fun s => system.order_status s k
                       = Some orderpb.OrderStatus_CANCELLED)).
    intros; apply apply_op_keeps_order_CANCELLED; assumption.
  - apply (apply_ops_invariant
             (fun s => system.payment_status s k
                       = Some paymentpb.PaymentStatus_REFUNDED)).
    intros; apply apply_op_keeps_payment_REFUNDED; assumption.
  - apply (apply_ops_invariant
             (fun s => system.shipment_status s k
                       = Some shippingpb.ShippingStatus_CANCELLED)).
    intros; apply apply_op_keeps_shipment_CANCELLED; assumption.
  - intros H.
    apply (apply_ops_invariant
             (fun s => system.order_status s k
                       = Some orderpb.OrderStatus_COMPLETED
                       \/ system.order_status s k
                          = Some orderpb.OrderStatus_CANCELLED));
      [|left; exact H].
    intros s0 op [Hc|Hc].
    + rewrite (apply_op_order_COMPLETED _ _ _ Hc).
      destruct op; try (left; reflexivity).
      case_decide; [right|left]; reflexivity.
    + right. apply apply_op_keeps_order_CANCELLED. exact Hc.
  - revert s. unfold system.apply_ops.
    induction ops as [|op ops IH]; intros s H Hno; simpl; [exact H|].
    apply IH.
    + rewrite (apply_op_order_COMPLETED _ _ _ H).
      destruct op as [req| | |]; try reflexivity.
      rewrite decide_False; [reflexivity|].
      apply Hno. left. reflexivity.
    + intros req Hin. apply Hno. right. exact Hin.
Qed.

(** C6 amended, at work on the servers of a successful saga: completing,
    refunding and cancelling the shipment of order-u1 leave the order
    COMPLETED; once the [CancelOrder] of the counterexample has run, the
    order is CANCELLED and neither completing nor cancelling changes that. *)
Lemma terminal_statuses_except_cancel_of_completed_witness :
  system.order_status
    (system.apply_ops scenario.after_success
       [system.Op_CompleteOrder scenario.completeOrderReq;
        system.Op_RefundPayment scenario.refundReq;
        system.Op_CancelShipping scenario.cancelShippingReq]) "order-u1"
  = Some orderpb.OrderStatus_COMPLETED
  /\ system.order_status
       (system.apply_ops
          (system.apply_ops scenario.after_success
             [system.Op_CancelOrder scenario.cancelOrderReq])
          [system.Op_CompleteOrder scenario.completeOrderReq;
           system.Op_CancelOrder scenario.cancelOrderReq]) "order-u1"
     = Some orderpb.OrderStatus_CANCELLED.
Proof.
  split.
  - apply (proj2 (proj2 (proj2 (proj2
             (terminal_statuses_except_cancel_of_completed
                scenario.after_success
                [system.Op_CompleteOrder scenario.completeOrderReq;
                 system.Op_RefundPayment scenario.refundReq;
                 system.Op_CancelShipping scenario.cancelShippingReq]
                "order-u1"))))).
    + vm_compute; reflexivity.
    + intros req [H|[H|[H|[]]]]; discriminate.
  - apply (proj1 (terminal_statuses_except_cancel_of_completed
                    (system.apply_ops scenario.after_success
                       [system.Op_CancelOrder scenario.cancelOrderReq])
                    [system.Op_CompleteOrder scenario.completeOrderReq;
                     system.Op_CancelOrder scenario.cancelOrderReq]
                    "order-u1")).
    vm_compute; reflexivity.
Defined.

(** ** The orchestrator, against any clients *)

Section SagaPaths.
Import orchestrator.
Context {W : Type}.
Variable clients : grpc_clients.ServiceClients W.

Implicit Types (w : W) (orderID : commonpb.OrderID).

(** Unfolding one step of a computation. *)
Ltac saga_step :=
  cbv beta iota zeta
      delta [bind invoke logf ret OrderID PaymentID ShipmentID];
  cbn [app].

Lemma compensateCreateOrder_nil w :
  compensateCreateOrder clients None w = (tt, [Logged Log_Order_Skipping], w).
Proof. reflexivity. Qed.

Lemma compensateCreateOrder_empty orderID w :
  commonpb.Id orderID = "" ->
  compensateCreateOrder clients (Some orderID) w
  = (tt, [Logged Log_Order_Skipping], w).
Proof.
  intros H. unfold compensateCreateOrder. rewrite decide_True by exact H.
  reflexivity.
Qed.

Lemma compensateProcessPayment_empty orderID w :
  compensateProcessPayment clients orderID "" w
  = (tt, [Logged (Log_Payment_Skipping (commonpb.Id orderID))], w).
Proof. reflexivity. Qed.

Lemma compensateArrangeShipping_empty orderID w :
  compensateArrangeShipping clients orderID "" w
  = (tt, [Logged (Log_Shipping_Skipping (commonpb.Id orderID))], w).
Proof. reflexivity. Qed.

(** With an identifier, each compensation issues its one remote call, with
    the fresh context, and logs how it went. *)
Lemma compensateCreateOrder_calls orderID w r w1 :
  commonpb.Id orderID <> "" ->
  grpc_clients.CancelOrder (grpc_clients.Order clients) fresh_ctx
    {| orderpb.CancelOrderRequest_OrderId := orderID |} w = (r, w1) ->
  compensateCreateOrder clients (Some orderID) w
  = (tt,
     [Logged (Log_Order_Compensating (commonpb.Id orderID));
      Invoked (Call_CancelOrder fresh_ctx
                 {| orderpb.CancelOrderRequest_OrderId := orderID |});
      Logged (match r with
              | inr err => Log_Order_CRITICAL (commonpb.Id orderID) err
              | inl _ => Log_Order_Compensation_Success (commonpb.Id orderID)
              end)],
     w1).
Proof.
  intros Hne Hcall. unfold compensateCreateOrder.
  rewrite decide_False by exact Hne. saga_step. rewrite Hcall.
  destruct r; reflexivity.
Qed.

Lemma compensateProcessPayment_calls orderID paymentID w r w1 :
  paymentID <> "" ->
  grpc_clients.RefundPayment (grpc_clients.Payment clients) fresh_ctx
    {| paymentpb.RefundPaymentRequest_OrderId := orderID;
       paymentpb.RefundPaymentRequest_PaymentId := paymentID |} w = (r, w1) ->
  compensateProcessPayment clients orderID paymentID w
  = (tt,
     [Logged (Log_Payment_Compensating paymentID (commonpb.Id orderID));
      Invoked (Call_RefundPayment fresh_ctx
                 {| paymentpb.RefundPaymentRequest_OrderId := orderID;
                    paymentpb.RefundPaymentRequest_PaymentId := paymentID |});
      Logged (match r with
              | inr err =>
                  Log_Payment_CRITICAL (commonpb.Id orderID) paymentID err
              | inl _ => Log_Payment_Compensation_Success paymentID
              end)],
     w1).
Proof.
  intros Hne Hcall. unfold compensateProcessPayment.
  rewrite decide_False by exact Hne. saga_step. rewrite Hcall.
  destruct r; reflexivity.
Qed.


Lemma saga_create_failed ctx details paymentInfo shippingAddr w err w1 :
  grpc_clients.CreateOrder (grpc_clients.Order clients) ctx
    {| orderpb.Details := details |} w = (inr err, w1) ->
  ExecuteCreateOrderSaga clients ctx details paymentInfo shippingAddr w
  = (Some "failed to create order",
     [Logged Log_Starting; Logged Log_Step1;
      Invoked (Call_CreateOrder ctx {| orderpb.Details := details |});
      Logged (Log_Step1_Failed err); Logged Log_Order_Skipping],
     w1).
Proof.
  intros H1. unfold ExecuteCreateOrderSaga. saga_step. rewrite H1.
  reflexivity.
Qed.

(** Step 2 failed: the payment compensation is entered with the empty
    [state.PaymentID] and skips its call; then the order compensation runs. *)
Lemma saga_payment_failed ctx details paymentInfo shippingAddr
    w resp1 w1 r2 w2 t w3 :
  grpc_clients.CreateOrder (grpc_clients.Order clients) ctx
    {| orderpb.Details := details |} w = (inl resp1, w1) ->
  grpc_clients.ProcessPayment (grpc_clients.Payment clients) ctx
    {| paymentpb.ProcessPaymentRequest_OrderId :=
         orderpb.CreateOrderResponse_OrderId resp1;
       paymentpb.PaymentInfo := paymentInfo |} w1 = (r2, w2) ->
  paymentFailed r2 = true ->
  compensateCreateOrder clients
    (Some (orderpb.CreateOrderResponse_OrderId resp1)) w2 = (tt, t, w3) ->
  ExecuteCreateOrderSaga clients ctx details paymentInfo shippingAddr w
  = (Some "failed to process payment",
     [Logged Log_Starting; Logged Log_Step1;
      Invoked (Call_CreateOrder ctx {| orderpb.Details := details |});
      Logged (Log_Step1_Success
                (commonpb.Id (orderpb.CreateOrderResponse_OrderId resp1)));
      Logged Log_Step2;
      Invoked (Call_ProcessPayment ctx
                 {| paymentpb.ProcessPaymentRequest_OrderId :=
                      orderpb.CreateOrderResponse_OrderId resp1;
                    paymentpb.PaymentInfo := paymentInfo |});
      Logged (Log_Step2_Failed
                (match r2 with inr err => Some err | inl _ => None end)
                (match r2 with
                 | inr _ => paymentpb.PaymentStatus_PAYMENT_STATUS_UNSPECIFIED
                 | inl resp => paymentpb.ProcessPaymentResponse_Status resp
                 end));
      Logged (Log_Payment_Skipping
                (commonpb.Id (orderpb.CreateOrderResponse_OrderId resp1)))]
     ++ t,
     w3).
Proof.
  intros H1 H2 Hf Hc. unfold ExecuteCreateOrderSaga. saga_step.
  rewrite H1. saga_step. rewrite H2. saga_step. rewrite Hf. saga_step.
  rewrite compensateProcessPayment_empty. saga_step.
  rewrite Hc. saga_step. rewrite app_nil_r. reflexivity.
Qed.

(** Step 3 failed: the three compensations run, shipping first, with the
    empty [state.ShipmentID], then payment, then order. *)
Lemma saga_shipping_failed ctx details paymentInfo shippingAddr
    w resp1 w1 resp2 w2 err3 w3 t2 w4 t1 w5 :
  grpc_clients.CreateOrder (grpc_clients.Order clients) ctx
    {| orderpb.Details := details |} w = (inl resp1, w1) ->
  grpc_clients.ProcessPayment (grpc_clients.Payment clients) ctx
    {| paymentpb.ProcessPaymentRequest_OrderId :=
         orderpb.CreateOrderResponse_OrderId resp1;
       paymentpb.PaymentInfo := paymentInfo |} w1 = (inl resp2, w2) ->
  paymentFailed (inl resp2) = false ->
  grpc_clients.ArrangeShipping (grpc_clients.Shipping clients) ctx
    {| shippingpb.ArrangeShippingRequest_OrderId :=
         orderpb.CreateOrderResponse_OrderId resp1;
       shippingpb.ArrangeShippingRequest_Address := shippingAddr |} w2
  = (inr err3, w3) ->
  compensateProcessPayment clients
    (orderpb.CreateOrderResponse_OrderId resp1)
    (paymentpb.ProcessPaymentResponse_PaymentId resp2) w3 = (tt, t2, w4) ->
  compensateCreateOrder clients
    (Some (orderpb.CreateOrderResponse_OrderId resp1)) w4 = (tt, t1, w5) ->
  ExecuteCreateOrderSaga clients ctx details paymentInfo shippingAddr w
  = (Some "failed to arrange shipping",
     [Logged Log_Starting; Logged Log_Step1;
      Invoked (Call_CreateOrder ctx {| orderpb.Details := details |});
      Logged (Log_Step1_Success
                (commonpb.Id (orderpb.CreateOrderResponse_OrderId resp1)));
      Logged Log_Step2;
      Invoked (Call_ProcessPayment ctx
                 {| paymentpb.ProcessPaymentRequest_OrderId :=
                      orderpb.CreateOrderResponse_OrderId resp1;
                    paymentpb.PaymentInfo := paymentInfo |});
      Logged (Log_Step2_Success
                (paymentpb.ProcessPaymentResponse_PaymentId resp2));
      Logged Log_Step3;
      Invoked (Call_ArrangeShipping ctx
                 {| shippingpb.ArrangeShippingRequest_OrderId :=
                      orderpb.CreateOrderResponse_OrderId resp1;
                    shippingpb.ArrangeShippingRequest_Address :=
                      shippingAddr |});
      Logged (Log_Step3_Failed (grpc.code err3) (grpc.message err3));
      Logged (Log_Shipping_Skipping
                (commonpb.Id (orderpb.CreateOrderResponse_OrderId resp1)))]
     ++ t2 ++ t1,
     w5).
Proof.
  intros H1 H2 Hf H3 Hc2 Hc1. unfold ExecuteCreateOrderSaga. saga_step.
  rewrite H1. saga_step. rewrite H2. saga_step. rewrite Hf. saga_step.
  rewrite H3. saga_step. rewrite compensateArrangeShipping_empty. saga_step.
  rewrite Hc2. saga_step. rewrite Hc1. saga_step. rewrite app_nil_r.
  reflexivity.
Qed.

(** All three steps succeeded: the order is marked, and whatever comes of
    that call the saga returns [nil]. *)
Lemma saga_succeeded ctx details paymentInfo shippingAddr
    w resp1 w1 resp2 w2 resp3 w3 r4 w4 :
  grpc_clients.CreateOrder (grpc_clients.Order clients) ctx
    {| orderpb.Details := details |} w = (inl resp1, w1) ->
  grpc_clients.ProcessPayment (grpc_clients.Payment clients) ctx
    {| paymentpb.ProcessPaymentRequest_OrderId :=
         orderpb.CreateOrderResponse_OrderId resp1;
       paymentpb.PaymentInfo := paymentInfo |} w1 = (inl resp2, w2) ->
  paymentFailed (inl resp2) = false ->
  grpc_clients.ArrangeShipping (grpc_clients.Shipping clients) ctx
    {| shippingpb.ArrangeShippingRequest_OrderId :=
         orderpb.CreateOrderResponse_OrderId resp1;
       shippingpb.ArrangeShippingRequest_Address := shippingAddr |} w2
  = (inl resp3, w3) ->
  grpc_clients.CompleteOrder (grpc_clients.Order clients) fresh_ctx
    {| orderpb.CompleteOrderRequest_OrderId :=
         orderpb.CreateOrderResponse_OrderId resp1 |} w3 = (r4, w4) ->
  ExecuteCreateOrderSaga clients ctx details paymentInfo shippingAddr w
  = (None,
     [Logged Log_Starting; Logged Log_Step1;
      Invoked (Call_CreateOrder ctx {| orderpb.Details := details |});
      Logged (Log_Step1_Success
                (commonpb.Id (orderpb.CreateOrderResponse_OrderId resp1)));
      Logged Log_Step2;
      Invoked (Call_ProcessPayment ctx
                 {| paymentpb.ProcessPaymentRequest_OrderId :=
                      orderpb.CreateOrderResponse_OrderId resp1;
                    paymentpb.PaymentInfo := paymentInfo |});
      Logged (Log_Step2_Success
                (paymentpb.ProcessPaymentResponse_PaymentId resp2));
      Logged Log_Step3;
      Invoked (Call_ArrangeShipping ctx
                 {| shippingpb.ArrangeShippingRequest_OrderId :=
                      orderpb.CreateOrderResponse_OrderId resp1;
                    shippingpb.ArrangeShippingRequest_Address :=
                      shippingAddr |});
      Logged (Log_Step3_Success
                (shippingpb.ArrangeShippingResponse_ShipmentId resp3));
      Logged (Log_Saga_Completed
                (commonpb.Id (orderpb.CreateOrderResponse_OrderId resp1)));
      Logged (Log_Marking_Completed
                (commonpb.Id (orderpb.CreateOrderResponse_OrderId resp1)));
      Invoked (Call_CompleteOrder fresh_ctx
                 {| orderpb.CompleteOrderRequest_OrderId :=
                      orderpb.CreateOrderResponse_OrderId resp1 |});
      Logged (match r4 with
              | inr completeErr =>
                  Log_Complete_WARNING
                    (commonpb.Id (orderpb.CreateOrderResponse_OrderId resp1))
                    completeErr
              | inl _ =>
                  Log_Complete_Marked
                    (commonpb.Id (orderpb.CreateOrderResponse_OrderId resp1))
              end)],
     w4).
Proof.
  intros H1 H2 Hf H3 H4. unfold ExecuteCreateOrderSaga. saga_step.
  rewrite H1. saga_step. rewrite H2. saga_step. rewrite Hf. saga_step.
  rewrite H3. saga_step. rewrite H4. destruct r4; reflexivity.
Qed.

End SagaPaths.

(** ** The stubs of the deployed system *)

Section Stubs.
Import system.

Implicit Types (w : World).

(** The three fates of a remote call. *)
Lemma remote_cases {A} (handler : World -> grpc.result A * World) w r w' :
  remote handler w = (r, w') ->
  (net w (sent w) = Delivered /\ handler (next_call w) = (r, w'))
  \/ (exists err, net w (sent w) = RequestLost err
                  /\ r = inr err /\ w' = next_call w)
  \/ (exists err r0, net w (sent w) = ReplyLost err
                     /\ r = inr err /\ handler (next_call w) = (r0, w')).
Proof.
  unfold remote. destruct (net w (sent w)) as [|err|err]; intros H.
  - left. split; [reflexivity|exact H].
  - right; left. exists err. injection H as <- <-. repeat split.
  - right; right. destruct (handler (next_call w)) as [r0 w0] eqn:Hh.
    injection H as <- <-. exists err, r0. repeat split.
Qed.

(** A call that returned a response was delivered. *)
Lemma remote_ok {A} (handler : World -> grpc.result A * World) w resp w' :
  remote handler w = (inl resp, w') ->
  net w (sent w) = Delivered /\ handler (next_call w) = (inl resp, w').
Proof.
  intros H. destruct (remote_cases _ _ _ _ H)
    as [Hd|[(err & _ & Hr & _)|(err & r0 & _ & Hr & _)]];
    [exact Hd|discriminate|discriminate].
Qed.

(** The identifiers the services hand out are never empty. *)
Lemma CreateOrder_stub_ok ctx req w resp w' :
  grpc_clients.CreateOrder (grpc_clients.Order clients) ctx req w
  = (inl resp, w') ->
  orderpb.CreateOrderResponse_OrderId resp
  = {| commonpb.Id := "order-" +:+ commonpb.UserId (orderpb.Details req) |}
  /\ order_status (servers w')
       ("order-" +:+ commonpb.UserId (orderpb.Details req))
     = Some orderpb.OrderStatus_PENDING
  /\ paymentSrv (servers w') = paymentSrv (servers w)
  /\ shippingSrv (servers w') = shippingSrv (servers w)
  /\ net w' = net w /\ sent w' = S (sent w).
Proof.
  intros H. apply remote_ok in H as [_ H].
  unfold on_order in H. simpl in H. injection H as <- <-.
  split; [reflexivity|]. split; [|repeat split].
  unfold order_status; simpl. rewrite lookup_insert_eq. reflexivity.
Qed.

Lemma ProcessPayment_stub_ok ctx req w resp w' :
  grpc_clients.ProcessPayment (grpc_clients.Payment clients) ctx req w
  = (inl resp, w') ->
  paymentpb.ProcessPaymentResponse_PaymentId resp
  = "pay-" +:+ commonpb.Id (paymentpb.ProcessPaymentRequest_OrderId req)
  /\ payment_status (servers w')
       (paymentpb.ProcessPaymentResponse_PaymentId resp)
     = Some (paymentpb.ProcessPaymentResponse_Status resp).
Proof.
  intros H. apply remote_ok in H as [_ H].
  unfold on_payment in H. simpl in H. injection H as <- <-.
  split; [reflexivity|].
  unfold payment_status; simpl. rewrite lookup_insert_eq. reflexivity.
Qed.

(** A call to the payment service, whatever its fate, leaves the order and
    shipping servers and the transport as they were, and counts as one
    call. *)
Lemma ProcessPayment_stub_frame ctx req w r w' :
  grpc_clients.ProcessPayment (grpc_clients.Payment clients) ctx req w
  = (r, w') ->
  orderSrv (servers w') = orderSrv (servers w)
  /\ shippingSrv (servers w') = shippingSrv (servers w)
  /\ net w' = net w /\ sent w' = S (sent w).
Proof.
  intros H. simpl in H.
  destruct (remote_cases _ _ _ _ H)
    as [[_ Hh]|[(err & _ & _ & ->)|(err & r0 & _ & _ & Hh)]];
    try (unfold on_payment in Hh; simpl in Hh; injection Hh as _ <-);
    repeat split.
Qed.

(** A call to [CancelOrder], whatever its fate, leaves the payment and
    shipping servers as they were; unless its request is lost, an order
    stored under the identifier ends CANCELLED. *)
Lemma CancelOrder_stub_effect ctx req w r w' :
  grpc_clients.CancelOrder (grpc_clients.Order clients) ctx req w = (r, w') ->
  paymentSrv (servers w') = paymentSrv (servers w)
  /\ shippingSrv (servers w') = shippingSrv (servers w)
  /\ ((forall err, net w (sent w) <> RequestLost err) ->
      is_Some (order_status (servers w)
                 (commonpb.Id (orderpb.CancelOrderRequest_OrderId req))) ->
      order_status (servers w')
        (commonpb.Id (orderpb.CancelOrderRequest_OrderId req))
      = Some orderpb.OrderStatus_CANCELLED).
Proof.
  intros H. simpl in H.
  assert (Hrun : forall r0,
             on_order (fun s => order.CancelOrder s req) (next_call w)
             = (r0, w') ->
             paymentSrv (servers w') = paymentSrv (servers w)
             /\ shippingSrv (servers w') = shippingSrv (servers w)
             /\ (is_Some (order_status (servers w)
                    (commonpb.Id (orderpb.CancelOrderRequest_OrderId req))) ->
                 order_status (servers w')
                   (commonpb.Id (orderpb.CancelOrderRequest_OrderId req))
                 = Some orderpb.OrderStatus_CANCELLED)).
  { intros r0 Hh. unfold on_order in Hh. simpl in Hh.
    destruct (order.CancelOrder (orderSrv (servers w)) req) as [r1 s1] eqn:Hc.
    injection Hh as _ <-. simpl. repeat split.
    intros [st Hst]. unfold order_status in *. simpl.
    replace s1 with (snd (order.CancelOrder (orderSrv (servers w)) req))
      by (rewrite Hc; reflexivity).
    rewrite CancelOrder_status. rewrite decide_True by reflexivity.
    destruct (order.orders (orderSrv (servers w))
                !! commonpb.Id (orderpb.CancelOrderRequest_OrderId req));
      [reflexivity|discriminate]. }
  destruct (remote_cases _ _ _ _ H)
    as [[_ Hh]|[(err & Hn & _ & ->)|(err & r0 & _ & _ & Hh)]].
  - destruct (Hrun _ Hh) as (? & ? & Hst). repeat split; auto.
  - repeat split. intros Hno. destruct (Hno _ Hn).
  - destruct (Hrun _ Hh) as (? & ? & Hst). repeat split; auto.
Qed.

Lemma order_id_nonempty (u : string) : "order-" +:+ u <> "".
Proof. discriminate. Qed.

Lemma payment_id_nonempty (o : string) : "pay-" +:+ o <> "".
Proof. discriminate. Qed.

End Stubs.

(** ** The saga: finalization *)

(** C4.  Against any clients: when [CreateOrder], [ProcessPayment] (with a
    status other than FAILED) and [ArrangeShipping] return responses, the
    saga returns [nil] whatever [CompleteOrder] returns; the four calls are
    the only ones issued, and a failed [CompleteOrder] shows only as the
    warning that ends the log. *)
Theorem finalize_failure_keeps_success :
  forall (W : Type) (clients : grpc_clients.ServiceClients W)
         (ctx : context.Context) (details : commonpb.OrderDetails)
         (paymentInfo : commonpb.PaymentInfo)
         (shippingAddr : commonpb.ShippingAddress)
         (w w1 w2 w3 w4 : W)
         (resp1 : orderpb.CreateOrderResponse)
         (resp2 : paymentpb.ProcessPaymentResponse)
         (resp3 : shippingpb.ArrangeShippingResponse)
         (r4 : grpc.result commonpb.CompensationResponse),
    let orderID := orderpb.CreateOrderResponse_OrderId resp1 in
    grpc_clients.CreateOrder (grpc_clients.Order clients) ctx
      {| orderpb.Details := details |} w = (inl resp1, w1) ->
    grpc_clients.ProcessPayment (grpc_clients.Payment clients) ctx
      {| paymentpb.ProcessPaymentRequest_OrderId := orderID;
         paymentpb.PaymentInfo := paymentInfo |} w1 = (inl resp2, w2) ->
    paymentpb.ProcessPaymentResponse_Status resp2
    <> paymentpb.PaymentStatus_FAILED ->
    grpc_clients.ArrangeShipping (grpc_clients.Shipping clients) ctx
      {| shippingpb.ArrangeShippingRequest_OrderId := orderID;
         shippingpb.ArrangeShippingRequest_Address := shippingAddr |} w2
    = (inl resp3, w3) ->
    grpc_clients.CompleteOrder (grpc_clients.Order clients)
      orchestrator.fresh_ctx
      {| orderpb.CompleteOrderRequest_OrderId := orderID |} w3 = (r4, w4) ->
    exists t,
      orchestrator.ExecuteCreateOrderSaga clients ctx details paymentInfo
        shippingAddr w = (None, t, w4)
      /\ orchestrator.calls t
         = [orchestrator.Call_CreateOrder ctx {| orderpb.Details := details |};
            orchestrator.Call_ProcessPayment ctx
              {| paymentpb.ProcessPaymentRequest_OrderId := orderID;
                 paymentpb.PaymentInfo := paymentInfo |};
            orchestrator.Call_ArrangeShipping ctx
              {| shippingpb.ArrangeShippingRequest_OrderId := orderID;
                 shippingpb.ArrangeShippingRequest_Address := shippingAddr |};
            orchestrator.Call_CompleteOrder orchestrator.fresh_ctx
              {| orderpb.CompleteOrderRequest_OrderId := orderID |}]
      /\ orchestrator.attempts t = []
      /\ last t
         = Some (orchestrator.Logged
                   match r4 with
                   | inr completeErr =>
                       orchestrator.Log_Complete_WARNING
                         (commonpb.Id orderID) completeErr
                   | inl _ =>
                       orchestrator.Log_Complete_Marked (commonpb.Id orderID)
                   end).
Proof.
  intros W clients ctx details paymentInfo shippingAddr w w1 w2 w3 w4
    resp1 resp2 resp3 r4 orderID H1 H2 Hst H3 H4.
  assert (Hf : orchestrator.paymentFailed (inl resp2) = false)
    by (simpl; apply bool_decide_eq_false_2; exact Hst).
  eexists. split.
  - exact (saga_succeeded clients ctx details paymentInfo shippingAddr
             _ _ _ _ _ _ _ _ _ H1 H2 Hf H3 H4).
  - repeat split; destruct r4; reflexivity.
Qed.

(** C4 at work: every draw is lucky and the fourth call, [CompleteOrder],
    is lost on the wire; the saga still returns [nil], and the order stays
    PENDING on the order server. *)
Lemma finalize_failure_keeps_success_witness :
  (exists t w',
      scenario.run
        (scenario.world system.NewServers (scenario.losing 3) scenario.lucky)
      = (None, t, w')
      /\ last t
         = Some (orchestrator.Logged
                   (orchestrator.Log_Complete_WARNING "order-u1"
                      scenario.timeout)))
  /\ system.order_status
       (system.servers
          (snd (scenario.run
                  (scenario.world system.NewServers (scenario.losing 3)
                     scenario.lucky)))) "order-u1"
     = Some orderpb.OrderStatus_PENDING.
Proof.
  split; [|vm_compute; reflexivity].
  edestruct (finalize_failure_keeps_success system.World system.clients
               scenario.ctx scenario.details scenario.paymentInfo
               scenario.shippingAddr
               (scenario.world system.NewServers (scenario.losing 3)
                  scenario.lucky))
    as (t & Hrun & _ & _ & Hlast).
  - reflexivity.
  - reflexivity.
  - simpl. discriminate.
  - reflexivity.
  - reflexivity.
  - exists t. eexists. split; [exact Hrun|exact Hlast].
Defined.

(** ** The saga: compensation order *)

(** C1.  In the deployed system, when [CreateOrder] and [ProcessPayment]
    succeed and [ArrangeShipping] returns an error, the saga returns the
    error failed to arrange shipping, and its compensation attempts are, in
    this order: [CancelShipping], skipped since no shipment id was recorded;
    [RefundPayment], called for the payment of step 2; [CancelOrder], called
    for the order of step 1.  No other remote call follows
    [ArrangeShipping]. *)
Theorem shipping_failure_compensates_in_reverse :
  forall (ctx : context.Context) (details : commonpb.OrderDetails)
         (paymentInfo : commonpb.PaymentInfo)
         (shippingAddr : commonpb.ShippingAddress)
         (w w1 w2 w3 : system.World)
         (resp1 : orderpb.CreateOrderResponse)
         (resp2 : paymentpb.ProcessPaymentResponse)
         (err3 : grpc.Status),
    let orderID := orderpb.CreateOrderResponse_OrderId resp1 in
    grpc_clients.CreateOrder (grpc_clients.Order system.clients) ctx
      {| orderpb.Details := details |} w = (inl resp1, w1) ->
    grpc_clients.ProcessPayment (grpc_clients.Payment system.clients) ctx
      {| paymentpb.ProcessPaymentRequest_OrderId := orderID;
         paymentpb.PaymentInfo := paymentInfo |} w1 = (inl resp2, w2) ->
    paymentpb.ProcessPaymentResponse_Status resp2
    <> paymentpb.PaymentStatus_FAILED ->
    grpc_clients.ArrangeShipping (grpc_clients.Shipping system.clients) ctx
      {| shippingpb.ArrangeShippingRequest_OrderId := orderID;
         shippingpb.ArrangeShippingRequest_Address := shippingAddr |} w2
    = (inr err3, w3) ->
    exists t w',
      system.ExecuteCreateOrderSaga ctx details paymentInfo shippingAddr w
      = (Some "failed to arrange shipping", t, w')
      /\ orchestrator.attempts t
         = [orchestrator.Skipped orchestrator.CancelShipping;
            orchestrator.Called orchestrator.RefundPayment;
            orchestrator.Called orchestrator.CancelOrder]
      /\ orchestrator.calls t
         = [orchestrator.Call_CreateOrder ctx {| orderpb.Details := details |};
            orchestrator.Call_ProcessPayment ctx
              {| paymentpb.ProcessPaymentRequest_OrderId := orderID;
                 paymentpb.PaymentInfo := paymentInfo |};
            orchestrator.Call_ArrangeShipping ctx
              {| shippingpb.ArrangeShippingRequest_OrderId := orderID;
                 shippingpb.ArrangeShippingRequest_Address := shippingAddr |};
            orchestrator.Call_RefundPayment orchestrator.fresh_ctx
              {| paymentpb.RefundPaymentRequest_OrderId := orderID;
                 paymentpb.RefundPaymentRequest_PaymentId :=
                   paymentpb.ProcessPaymentResponse_PaymentId resp2 |};
            orchestrator.Call_CancelOrder orchestrator.fresh_ctx
              {| orderpb.CancelOrderRequest_OrderId := orderID |}].
Proof.
  intros ctx details paymentInfo shippingAddr w w1 w2 w3 resp1 resp2 err3
    orderID H1 H2 Hst H3.
  assert (Hf : orchestrator.paymentFailed (inl resp2) = false)
    by (simpl; apply bool_decide_eq_false_2; exact Hst).
  assert (Hoid : commonpb.Id orderID <> "").
  { destruct (CreateOrder_stub_ok _ _ _ _ _ H1) as [Hid _].
    subst orderID. rewrite Hid. apply order_id_nonempty. }
  assert (Hpid : paymentpb.ProcessPaymentResponse_PaymentId resp2 <> "").
  { destruct (ProcessPayment_stub_ok _ _ _ _ _ H2) as [Hid _].
    rewrite Hid. apply payment_id_nonempty. }
  destruct (grpc_clients.RefundPayment (grpc_clients.Payment system.clients)
              orchestrator.fresh_ctx
              {| paymentpb.RefundPaymentRequest_OrderId := orderID;
                 paymentpb.RefundPaymentRequest_PaymentId :=
                   paymentpb.ProcessPaymentResponse_PaymentId resp2 |} w3)
    as [r5 w4] eqn:H5.
  destruct (grpc_clients.CancelOrder (grpc_clients.Order system.clients)
              orchestrator.fresh_ctx
              {| orderpb.CancelOrderRequest_OrderId := orderID |} w4)
    as [r6 w5] eqn:H6.
  eexists _, w5. split.
  - unfold system.ExecuteCreateOrderSaga.
    exact (saga_shipping_failed system.clients ctx details paymentInfo
             shippingAddr _ _ _ _ _ _ _ _ _ _ _ H1 H2 Hf H3
             (compensateProcessPayment_calls _ _ _ _ _ _ Hpid H5)
             (compensateCreateOrder_calls _ _ _ _ _ Hoid H6)).
  - split; destruct r5, r6; reflexivity.
Qed.

(** C1 at work: the payment goes through and the carrier is unavailable. *)
Lemma shipping_failure_compensates_in_reverse_witness :
  exists t w',
    scenario.run
      (scenario.world system.NewServers scenario.reliable
         scenario.carrier_down)
    = (Some "failed to arrange shipping", t, w')
    /\ orchestrator.attempts t
       = [orchestrator.Skipped orchestrator.CancelShipping;
          orchestrator.Called orchestrator.RefundPayment;
          orchestrator.Called orchestrator.CancelOrder]
    /\ system.order_status (system.servers w') "order-u1"
       = Some orderpb.OrderStatus_CANCELLED
    /\ system.payment_status (system.servers w') "pay-order-u1"
       = Some paymentpb.PaymentStatus_REFUNDED
    /\ system.shipment_status (system.servers w') "ship-order-u1" = None.
Proof.
  edestruct (shipping_failure_compensates_in_reverse scenario.ctx
               scenario.details scenario.paymentInfo scenario.shippingAddr
               (scenario.world system.NewServers scenario.reliable
                  scenario.carrier_down))
    as (t & w' & Hrun & Hatt & _).
  - reflexivity.
  - reflexivity.
  - simpl. discriminate.
  - reflexivity.
  - exists t, w'. split; [exact Hrun|]. split; [exact Hatt|].
    assert (Hw : w' = snd (scenario.run
                             (scenario.world system.NewServers
                                scenario.reliable scenario.carrier_down)))
      by (unfold scenario.run; rewrite Hrun; reflexivity).
    rewrite Hw. repeat split; vm_compute; reflexivity.
Defined.

(** ** The saga: compensations without an identifier *)

(** C5.  Against any clients, a compensation entered without an identifier
    (a nil or empty order id, an empty payment id, an empty shipment id)
    issues no remote call and leaves the world as it is.  In the deployed
    system, when [CreateOrder] succeeds and [ProcessPayment] fails, by an
    error or by the status FAILED, no payment id has been recorded: the saga
    returns failed to process payment, [RefundPayment] is skipped, and
    [CancelOrder] is called for the order of step 1, the only remote call
    after [ProcessPayment]. *)
Theorem compensation_without_id_is_skipped :
  (forall (W : Type) (clients : grpc_clients.ServiceClients W) (w : W)
          (orderID : commonpb.OrderID),
      (exists t, orchestrator.compensateCreateOrder clients None w = (tt, t, w)
                 /\ orchestrator.calls t = []
                 /\ orchestrator.attempts t
                    = [orchestrator.Skipped orchestrator.CancelOrder])
      /\ (exists t,
             orchestrator.compensateCreateOrder clients
               (Some {| commonpb.Id := "" |}) w = (tt, t, w)
             /\ orchestrator.calls t = []
             /\ orchestrator.attempts t
                = [orchestrator.Skipped orchestrator.CancelOrder])
      /\ (exists t,
             orchestrator.compensateProcessPayment clients orderID "" w
             = (tt, t, w)
             /\ orchestrator.calls t = []
             /\ orchestrator.attempts t
                = [orchestrator.Skipped orchestrator.RefundPayment])
      /\ (exists t,
             orchestrator.compensateArrangeShipping clients orderID "" w
             = (tt, t, w)
             /\ orchestrator.calls t = []
             /\ orchestrator.attempts t
                = [orchestrator.Skipped orchestrator.CancelShipping]))
  /\ (forall (ctx : context.Context) (details : commonpb.OrderDetails)
             (paymentInfo : commonpb.PaymentInfo)
             (shippingAddr : commonpb.ShippingAddress)
             (w w1 w2 : system.World)
             (resp1 : orderpb.CreateOrderResponse)
             (r2 : grpc.result paymentpb.ProcessPaymentResponse),
        let orderID := orderpb.CreateOrderResponse_OrderId resp1 in
        grpc_clients.CreateOrder (grpc_clients.Order system.clients) ctx
          {| orderpb.Details := details |} w = (inl resp1, w1) ->
        grpc_clients.ProcessPayment (grpc_clients.Payment system.clients) ctx
          {| paymentpb.ProcessPaymentRequest_OrderId := orderID;
             paymentpb.PaymentInfo := paymentInfo |} w1 = (r2, w2) ->
        orchestrator.paymentFailed r2 = true ->
        exists t w',
          system.ExecuteCreateOrderSaga ctx details paymentInfo shippingAddr w
          = (Some "failed to process payment", t, w')
          /\ orchestrator.attempts t
             = [orchestrator.Skipped orchestrator.RefundPayment;
                orchestrator.Called orchestrator.CancelOrder]
          /\ orchestrator.calls t
             = [orchestrator.Call_CreateOrder ctx
                  {| orderpb.Details := details |};
                orchestrator.Call_ProcessPayment ctx
                  {| paymentpb.ProcessPaymentRequest_OrderId := orderID;
                     paymentpb.PaymentInfo := paymentInfo |};
                orchestrator.Call_CancelOrder orchestrator.fresh_ctx
                  {| orderpb.CancelOrderRequest_OrderId := orderID |}]).
Proof.
  split.
  - intros W clients w orderID.
    repeat split; eexists; (split; [reflexivity|split; reflexivity]).
  - intros ctx details paymentInfo shippingAddr w w1 w2 resp1 r2 orderID
      H1 H2 Hf.
    assert (Hoid : commonpb.Id orderID <> "").
    { destruct (CreateOrder_stub_ok _ _ _ _ _ H1) as [Hid _].
      subst orderID. rewrite Hid. apply order_id_nonempty. }
    destruct (grpc_clients.CancelOrder (grpc_clients.Order system.clients)
                orchestrator.fresh_ctx
                {| orderpb.CancelOrderRequest_OrderId := orderID |} w2)
      as [r3 w3] eqn:H3.
    eexists _, w3. split.
    + unfold system.ExecuteCreateOrderSaga.
      exact (saga_payment_failed system.clients ctx details paymentInfo
               shippingAddr _ _ _ _ _ _ _ H1 H2 Hf
               (compensateCreateOrder_calls _ _ _ _ _ Hoid H3)).
    + split; destruct r2, r3; reflexivity.
Qed.

(** C5 at work: the payment of the scenario is declined. *)
Lemma compensation_without_id_is_skipped_witness :
  exists t w',
    scenario.run
      (scenario.world system.NewServers scenario.reliable scenario.unlucky)
    = (Some "failed to process payment", t, w')
    /\ orchestrator.attempts t
       = [orchestrator.Skipped orchestrator.RefundPayment;
          orchestrator.Called orchestrator.CancelOrder]
    /\ orchestrator.calls t
       = [orchestrator.Call_CreateOrder scenario.ctx
            {| orderpb.Details := scenario.details |};
          orchestrator.Call_ProcessPayment scenario.ctx
            {| paymentpb.ProcessPaymentRequest_OrderId := scenario.orderID;
               paymentpb.PaymentInfo := scenario.paymentInfo |};
          orchestrator.Call_CancelOrder orchestrator.fresh_ctx
            {| orderpb.CancelOrderRequest_OrderId := scenario.orderID |}].
Proof.
  edestruct (proj2 compensation_without_id_is_skipped scenario.ctx
               scenario.details scenario.paymentInfo scenario.shippingAddr
               (scenario.world system.NewServers scenario.reliable
                  scenario.unlucky))
    as (t & w' & Hrun & Hatt & Hcalls).
  - reflexivity.
  - reflexivity.
  - reflexivity.
  - exists t, w'. split; [exact Hrun|]. split; [exact Hatt|exact Hcalls].
Defined.

(** ** The saga: a payment that fails *)

(** The run of the deployed system when step 2 fails: after
    [ProcessPayment], the log line of the skipped refund, then the
    [CancelOrder] call and its outcome. *)
Lemma payment_failure_run ctx details paymentInfo shippingAddr
    (w w1 w2 : system.World) resp1 r2 :
  grpc_clients.CreateOrder (grpc_clients.Order system.clients) ctx
    {| orderpb.Details := details |} w = (inl resp1, w1) ->
  grpc_clients.ProcessPayment (grpc_clients.Payment system.clients) ctx
    {| paymentpb.ProcessPaymentRequest_OrderId :=
         orderpb.CreateOrderResponse_OrderId resp1;
       paymentpb.PaymentInfo := paymentInfo |} w1 = (r2, w2) ->
  orchestrator.paymentFailed r2 = true ->
  exists t r3 w3,
    grpc_clients.CancelOrder (grpc_clients.Order system.clients)
      orchestrator.fresh_ctx
      {| orderpb.CancelOrderRequest_OrderId :=
           orderpb.CreateOrderResponse_OrderId resp1 |} w2 = (r3, w3)
    /\ system.ExecuteCreateOrderSaga ctx details paymentInfo shippingAddr w
       = (Some "failed to process payment", t, w3)
    /\ orchestrator.attempts t
       = [orchestrator.Skipped orchestrator.RefundPayment;
          orchestrator.Called orchestrator.CancelOrder]
    /\ orchestrator.calls t
       = [orchestrator.Call_CreateOrder ctx {| orderpb.Details := details |};
          orchestrator.Call_ProcessPayment ctx
            {| paymentpb.ProcessPaymentRequest_OrderId :=
                 orderpb.CreateOrderResponse_OrderId resp1;
               paymentpb.PaymentInfo := paymentInfo |};
          orchestrator.Call_CancelOrder orchestrator.fresh_ctx
            {| orderpb.CancelOrderRequest_OrderId :=
                 orderpb.CreateOrderResponse_OrderId resp1 |}].
Proof.
  intros H1 H2 Hf.
  assert (Hoid : commonpb.Id (orderpb.CreateOrderResponse_OrderId resp1) <> "").
  { destruct (CreateOrder_stub_ok _ _ _ _ _ H1) as [Hid _].
    rewrite Hid. apply order_id_nonempty. }
  destruct (grpc_clients.CancelOrder (grpc_clients.Order system.clients)
              orchestrator.fresh_ctx
              {| orderpb.CancelOrderRequest_OrderId :=
                   orderpb.CreateOrderResponse_OrderId resp1 |} w2)
    as [r3 w3] eqn:H3.
  eexists _, r3, w3. split; [reflexivity|]. split.
  - unfold system.ExecuteCreateOrderSaga.
    exact (saga_payment_failed system.clients ctx details paymentInfo
             shippingAddr _ _ _ _ _ _ _ H1 H2 Hf
             (compensateCreateOrder_calls _ _ _ _ _ Hoid H3)).
  - split; destruct r2, r3; reflexivity.
Qed.

(** C2, refuted as stated.  The payment of the scenario is declined: the
    payment service stores a FAILED record and answers with its id, the saga
    returns failed to process payment, and the remote calls of the run are
    [CreateOrder], [ProcessPayment] and [CancelOrder].  No [RefundPayment]
    call is issued, so the refund handler is never asked; it is the
    orchestrator that skips, on its empty [state.PaymentID]. *)
Lemma declined_payment_issues_no_refund_call :
  fst (fst (scenario.run
              (scenario.world system.NewServers scenario.reliable
                 scenario.unlucky)))
  = Some "failed to process payment"
  /\ system.payment_status
       (system.servers
          (snd (scenario.run
                  (scenario.world system.NewServers scenario.reliable
                     scenario.unlucky)))) "pay-order-u1"
     = Some paymentpb.PaymentStatus_FAILED
  /\ orchestrator.calls
       (snd (fst (scenario.run
                    (scenario.world system.NewServers scenario.reliable
                       scenario.unlucky))))
     = [orchestrator.Call_CreateOrder scenario.ctx
          {| orderpb.Details := scenario.details |};
        orchestrator.Call_ProcessPayment scenario.ctx
          {| paymentpb.ProcessPaymentRequest_OrderId := scenario.orderID;
             paymentpb.PaymentInfo := scenario.paymentInfo |};
        orchestrator.Call_CancelOrder orchestrator.fresh_ctx
          {| orderpb.CancelOrderRequest_OrderId := scenario.orderID |}]
  /\ ~ (exists c req,
           In (orchestrator.Call_RefundPayment c req)
              (orchestrator.calls
                 (snd (fst (scenario.run
                              (scenario.world system.NewServers
                                 scenario.reliable scenario.unlucky)))))).
Proof.
  split; [vm_compute; reflexivity|].
  split; [vm_compute; reflexivity|].
  assert (Hcalls :
            orchestrator.calls
              (snd (fst (scenario.run
                           (scenario.world system.NewServers scenario.reliable
                              scenario.unlucky))))
            = [orchestrator.Call_CreateOrder scenario.ctx
                 {| orderpb.Details := scenario.details |};
               orchestrator.Call_ProcessPayment scenario.ctx
                 {| paymentpb.ProcessPaymentRequest_OrderId := scenario.orderID;
                    paymentpb.PaymentInfo := scenario.paymentInfo |};
               orchestrator.Call_CancelOrder orchestrator.fresh_ctx
                 {| orderpb.CancelOrderRequest_OrderId := scenario.orderID |}])
    by reflexivity.
  split; [exact Hcalls|].
  rewrite Hcalls. intros (c & req & [H|[H|[H|[]]]]); discriminate.
Qed.

(** C2, amended.  In the deployed system, when [CreateOrder] succeeds and
    [ProcessPayment] fails, by an error or by the status FAILED, the
    orchestrator enters the payment compensation first, for the step that
    just failed, and that compensation skips: [state.PaymentID] is still
    empty, no [RefundPayment] call is issued, and the payment server is left
    as [ProcessPayment] left it; [CancelOrder] is called next.  The refund
    handler, for its part, when asked to refund a payment whose record is
    FAILED and belongs to the order of the request, answers success with the
    message that no refund is needed and leaves the store untouched. *)
Theorem failed_payment_compensation_is_skipped :
  (forall (ctx : context.Context) (details : commonpb.OrderDetails)
          (paymentInfo : commonpb.PaymentInfo)
          (shippingAddr : commonpb.ShippingAddress)
          (w w1 w2 : system.World)
          (resp1 : orderpb.CreateOrderResponse)
          (r2 : grpc.result paymentpb.ProcessPaymentResponse),
      grpc_clients.CreateOrder (grpc_clients.Order system.clients) ctx
        {| orderpb.Details := details |} w = (inl resp1, w1) ->
      grpc_clients.ProcessPayment (grpc_clients.Payment system.clients) ctx
        {| paymentpb.ProcessPaymentRequest_OrderId :=
             orderpb.CreateOrderResponse_OrderId resp1;
           paymentpb.PaymentInfo := paymentInfo |} w1 = (r2, w2) ->
      orchestrator.paymentFailed r2 = true ->
      exists t w',
        system.ExecuteCreateOrderSaga ctx details paymentInfo shippingAddr w
        = (Some "failed to process payment", t, w')
        /\ orchestrator.attempts t
           = [orchestrator.Skipped orchestrator.RefundPayment;
              orchestrator.Called orchestrator.CancelOrder]
        /\ (forall c req,
               ~ In (orchestrator.Call_RefundPayment c req)
                    (orchestrator.calls t))
        /\ system.paymentSrv (system.servers w')
           = system.paymentSrv (system.servers w2))
  /\ (forall (s : payment.Server) (req : paymentpb.RefundPaymentRequest)
             (p : paymentpb.Payment),
        payment.payments s !! paymentpb.RefundPaymentRequest_PaymentId req
        = Some p ->
        commonpb.Id (paymentpb.OrderId p)
        = commonpb.Id (paymentpb.RefundPaymentRequest_OrderId req) ->
        paymentpb.Status p = paymentpb.PaymentStatus_FAILED ->
        payment.RefundPayment s req
        = (inl {| commonpb.Success := true;
                  commonpb.Message :=
                    "Payment originally failed, no refund needed" |}, s)).
Proof.
  split.
  - intros ctx details paymentInfo shippingAddr w w1 w2 resp1 r2 H1 H2 Hf.
    destruct (payment_failure_run ctx details paymentInfo shippingAddr
                w w1 w2 resp1 r2 H1 H2 Hf)
      as (t & r3 & w3 & H3 & Hrun & Hatt & Hcalls).
    exists t, w3. split; [exact Hrun|]. split; [exact Hatt|]. split.
    + intros c req. rewrite Hcalls. intros [H|[H|[H|[]]]]; discriminate.
    + destruct (CancelOrder_stub_effect _ _ _ _ _ H3) as [Hp _]. exact Hp.
  - intros s req p Hp Ho Hst. rewrite (RefundPayment_owned _ _ _ Hp Ho).
    rewrite decide_False by (rewrite Hst; discriminate).
    rewrite decide_True by exact Hst. reflexivity.
Qed.

(** C2 amended, at work: the declined payment of the scenario is never
    refunded by the saga; asked directly afterwards, the refund handler
    answers that no refund is needed. *)
Lemma failed_payment_compensation_is_skipped_witness :
  (exists t w',
      scenario.run
        (scenario.world system.NewServers scenario.reliable scenario.unlucky)
      = (Some "failed to process payment", t, w')
      /\ orchestrator.attempts t
         = [orchestrator.Skipped orchestrator.RefundPayment;
            orchestrator.Called orchestrator.CancelOrder])
  /\ payment.RefundPayment (system.paymentSrv scenario.after_declined)
       scenario.refundReq
     = (inl {| commonpb.Success := true;
               commonpb.Message :=
                 "Payment originally failed, no refund needed" |},
        system.paymentSrv scenario.after_declined).
Proof.
  destruct failed_payment_compensation_is_skipped as [Hsaga Hhandler].
  split.
  - edestruct (Hsaga scenario.ctx scenario.details scenario.paymentInfo
                 scenario.shippingAddr
                 (scenario.world system.NewServers scenario.reliable
                    scenario.unlucky))
      as (t & w' & Hrun & Hatt & _).
    + reflexivity.
    + reflexivity.
    + reflexivity.
    + exists t, w'. split; [exact Hrun|exact Hatt].
  - destruct (payment.payments (system.paymentSrv scenario.after_declined)
                !! "pay-order-u1") as [p|] eqn:Hp;
      [|vm_compute in Hp; discriminate].
    apply (Hhandler _ scenario.refundReq p Hp);
      vm_compute in Hp; injection Hp as <-; reflexivity.
Defined.

(** ** The saga: a declined payment, end to end *)

(** C3, refuted as stated, twice.
    First run: fresh servers, the payment is declined, and the request of
    the third call, [CancelOrder], is lost on the wire.  The saga returns
    failed to process payment and the order is still PENDING.
    Second run: the same user orders again after a first saga that
    succeeded; the payment of the second saga is declined and every call is
    delivered.  The order ends CANCELLED, and the shipment record of the
    first saga, stored under the same identifier, is still there. *)
Lemma declined_payment_order_not_cancelled_or_shipment_present :
  (fst (fst (scenario.run
               (scenario.world system.NewServers (scenario.losing 2)
                  scenario.unlucky)))
   = Some "failed to process payment"
   /\ system.order_status
        (system.servers
           (snd (scenario.run
                   (scenario.world system.NewServers (scenario.losing 2)
                      scenario.unlucky)))) "order-u1"
      = Some orderpb.OrderStatus_PENDING)
  /\ (fst (fst (scenario.run
                  (scenario.world scenario.after_success scenario.reliable
                     scenario.unlucky)))
      = Some "failed to process payment"
      /\ system.order_status
           (system.servers
              (snd (scenario.run
                      (scenario.world scenario.after_success scenario.reliable
                         scenario.unlucky)))) "order-u1"
         = Some orderpb.OrderStatus_CANCELLED
      /\ system.shipment_status
           (system.servers
              (snd (scenario.run
                      (scenario.world scenario.after_success scenario.reliable
                         scenario.unlucky)))) "ship-order-u1"
         = Some shippingpb.ShippingStatus_SHIPPED).
Proof. repeat split; vm_compute; reflexivity. Qed.

(** C3, amended.  In the deployed system, when [CreateOrder] succeeds and
    [ProcessPayment] returns a response with status FAILED, the saga returns
    failed to process payment; the run leaves the shipping server as it
    found it, so it creates no shipment record; and, provided the request of
    the compensating [CancelOrder] call is not lost, the order record ends
    CANCELLED. *)
Theorem declined_payment_cancels_order_and_ships_nothing :
  forall (ctx : context.Context) (details : commonpb.OrderDetails)
         (paymentInfo : commonpb.PaymentInfo)
         (shippingAddr : commonpb.ShippingAddress)
         (w w1 w2 : system.World)
         (resp1 : orderpb.CreateOrderResponse)
         (resp2 : paymentpb.ProcessPaymentResponse),
    let orderID := orderpb.CreateOrderResponse_OrderId resp1 in
    grpc_clients.CreateOrder (grpc_clients.Order system.clients) ctx
      {| orderpb.Details := details |} w = (inl resp1, w1) ->
    grpc_clients.ProcessPayment (grpc_clients.Payment system.clients) ctx
      {| paymentpb.ProcessPaymentRequest_OrderId := orderID;
         paymentpb.PaymentInfo := paymentInfo |} w1 = (inl resp2, w2) ->
    paymentpb.ProcessPaymentResponse_Status resp2
    = paymentpb.PaymentStatus_FAILED ->
    exists t w',
      system.ExecuteCreateOrderSaga ctx details paymentInfo shippingAddr w
      = (Some "failed to process payment", t, w')
      /\ system.shippingSrv (system.servers w')
         = system.shippingSrv (system.servers w)
      /\ ((forall err,
              system.net w2 (system.sent w2) <> system.RequestLost err) ->
          system.order_status (system.servers w') (commonpb.Id orderID)
          = Some orderpb.OrderStatus_CANCELLED).
Proof.
  intros ctx details paymentInfo shippingAddr w w1 w2 resp1 resp2 orderID
    H1 H2 Hst.
  assert (Hf : orchestrator.paymentFailed (inl resp2) = true)
    by (simpl; apply bool_decide_eq_true_2; exact Hst).
  destruct (payment_failure_run ctx details paymentInfo shippingAddr
              w w1 w2 resp1 (inl resp2) H1 H2 Hf)
    as (t & r3 & w3 & H3 & Hrun & _ & _).
  destruct (CreateOrder_stub_ok _ _ _ _ _ H1)
    as (Hid & Hpending & _ & Hship1 & _ & _).
  destruct (ProcessPayment_stub_frame _ _ _ _ _ H2)
    as (Hord2 & Hship2 & _ & _).
  destruct (CancelOrder_stub_effect _ _ _ _ _ H3) as (_ & Hship3 & Hcancel).
  exists t, w3. split; [exact Hrun|]. split.
  - rewrite Hship3, Hship2, Hship1. reflexivity.
  - intros Hnet. apply Hcancel; [exact Hnet|].
    cbn [orderpb.CancelOrderRequest_OrderId].
    unfold system.order_status in *. rewrite Hord2.
    subst orderID. rewrite Hid. cbn [commonpb.Id]. rewrite Hpending.
    eexists; reflexivity.
Qed.

(** C3 amended, at work: the payment of the scenario is declined on fresh
    servers and every call is delivered. *)
Lemma declined_payment_cancels_order_and_ships_nothing_witness :
  exists t w',
    scenario.run
      (scenario.world system.NewServers scenario.reliable scenario.unlucky)
    = (Some "failed to process payment", t, w')
    /\ system.shippingSrv (system.servers w') = shipping.NewServer
    /\ system.order_status (system.servers w') "order-u1"
       = Some orderpb.OrderStatus_CANCELLED.
Proof.
  edestruct (declined_payment_cancels_order_and_ships_nothing scenario.ctx
               scenario.details scenario.paymentInfo scenario.shippingAddr
               (scenario.world system.NewServers scenario.reliable
                  scenario.unlucky))
    as (t & w' & Hrun & Hship & Hcancel).
  - reflexivity.
  - reflexivity.
  - reflexivity.
  - exists t, w'. split; [exact Hrun|]. split; [exact Hship|].
    apply Hcancel. intros err. discriminate.
Defined.

(** * Further properties of the code *)

(** ** [CompleteOrder] *)

(** X1.  [CompleteOrder] on an identifier under which nothing is stored
    fails with NotFound and changes nothing.  On a stored order it always
    answers success with the message Order completion processed: the status
    becomes COMPLETED when it was PENDING and is left as it was otherwise
    (a CANCELLED order stays CANCELLED), no other record is touched, and
    repeating the request gives the same answer and the same store. *)
Theorem CompleteOrder_permissive_and_idempotent :
  forall (s : order.Server) (req : orderpb.CompleteOrderRequest),
    let id := commonpb.Id (orderpb.CompleteOrderRequest_OrderId req) in
    let done := {| commonpb.Success := true;
                   commonpb.Message := "Order completion processed" |} in
    match order.orders s !! id with
    | None =>
        exists err, order.CompleteOrder s req = (inr err, s)
                    /\ grpc.code err = grpc.NotFound
    | Some o =>
        exists s',
          order.CompleteOrder s req = (inl done, s')
          /\ orderpb.Status <$> order.orders s' !! id
             = Some (if decide (orderpb.Status o = orderpb.OrderStatus_PENDING)
                     then orderpb.OrderStatus_COMPLETED
                     else orderpb.Status o)
          /\ (forall k, k <> id -> order.orders s' !! k = order.orders s !! k)
          /\ order.CompleteOrder s' req = (inl done, s')
    end.
Proof.
  intros s req id done.
  destruct (order.orders s !! id) as [o|] eqn:Ho.
  - unfold order.CompleteOrder. fold id. rewrite Ho.
    destruct (decide (orderpb.Status o = orderpb.OrderStatus_PENDING))
      as [Hp|Hp].
    + eexists. split; [reflexivity|]. simpl.
      split; [rewrite lookup_insert_eq; reflexivity|]. split.
      * intros k Hk. apply lookup_insert_ne. congruence.
      * rewrite lookup_insert_eq. reflexivity.
    + exists s. split; [reflexivity|].
      split; [rewrite Ho; reflexivity|]. split; [reflexivity|].
      rewrite Ho. rewrite decide_False by exact Hp. reflexivity.
  - unfold order.CompleteOrder. fold id. rewrite Ho.
    eexists. split; reflexivity.
Qed.

(** ** What the status operations leave alone *)

Section Frames.
Import traffic.

Lemma same_but_status_refl {A} (R : A -> A -> Prop) (x : option A) :
  (forall a, R a a) -> same_but_status R x x.
Proof. intros HR. destruct x; simpl; auto. Qed.

Lemma same_but_status_trans {A} (R : A -> A -> Prop) (x y z : option A) :
  (forall a b c, R a b -> R b c -> R a c) ->
  same_but_status R x y -> same_but_status R y z -> same_but_status R x z.
Proof.
  intros HR. destruct x, y, z; simpl; try tauto. apply HR.
Qed.

Lemma same_order_set_Status o st : same_order o (orderpb.set_Status o st).
Proof. repeat split. Qed.

Lemma same_payment_set_Status p st : same_payment p (paymentpb.set_Status p st).
Proof. repeat split. Qed.

Lemma same_shipment_set_Status sh st :
  same_shipment sh (shippingpb.set_Status sh st).
Proof. repeat split. Qed.

Lemma CancelOrder_frame (s : order.Server) req k :
  same_but_status same_order
    (order.orders s !! k) (order.orders (snd (order.CancelOrder s req)) !! k).
Proof.
  unfold order.CancelOrder.
  destruct (order.orders s
              !! commonpb.Id (orderpb.CancelOrderRequest_OrderId req))
    as [o|] eqn:Ho; simpl;
    [|apply same_but_status_refl; repeat split].
  case_decide; simpl; [apply same_but_status_refl; repeat split|].
  destruct (decide (commonpb.Id (orderpb.CancelOrderRequest_OrderId req) = k))
    as [<-|Hne].
  - rewrite lookup_insert_eq, Ho. apply same_order_set_Status.
  - rewrite lookup_insert_ne by exact Hne.
    apply same_but_status_refl; repeat split.
Qed.

Lemma CompleteOrder_frame (s : order.Server) req k :
  same_but_status same_order
    (order.orders s !! k)
    (order.orders (snd (order.CompleteOrder s req)) !! k).
Proof.
  unfold order.CompleteOrder.
  destruct (order.orders s
              !! commonpb.Id (orderpb.CompleteOrderRequest_OrderId req))
    as [o|] eqn:Ho; simpl;
    [|apply same_but_status_refl; repeat split].
  case_decide; simpl; [|apply same_but_status_refl; repeat split].
  destruct (decide (commonpb.Id (orderpb.CompleteOrderRequest_OrderId req) = k))
    as [<-|Hne].
  - rewrite lookup_insert_eq, Ho. apply same_order_set_Status.
  - rewrite lookup_insert_ne by exact Hne.
    apply same_but_status_refl; repeat split.
Qed.

Lemma RefundPayment_frame (s : payment.Server) req k :
  same_but_status same_payment
    (payment.payments s !! k)
    (payment.payments (snd (payment.RefundPayment s req)) !! k).
Proof.
  unfold payment.RefundPayment.
  destruct (payment.payments s !! paymentpb.RefundPaymentRequest_PaymentId req)
    as [p|] eqn:Hp; simpl;
    [|apply same_but_status_refl; repeat split].
  repeat (case_decide; simpl;
          try (apply same_but_status_refl; repeat split)).
  destruct (decide (paymentpb.RefundPaymentRequest_PaymentId req = k))
    as [<-|Hne].
  - rewrite lookup_insert_eq, Hp. apply same_payment_set_Status.
  - rewrite lookup_insert_ne by exact Hne.
    apply same_but_status_refl; repeat split.
Qed.

Lemma CancelShipping_frame (s : shipping.Server) req k :
  same_but_status same_shipment
    (shipping.shipments s !! k)
    (shipping.shipments (snd (shipping.CancelShipping s req)) !! k).
Proof.
  unfold shipping.CancelShipping.
  destruct (shipping.shipments s
              !! shippingpb.CancelShippingRequest_ShipmentId req)
    as [sh|] eqn:Hp; simpl;
    [|apply same_but_status_refl; repeat split].
  repeat (case_decide; simpl;
          try (apply same_but_status_refl; repeat split)).
  destruct (decide (shippingpb.CancelShippingRequest_ShipmentId req = k))
    as [<-|Hne].
  - rewrite lookup_insert_eq, Hp. apply same_shipment_set_Status.
  - rewrite lookup_insert_ne by exact Hne.
    apply same_but_status_refl; repeat split.
Qed.

End Frames.

(** X2.  Over every sequence of [CancelOrder], [CompleteOrder],
    [RefundPayment] and [CancelShipping] requests, and under every key of
    each store: no record appears and none disappears, and a record keeps
    every field but its status (an order its id, user, items and total; a
    payment its id, order, amount and transaction id; a shipment its id,
    order, address and tracking number). *)
Theorem status_operations_change_status_only :
  forall (s : system.Servers) (ops : list system.StoreOp) (k : string),
    traffic.same_but_status traffic.same_order
      (order.orders (system.orderSrv s) !! k)
      (order.orders (system.orderSrv (system.apply_ops s ops)) !! k)
    /\ traffic.same_but_status traffic.same_payment
         (payment.payments (system.paymentSrv s) !! k)
         (payment.payments (system.paymentSrv (system.apply_ops s ops)) !! k)
    /\ traffic.same_but_status traffic.same_shipment
         (shipping.shipments (system.shippingSrv s) !! k)
         (shipping.shipments (system.shippingSrv (system.apply_ops s ops))
            !! k).
Proof.
  intros s ops k. revert s. unfold system.apply_ops.
  induction ops as [|op ops IH]; intros s; simpl.
  - repeat split; apply same_but_status_refl; repeat split.
  - destruct (IH (system.apply_op s op)) as (IHo & IHp & IHs).
    assert (Hstep :
              traffic.same_but_status traffic.same_order
                (order.orders (system.orderSrv s) !! k)
                (order.orders (system.orderSrv (system.apply_op s op)) !! k)
              /\ traffic.same_but_status traffic.same_payment
                   (payment.payments (system.paymentSrv s) !! k)
                   (payment.payments
                      (system.paymentSrv (system.apply_op s op)) !! k)
              /\ traffic.same_but_status traffic.same_shipment
                   (shipping.shipments (system.shippingSrv s) !! k)
                   (shipping.shipments
                      (system.shippingSrv (system.apply_op s op)) !! k)).
    { destruct op as [req|req|req|req]; simpl; repeat split;
        first [apply CancelOrder_frame | apply CompleteOrder_frame
              | apply RefundPayment_frame | apply CancelShipping_frame
              | apply same_but_status_refl; repeat split]. }
    destruct Hstep as (Ho & Hp & Hs).
    split; [|split].
    + eapply same_but_status_trans; [|exact Ho|exact IHo].
      unfold traffic.same_order. intuition congruence.
    + eapply same_but_status_trans; [|exact Hp|exact IHp].
      unfold traffic.same_payment. intuition congruence.
    + eapply same_but_status_trans; [|exact Hs|exact IHs].
      unfold traffic.same_shipment. intuition congruence.
Qed.

(** ** Records under any traffic *)

Section Traffic.
Import traffic system.

Lemma is_Some_lookup_insert {A} (m : gmap string A) (i k : string) (x : A) :
  is_Some (m !! k) -> is_Some (<[i := x]> m !! k).
Proof.
  intros H. destruct (decide (i = k)) as [->|Hne].
  - rewrite lookup_insert_eq. eexists; reflexivity.
  - rewrite lookup_insert_ne by exact Hne. exact H.
Qed.

Lemma same_but_status_is_Some {A} (R : A -> A -> Prop) (x y : option A) :
  same_but_status R x y -> is_Some x -> is_Some y.
Proof.
  destruct x as [a|], y as [b|]; simpl; intros H [c Hc];
    try discriminate; try contradiction; eexists; reflexivity.
Qed.

(** One request never removes a record. *)
Lemma handle_keeps_records (s : Servers) (r : Request) (k : string) :
  (is_Some (order.orders (orderSrv s) !! k) ->
   is_Some (order.orders (orderSrv (handle s r)) !! k))
  /\ (is_Some (payment.payments (paymentSrv s) !! k) ->
      is_Some (payment.payments (paymentSrv (handle s r)) !! k))
  /\ (is_Some (shipping.shipments (shippingSrv s) !! k) ->
      is_Some (shipping.shipments (shippingSrv (handle s r)) !! k)).
Proof.
  destruct r as [req|req|req|roll req|req|roll req|req]; simpl;
    repeat split; try (intros H; exact H).
  - apply is_Some_lookup_insert.
  - apply (same_but_status_is_Some _ _ _ (CancelOrder_frame _ req k)).
  - apply (same_but_status_is_Some _ _ _ (CompleteOrder_frame _ req k)).
  - apply is_Some_lookup_insert.
  - apply (same_but_status_is_Some _ _ _ (RefundPayment_frame _ req k)).
  - unfold shipping.ArrangeShipping.
    destruct (negb (1 <? roll)%Z); simpl; [intros H; exact H|].
    apply is_Some_lookup_insert.
  - apply (same_but_status_is_Some _ _ _ (CancelShipping_frame _ req k)).
Qed.

(** One request keeps the stores well keyed. *)
Lemma handle_well_keyed (s : Servers) (r : Request) :
  well_keyed s -> well_keyed (handle s r).
Proof.
  intros (HO & HP & HS).
  destruct r as [req|req|req|roll req|req|roll req|req]; simpl;
    (split; [|split]); simpl; try assumption.
  - intros k o.
    destruct (decide ("order-" +:+ commonpb.UserId (orderpb.Details req) = k))
      as [<-|Hne].
    + rewrite lookup_insert_eq. intros [= <-]. split; reflexivity.
    + rewrite lookup_insert_ne by exact Hne. apply HO.
  - intros k o' Ho'. pose proof (CancelOrder_frame (orderSrv s) req k) as Hf.
    rewrite Ho' in Hf.
    destruct (order.orders (orderSrv s) !! k) as [o|] eqn:Ho; [|contradiction].
    destruct Hf as (Hi & Hu & _). destruct (HO k o Ho) as [H1 H2].
    split; congruence.
  - intros k o' Ho'. pose proof (CompleteOrder_frame (orderSrv s) req k) as Hf.
    rewrite Ho' in Hf.
    destruct (order.orders (orderSrv s) !! k) as [o|] eqn:Ho; [|contradiction].
    destruct Hf as (Hi & Hu & _). destruct (HO k o Ho) as [H1 H2].
    split; congruence.
  - intros k p.
    destruct (decide ("pay-" +:+ commonpb.Id
                        (paymentpb.ProcessPaymentRequest_OrderId req) = k))
      as [<-|Hne].
    + rewrite lookup_insert_eq. intros [= <-]. split; reflexivity.
    + rewrite lookup_insert_ne by exact Hne. apply HP.
  - intros k p' Hp'. pose proof (RefundPayment_frame (paymentSrv s) req k) as Hf.
    rewrite Hp' in Hf.
    destruct (payment.payments (paymentSrv s) !! k) as [p|] eqn:Hp;
      [|contradiction].
    destruct Hf as (Hi & Ho & _). destruct (HP k p Hp) as [H1 H2].
    split; congruence.
  - intros k sh. unfold shipping.ArrangeShipping.
    destruct (negb (1 <? roll)%Z); simpl; [apply HS|].
    destruct (decide ("ship-" +:+ commonpb.Id
                        (shippingpb.ArrangeShippingRequest_OrderId req) = k))
      as [<-|Hne].
    + rewrite lookup_insert_eq. intros [= <-]. split; reflexivity.
    + rewrite lookup_insert_ne by exact Hne. apply HS.
  - intros k sh' Hsh'.
    pose proof (CancelShipping_frame (shippingSrv s) req k) as Hf.
    rewrite Hsh' in Hf.
    destruct (shipping.shipments (shippingSrv s) !! k) as [sh|] eqn:Hsh;
      [|contradiction].
    destruct Hf as (Hi & Ho & _). destruct (HS k sh Hsh) as [H1 H2].
    split; congruence.
Qed.

Lemma handle_all_invariant (P : Servers -> Prop) :
  (forall s r, P s -> P (handle s r)) ->
  forall rs s, P s -> P (handle_all s rs).
Proof.
  intros Hstep rs. unfold handle_all.
  induction rs as [|r rs IH]; intros s Hs; simpl; [exact Hs|].
  apply IH, Hstep, Hs.
Qed.

End Traffic.

(** X3.  No sequence of requests, to any of the seven handlers and with any
    draws, ever removes a record: a key present in the order, payment or
    shipping store stays present. *)
Theorem records_are_never_deleted :
  forall (s : system.Servers) (rs : list traffic.Request) (k : string),
    (is_Some (order.orders (system.orderSrv s) !! k) ->
     is_Some (order.orders (system.orderSrv (traffic.handle_all s rs)) !! k))
    /\ (is_Some (payment.payments (system.paymentSrv s) !! k) ->
        is_Some (payment.payments
                   (system.paymentSrv (traffic.handle_all s rs)) !! k))
    /\ (is_Some (shipping.shipments (system.shippingSrv s) !! k) ->
        is_Some (shipping.shipments
                   (system.shippingSrv (traffic.handle_all s rs)) !! k)).
Proof.
  intros s rs k. repeat split; intros H.
  - apply (handle_all_invariant
             (fun s => is_Some (order.orders (system.orderSrv s) !! k)));
      [|exact H].
    intros s0 r. apply handle_keeps_records.
  - apply (handle_all_invariant
             (fun s => is_Some (payment.payments (system.paymentSrv s) !! k)));
      [|exact H].
    intros s0 r. apply handle_keeps_records.
  - apply (handle_all_invariant
             (fun s => is_Some
                         (shipping.shipments (system.shippingSrv s) !! k)));
      [|exact H].
    intros s0 r. apply handle_keeps_records.
Qed.

(** X3 at work: after a successful saga, cancelling everything, a declined
    payment and a failed shipping attempt for the same order leave the three
    records of the order in place. *)
Lemma records_are_never_deleted_witness :
  is_Some (order.orders
             (system.orderSrv
                (traffic.handle_all scenario.after_success
                   [traffic.Req_CancelOrder scenario.cancelOrderReq;
                    traffic.Req_RefundPayment scenario.refundReq;
                    traffic.Req_CancelShipping scenario.cancelShippingReq;
                    traffic.Req_ProcessPayment 0 examples.processPaymentReq;
                    traffic.Req_ArrangeShipping 0 examples.arrangeShippingReq]))
             !! "order-u1")
  /\ is_Some (payment.payments
                (system.paymentSrv
                   (traffic.handle_all scenario.after_success
                      [traffic.Req_CancelOrder scenario.cancelOrderReq;
                       traffic.Req_RefundPayment scenario.refundReq;
                       traffic.Req_CancelShipping scenario.cancelShippingReq;
                       traffic.Req_ProcessPayment 0 examples.processPaymentReq;
                       traffic.Req_ArrangeShipping 0
                         examples.arrangeShippingReq]))
                !! "pay-order-u1")
  /\ is_Some (shipping.shipments
                (system.shippingSrv
                   (traffic.handle_all scenario.after_success
                      [traffic.Req_CancelOrder scenario.cancelOrderReq;
                       traffic.Req_RefundPayment scenario.refundReq;
                       traffic.Req_CancelShipping scenario.cancelShippingReq;
                       traffic.Req_ProcessPayment 0 examples.processPaymentReq;
                       traffic.Req_ArrangeShipping 0
                         examples.arrangeShippingReq]))
                !! "ship-order-u1").
Proof.
  split; [|split].
  - apply (proj1 (records_are_never_deleted scenario.after_success _
                    "order-u1")).
    vm_compute. eexists; reflexivity.
  - apply (proj1 (proj2 (records_are_never_deleted scenario.after_success _
                           "pay-order-u1"))).
    vm_compute. eexists; reflexivity.
  - apply (proj2 (proj2 (records_are_never_deleted scenario.after_success _
                           "ship-order-u1"))).
    vm_compute. eexists; reflexivity.
Defined.

(** X4.  Starting from empty stores, whatever requests the servers handle,
    every record sits under the key made from its own identity: an order
    under its id, order- followed by its user id; a payment under its id,
    pay- followed by the id of its order; a shipment under its id, ship-
    followed by the id of its order.  Hence a store never holds two
    payments, or two shipments, of the same order: a new attempt for an
    order replaces the record of the previous one. *)
Theorem reachable_stores_are_well_keyed :
  forall (rs : list traffic.Request),
    let s := traffic.handle_all system.NewServers rs in
    traffic.well_keyed s
    /\ (forall k1 k2 p1 p2,
           payment.payments (system.paymentSrv s) !! k1 = Some p1 ->
           payment.payments (system.paymentSrv s) !! k2 = Some p2 ->
           commonpb.Id (paymentpb.OrderId p1)
           = commonpb.Id (paymentpb.OrderId p2) ->
           k1 = k2)
    /\ (forall k1 k2 sh1 sh2,
           shipping.shipments (system.shippingSrv s) !! k1 = Some sh1 ->
           shipping.shipments (system.shippingSrv s) !! k2 = Some sh2 ->
           commonpb.Id (shippingpb.OrderId sh1)
           = commonpb.Id (shippingpb.OrderId sh2) ->
           k1 = k2).
Proof.
  intros rs s.
  assert (Hwk : traffic.well_keyed s).
  { apply (handle_all_invariant traffic.well_keyed).
    - intros s0 r. apply handle_well_keyed.
    - (split; [|split]); intros k x Hx; simpl in Hx;
        rewrite lookup_empty in Hx; discriminate. }
  split; [exact Hwk|]. destruct Hwk as (_ & HP & HS). split.
  - intros k1 k2 p1 p2 H1 H2 Heq.
    destruct (HP _ _ H1) as [_ ->]. destruct (HP _ _ H2) as [_ ->].
    rewrite Heq. reflexivity.
  - intros k1 k2 sh1 sh2 H1 H2 Heq.
    destruct (HS _ _ H1) as [_ ->]. destruct (HS _ _ H2) as [_ ->].
    rewrite Heq. reflexivity.
Qed.

(** X4 at work: an order, a payment that succeeds, a retry that is declined
    and a shipment.  The payment store holds one record for the order, under
    pay-order-u1, whose id is its key. *)
Lemma reachable_stores_are_well_keyed_witness :
  exists p,
    payment.payments
      (system.paymentSrv
         (traffic.handle_all system.NewServers
            [traffic.Req_CreateOrder {| orderpb.Details := scenario.details |};
             traffic.Req_ProcessPayment 9 examples.processPaymentReq;
             traffic.Req_ProcessPayment 0 examples.processPaymentReq;
             traffic.Req_ArrangeShipping 9 examples.arrangeShippingReq]))
      !! "pay-order-u1" = Some p
    /\ paymentpb.Id p = "pay-order-u1"
    /\ "pay-order-u1" = "pay-" +:+ commonpb.Id (paymentpb.OrderId p)
    /\ paymentpb.Status p = paymentpb.PaymentStatus_FAILED.
Proof.
  destruct (reachable_stores_are_well_keyed
              [traffic.Req_CreateOrder {| orderpb.Details := scenario.details |};
               traffic.Req_ProcessPayment 9 examples.processPaymentReq;
               traffic.Req_ProcessPayment 0 examples.processPaymentReq;
               traffic.Req_ArrangeShipping 9 examples.arrangeShippingReq])
    as ((_ & HP & _) & Hone & _).
  match goal with
  | |- exists p, ?m !! ?k = Some p /\ _ =>
      destruct (m !! k) as [p|] eqn:Hp; [|vm_compute in Hp; discriminate]
  end.
  exists p. split; [reflexivity|].
  destruct (HP _ _ Hp) as [H1 H2].
  pose proof (Hone _ _ _ _ Hp Hp eq_refl) as _.
  split; [exact H1|]. split; [exact H2|].
  vm_compute in Hp. injection Hp as <-. reflexivity.
Defined.

(** ** Forward, then compensate *)

(** X5.  The identifier a forward operation answers with is always accepted
    by the matching compensation, called next with the same order id: it
    never fails with NotFound or InvalidArgument.  After [CreateOrder],
    [CancelOrder] answers Order cancelled successfully and the order is
    CANCELLED.  After [ProcessPayment], [RefundPayment] answers Payment
    refunded successfully and the payment is REFUNDED when the payment had
    succeeded; it answers that no refund is needed and the payment stays
    FAILED when it had been declined.  After an [ArrangeShipping] that
    returned a response, [CancelShipping] answers Shipping cancelled
    successfully and the shipment is CANCELLED. *)
Theorem forward_then_compensate_succeeds :
  (forall (s s1 : order.Server) (req : orderpb.CreateOrderRequest)
          (resp : orderpb.CreateOrderResponse),
      order.CreateOrder s req = (inl resp, s1) ->
      exists s2,
        order.CancelOrder s1
          {| orderpb.CancelOrderRequest_OrderId :=
               orderpb.CreateOrderResponse_OrderId resp |}
        = (inl {| commonpb.Success := true;
                  commonpb.Message := "Order cancelled successfully" |}, s2)
        /\ orderpb.Status <$>
             order.orders s2
               !! commonpb.Id (orderpb.CreateOrderResponse_OrderId resp)
           = Some orderpb.OrderStatus_CANCELLED)
  /\ (forall (roll : Z) (s s1 : payment.Server)
             (req : paymentpb.ProcessPaymentRequest)
             (resp : paymentpb.ProcessPaymentResponse),
        payment.ProcessPayment roll s req = (inl resp, s1) ->
        exists s2,
          payment.RefundPayment s1
            {| paymentpb.RefundPaymentRequest_OrderId :=
                 paymentpb.ProcessPaymentRequest_OrderId req;
               paymentpb.RefundPaymentRequest_PaymentId :=
                 paymentpb.ProcessPaymentResponse_PaymentId resp |}
          = (inl {| commonpb.Success := true;
                    commonpb.Message :=
                      if decide (paymentpb.ProcessPaymentResponse_Status resp
                                 = paymentpb.PaymentStatus_SUCCESS)
                      then "Payment refunded successfully"
                      else "Payment originally failed, no refund needed" |},
             s2)
          /\ paymentpb.Status <$>
               payment.payments s2
                 !! paymentpb.ProcessPaymentResponse_PaymentId resp
             = Some (if decide (paymentpb.ProcessPaymentResponse_Status resp
                                = paymentpb.PaymentStatus_SUCCESS)
                     then paymentpb.PaymentStatus_REFUNDED
                     else paymentpb.PaymentStatus_FAILED))
  /\ (forall (roll : Z) (s s1 : shipping.Server)
             (req : shippingpb.ArrangeShippingRequest)
             (resp : shippingpb.ArrangeShippingResponse),
        shipping.ArrangeShipping roll s req = (inl resp, s1) ->
        exists s2,
          shipping.CancelShipping s1
            {| shippingpb.CancelShippingRequest_OrderId :=
                 shippingpb.ArrangeShippingRequest_OrderId req;
               shippingpb.CancelShippingRequest_ShipmentId :=
                 shippingpb.ArrangeShippingResponse_ShipmentId resp |}
          = (inl {| commonpb.Success := true;
                    commonpb.Message := "Shipping cancelled successfully" |},
             s2)
          /\ shippingpb.Status <$>
               shipping.shipments s2
                 !! shippingpb.ArrangeShippingResponse_ShipmentId resp
             = Some shippingpb.ShippingStatus_CANCELLED).
Proof.
  split; [|split].
  - intros s s1 req resp H. unfold order.CreateOrder in H.
    injection H as <- <-. unfold order.CancelOrder; simpl.
    rewrite lookup_insert_eq; simpl.
    eexists. split; [reflexivity|]. simpl.
    rewrite lookup_insert_eq. reflexivity.
  - intros roll s s1 req resp H. unfold payment.ProcessPayment in H.
    injection H as <- <-. unfold payment.RefundPayment; simpl.
    rewrite lookup_insert_eq; simpl.
    rewrite decide_False by (intros Hc; apply Hc; reflexivity).
    destruct (2 <? roll)%Z; simpl;
      (eexists; split; [reflexivity|]; simpl;
       rewrite ?lookup_insert_eq; reflexivity).
  - intros roll s s1 req resp H. unfold shipping.ArrangeShipping in H.
    destruct (negb (1 <? roll)%Z); [discriminate|].
    injection H as <- <-. unfold shipping.CancelShipping; simpl.
    rewrite lookup_insert_eq; simpl.
    rewrite decide_False by (intros Hc; apply Hc; reflexivity).
    eexists. split; [reflexivity|]. simpl.
    rewrite lookup_insert_eq. reflexivity.
Qed.

(** X5 at work, on the servers left by a cancelled saga: the order is
    created again and cancelled, a payment is taken and refunded, a shipment
    is arranged and cancelled. *)
Lemma forward_then_compensate_succeeds_witness :
  (exists s2,
      order.CancelOrder
        (snd (order.CreateOrder (system.orderSrv examples.after_carrier_down)
                {| orderpb.Details := scenario.details |}))
        scenario.cancelOrderReq
      = (inl {| commonpb.Success := true;
                commonpb.Message := "Order cancelled successfully" |}, s2)
      /\ orderpb.Status <$> order.orders s2 !! "order-u1"
         = Some orderpb.OrderStatus_CANCELLED)
  /\ (exists s2,
         payment.RefundPayment
           (snd (payment.ProcessPayment 9
                   (system.paymentSrv examples.after_carrier_down)
                   examples.processPaymentReq))
           scenario.refundReq
         = (inl {| commonpb.Success := true;
                   commonpb.Message := "Payment refunded successfully" |}, s2)
         /\ paymentpb.Status <$> payment.payments s2 !! "pay-order-u1"
            = Some paymentpb.PaymentStatus_REFUNDED)
  /\ (exists s2,
         shipping.CancelShipping
           (snd (shipping.ArrangeShipping 9
                   (system.shippingSrv examples.after_carrier_down)
                   examples.arrangeShippingReq))
           scenario.cancelShippingReq
         = (inl {| commonpb.Success := true;
                   commonpb.Message := "Shipping cancelled successfully" |},
            s2)
         /\ shippingpb.Status <$> shipping.shipments s2 !! "ship-order-u1"
            = Some shippingpb.ShippingStatus_CANCELLED).
Proof.
  destruct forward_then_compensate_succeeds as (HO & HP & HS).
  split; [|split].
  - exact (HO (system.orderSrv examples.after_carrier_down) _
              {| orderpb.Details := scenario.details |} _ eq_refl).
  - exact (HP 9 (system.paymentSrv examples.after_carrier_down) _
              examples.processPaymentReq _ eq_refl).
  - exact (HS 9 (system.shippingSrv examples.after_carrier_down) _
              examples.arrangeShippingReq _ eq_refl).
Defined.

(** ** The generated tables of [PaymentStatus] *)

(** X6.  The two generated tables are inverse to each other: a number has a
    name in [PaymentStatus_name] exactly when that name has that number in
    [PaymentStatus_value]; and each of the four constants has a name, which
    the value table sends back to the number of the constant. *)
Theorem PaymentStatus_tables_are_inverse :
  (forall (n : Z) (name : string),
      paymentpb_tables.PaymentStatus_name !! n = Some name
      <-> paymentpb_tables.PaymentStatus_value !! name = Some n)
  /\ (forall x : paymentpb.PaymentStatus,
         exists name,
           paymentpb_tables.PaymentStatus_name !! paymentpb_tables.Number x
           = Some name
           /\ paymentpb_tables.PaymentStatus_value !! name
              = Some (paymentpb_tables.Number x)).
Proof.
  split.
  - intros n name.
    unfold paymentpb_tables.PaymentStatus_name,
      paymentpb_tables.PaymentStatus_value.
    rewrite !lookup_insert_Some, !lookup_empty.
    split; intros H;
      repeat match goal with
             | H : _ \/ _ |- _ => destruct H
             | H : _ /\ _ |- _ => destruct H
             end;
      subst; try discriminate;
      first [ left; split; reflexivity
            | right; split; [discriminate|]; left; split; reflexivity
            | right; split; [discriminate|]; right; split; [discriminate|];
              left; split; reflexivity
            | right; split; [discriminate|]; right; split; [discriminate|];
              right; split; [discriminate|]; left; split; reflexivity ].
  - intros x. destruct x; eexists; split; reflexivity.
Qed.

(** ** [calculateTotal] and prices that are not numbers *)

Section Totals.

Lemma Float32_add_nan_r (x : Float32.float32) : Float32.add x S754_nan = S754_nan.
Proof. destruct x; reflexivity. Qed.

Lemma Float32_mul_nan_l (y : Float32.float32) : Float32.mul S754_nan y = S754_nan.
Proof. destruct y; reflexivity. Qed.

(** Once the running total is not a number it stays so. *)
Lemma total_stays_nan (items : list commonpb.Item) :
  fold_left
    (fun total item =>
       Float32.add total
         (Float32.mul (commonpb.Price item)
                      (Float32.of_int32 (commonpb.Quantity item))))
    items S754_nan = S754_nan.
Proof. induction items as [|it items IH]; simpl; [reflexivity|exact IH]. Qed.

Lemma calculateTotal_nan (items : list commonpb.Item) (it : commonpb.Item) :
  In it items -> commonpb.Price it = S754_nan ->
  order.calculateTotal items = S754_nan.
Proof.
  unfold order.calculateTotal. generalize Float32.zero.
  induction items as [|it0 items IH]; intros acc Hin Hnan; [destruct Hin|].
  simpl. destruct Hin as [->|Hin].
  - rewrite Hnan, Float32_mul_nan_l, Float32_add_nan_r. apply total_stays_nan.
  - apply IH; assumption.
Qed.

End Totals.

(** X7.  [CreateOrder] does not validate prices: when the price of any item
    of the request is not a number, whatever the other items, the call still
    succeeds with status PENDING and the record it stores has a total that
    is not a number. *)
Theorem CreateOrder_stores_nan_total :
  forall (s : order.Server) (req : orderpb.CreateOrderRequest)
         (it : commonpb.Item),
    In it (commonpb.Items (orderpb.Details req)) ->
    commonpb.Price it = S754_nan ->
    exists resp s' o,
      order.CreateOrder s req = (inl resp, s')
      /\ orderpb.CreateOrderResponse_Status resp = orderpb.OrderStatus_PENDING
      /\ order.orders s'
           !! commonpb.Id (orderpb.CreateOrderResponse_OrderId resp) = Some o
      /\ orderpb.TotalAmount o = S754_nan.
Proof.
  intros s req it Hin Hnan. unfold order.CreateOrder.
  eexists _, _, _. split; [reflexivity|]. simpl.
  split; [reflexivity|]. split; [apply lookup_insert_eq|]. simpl.
  exact (calculateTotal_nan _ _ Hin Hnan).
Qed.

(** X7 at work: the order of the scenario with one more item, whose price
    is not a number. *)
Lemma CreateOrder_stores_nan_total_witness :
  exists resp s' o,
    order.CreateOrder order.NewServer
      {| orderpb.Details :=
           {| commonpb.UserId := "u1";
              commonpb.Items :=
                commonpb.Items scenario.details ++ [examples.nan_item] |} |}
    = (inl resp, s')
    /\ orderpb.CreateOrderResponse_Status resp = orderpb.OrderStatus_PENDING
    /\ order.orders s'
         !! commonpb.Id (orderpb.CreateOrderResponse_OrderId resp) = Some o
    /\ orderpb.TotalAmount o = S754_nan.
Proof.
  apply (CreateOrder_stores_nan_total order.NewServer _ examples.nan_item).
  - simpl. right. left. reflexivity.
  - reflexivity.
Defined.

(** ** Every run of the saga, against any clients *)

Section SagaShape.
Import orchestrator.
Context {W : Type}.
Variable clients : grpc_clients.ServiceClients W.

Lemma calls_app (t1 t2 : list Event) : calls (t1 ++ t2) = calls t1 ++ calls t2.
Proof. unfold calls. apply omap_app. Qed.

Lemma attempts_app (t1 t2 : list Event) :
  attempts (t1 ++ t2) = attempts t1 ++ attempts t2.
Proof. unfold attempts. apply omap_app. Qed.

(** A compensation either skips, or issues its one call with the fresh
    context. *)
Lemma compensateCreateOrder_shape (o : option commonpb.OrderID) (w : W) :
  exists t w',
    compensateCreateOrder clients o w = (tt, t, w')
    /\ ((calls t = [] /\ attempts t = [Skipped CancelOrder])
        \/ (exists req, calls t = [Call_CancelOrder fresh_ctx req]
                        /\ attempts t = [Called CancelOrder])).
Proof.
  destruct o as [orderID|];
    [|eexists _, _; split; [reflexivity|left; split; reflexivity]].
  destruct (decide (commonpb.Id orderID = "")) as [He|Hne].
  - rewrite (compensateCreateOrder_empty clients _ _ He).
    eexists _, _; split; [reflexivity|left; split; reflexivity].
  - destruct (grpc_clients.CancelOrder (grpc_clients.Order clients) fresh_ctx
                {| orderpb.CancelOrderRequest_OrderId := orderID |} w)
      as [r w1] eqn:Hc.
    rewrite (compensateCreateOrder_calls clients _ _ _ _ Hne Hc).
    eexists _, _; split; [reflexivity|]. right. eexists.
    destruct r; split; reflexivity.
Qed.

Lemma compensateProcessPayment_shape (orderID : commonpb.OrderID)
    (paymentID : string) (w : W) :
  exists t w',
    compensateProcessPayment clients orderID paymentID w = (tt, t, w')
    /\ ((calls t = [] /\ attempts t = [Skipped RefundPayment])
        \/ (exists req, calls t = [Call_RefundPayment fresh_ctx req]
                        /\ attempts t = [Called RefundPayment])).
Proof.
  destruct (decide (paymentID = "")) as [->|Hne].
  - eexists _, _; split; [reflexivity|left; split; reflexivity].
  - destruct (grpc_clients.RefundPayment (grpc_clients.Payment clients)
                fresh_ctx
                {| paymentpb.RefundPaymentRequest_OrderId := orderID;
                   paymentpb.RefundPaymentRequest_PaymentId := paymentID |} w)
      as [r w1] eqn:Hc.
    rewrite (compensateProcessPayment_calls clients _ _ _ _ _ Hne Hc).
    eexists _, _; split; [reflexivity|]. right. eexists.
    destruct r; split; reflexivity.
Qed.

(** The four ways a run can go, with the remote calls and the compensation
    attempts of each. *)
Lemma saga_shape ctx details paymentInfo shippingAddr (w : W) :
  exists r t w',
    ExecuteCreateOrderSaga clients ctx details paymentInfo shippingAddr w
    = (r, t, w')
    /\ ((r = Some "failed to create order"
         /\ calls t = [Call_CreateOrder ctx {| orderpb.Details := details |}]
         /\ attempts t = [Skipped CancelOrder])
        \/ (r = Some "failed to process payment"
            /\ exists req2 cs1 a1,
                calls t = [Call_CreateOrder ctx {| orderpb.Details := details |};
                           Call_ProcessPayment ctx req2] ++ cs1
                /\ attempts t = [Skipped RefundPayment; a1]
                /\ ((cs1 = [] /\ a1 = Skipped CancelOrder)
                    \/ (exists req, cs1 = [Call_CancelOrder fresh_ctx req]
                                    /\ a1 = Called CancelOrder)))
        \/ (r = Some "failed to arrange shipping"
            /\ exists req2 req3 cs2 a2 cs1 a1,
                calls t = [Call_CreateOrder ctx {| orderpb.Details := details |};
                           Call_ProcessPayment ctx req2;
                           Call_ArrangeShipping ctx req3] ++ cs2 ++ cs1
                /\ attempts t = [Skipped CancelShipping; a2; a1]
                /\ ((cs2 = [] /\ a2 = Skipped RefundPayment)
                    \/ (exists req, cs2 = [Call_RefundPayment fresh_ctx req]
                                    /\ a2 = Called RefundPayment))
                /\ ((cs1 = [] /\ a1 = Skipped CancelOrder)
                    \/ (exists req, cs1 = [Call_CancelOrder fresh_ctx req]
                                    /\ a1 = Called CancelOrder)))
        \/ (r = None
            /\ attempts t = []
            /\ exists req2 req3 req4,
                calls t = [Call_CreateOrder ctx {| orderpb.Details := details |};
                           Call_ProcessPayment ctx req2;
                           Call_ArrangeShipping ctx req3;
                           Call_CompleteOrder fresh_ctx req4])).
Proof.
  destruct (grpc_clients.CreateOrder (grpc_clients.Order clients) ctx
              {| orderpb.Details := details |} w) as [[resp1|err1] w1] eqn:H1.
  2:{ rewrite (saga_create_failed clients _ _ _ _ _ _ _ H1).
      eexists _, _, _. split; [reflexivity|]. left. repeat split. }
  destruct (grpc_clients.ProcessPayment (grpc_clients.Payment clients) ctx
              {| paymentpb.ProcessPaymentRequest_OrderId :=
                   orderpb.CreateOrderResponse_OrderId resp1;
                 paymentpb.PaymentInfo := paymentInfo |} w1)
    as [r2 w2] eqn:H2.
  destruct (paymentFailed r2) eqn:Hf.
  - destruct (compensateCreateOrder_shape
                (Some (orderpb.CreateOrderResponse_OrderId resp1)) w2)
      as (t1 & w3 & Hc1 & Hs1).
    rewrite (saga_payment_failed clients _ _ _ _ _ _ _ _ _ _ _ H1 H2 Hf Hc1).
    eexists _, _, _. split; [reflexivity|]. right; left.
    split; [reflexivity|]. rewrite calls_app, attempts_app.
    destruct Hs1 as [[Hc Ha]|(req & Hc & Ha)]; rewrite Hc, Ha;
      eexists _, _, _; (split; [reflexivity|]); (split; [reflexivity|]);
      [left; split; reflexivity | right; eexists; split; reflexivity].
  - destruct r2 as [resp2|err2]; [|discriminate].
    destruct (grpc_clients.ArrangeShipping (grpc_clients.Shipping clients) ctx
                {| shippingpb.ArrangeShippingRequest_OrderId :=
                     orderpb.CreateOrderResponse_OrderId resp1;
                   shippingpb.ArrangeShippingRequest_Address := shippingAddr |}
                w2) as [[resp3|err3] w3] eqn:H3.
    + destruct (grpc_clients.CompleteOrder (grpc_clients.Order clients)
                  fresh_ctx
                  {| orderpb.CompleteOrderRequest_OrderId :=
                       orderpb.CreateOrderResponse_OrderId resp1 |} w3)
        as [r4 w4] eqn:H4.
      rewrite (saga_succeeded clients _ _ _ _ _ _ _ _ _ _ _ _ _
                 H1 H2 Hf H3 H4).
      eexists _, _, _. split; [reflexivity|]. right; right; right.
      split; [reflexivity|]. split; [destruct r4; reflexivity|].
      eexists _, _, _. destruct r4; reflexivity.
    + destruct (compensateProcessPayment_shape
                  (orderpb.CreateOrderResponse_OrderId resp1)
                  (paymentpb.ProcessPaymentResponse_PaymentId resp2) w3)
        as (t2 & w4 & Hc2 & Hs2).
      destruct (compensateCreateOrder_shape
                  (Some (orderpb.CreateOrderResponse_OrderId resp1)) w4)
        as (t1 & w5 & Hc1 & Hs1).
      rewrite (saga_shipping_failed clients _ _ _ _ _ _ _ _ _ _ _ _ _ _ _
                 H1 H2 Hf H3 Hc2 Hc1).
      eexists _, _, _. split; [reflexivity|]. right; right; left.
      split; [reflexivity|].
      rewrite !calls_app, !attempts_app.
      destruct Hs2 as [[Hc2' Ha2]|(rq2 & Hc2' & Ha2)];
        destruct Hs1 as [[Hc1' Ha1]|(rq1 & Hc1' & Ha1)];
        rewrite Hc2', Ha2, Hc1', Ha1;
        eexists _, _, _, _, _, _;
        (split; [reflexivity|]); (split; [reflexivity|]);
        (split; [first [left; split; reflexivity
                       | right; eexists; split; reflexivity]
                | first [left; split; reflexivity
                        | right; eexists; split; reflexivity]]).
Qed.

End SagaShape.

(** X8.  Against any clients and in any world, a run of the saga never
    issues a [CancelShipping] call: the shipping compensation is only ever
    entered with the empty [state.ShipmentID], since that field is assigned
    after the last step that can fail.  A run issues at least one and at
    most five remote calls. *)
Theorem saga_never_calls_CancelShipping :
  forall (W : Type) (clients : grpc_clients.ServiceClients W)
         (ctx : context.Context) (details : commonpb.OrderDetails)
         (paymentInfo : commonpb.PaymentInfo)
         (shippingAddr : commonpb.ShippingAddress) (w : W),
    let t := snd (fst (orchestrator.ExecuteCreateOrderSaga clients ctx details
                         paymentInfo shippingAddr w)) in
    Forall (fun c => observe.is_CancelShipping c = false)
           (orchestrator.calls t)
    /\ Forall (fun a => a <> orchestrator.Called orchestrator.CancelShipping)
              (orchestrator.attempts t)
    /\ (1 <= length (orchestrator.calls t) <= 5)%nat.
Proof.
  intros W clients ctx details paymentInfo shippingAddr w t.
  destruct (saga_shape clients ctx details paymentInfo shippingAddr w)
    as (r & t0 & w' & Hrun & Hshape).
  subst t. rewrite Hrun. simpl.
  destruct Hshape
    as [(_ & Hc & Ha)
       |[(_ & req2 & cs1 & a1 & Hc & Ha & H1)
        |[(_ & req2 & req3 & cs2 & a2 & cs1 & a1 & Hc & Ha & H2 & H1)
         |(_ & Ha & req2 & req3 & req4 & Hc)]]];
    rewrite Hc, Ha.
  - repeat split; repeat constructor; discriminate.
  - destruct H1 as [[-> ->]|(req & -> & ->)]; simpl;
      repeat split; repeat constructor; discriminate.
  - destruct H2 as [[-> ->]|(rq2 & -> & ->)];
      destruct H1 as [[-> ->]|(rq1 & -> & ->)]; simpl;
      repeat split; repeat constructor; discriminate.
  - repeat split; repeat constructor.
Qed.

(** X9.  Against any clients and in any world, every forward call of a run
    ([CreateOrder], [ProcessPayment], [ArrangeShipping]) carries the context
    the saga was given, and every other call (the compensations and
    [CompleteOrder]) carries a context derived from the background context
    with a timeout of five seconds, never the saga's own. *)
Theorem saga_calls_carry_the_right_context :
  forall (W : Type) (clients : grpc_clients.ServiceClients W)
         (ctx : context.Context) (details : commonpb.OrderDetails)
         (paymentInfo : commonpb.PaymentInfo)
         (shippingAddr : commonpb.ShippingAddress) (w : W),
    Forall (fun c =>
              observe.ctx_of c
              = if observe.is_forward c then ctx
                else context.WithTimeout context.Background 5)
           (orchestrator.calls
              (snd (fst (orchestrator.ExecuteCreateOrderSaga clients ctx
                           details paymentInfo shippingAddr w)))).
Proof.
  intros W clients ctx details paymentInfo shippingAddr w.
  destruct (saga_shape clients ctx details paymentInfo shippingAddr w)
    as (r & t0 & w' & Hrun & Hshape).
  rewrite Hrun. simpl.
  destruct Hshape
    as [(_ & Hc & Ha)
       |[(_ & req2 & cs1 & a1 & Hc & Ha & H1)
        |[(_ & req2 & req3 & cs2 & a2 & cs1 & a1 & Hc & Ha & H2 & H1)
         |(_ & Ha & req2 & req3 & req4 & Hc)]]];
    rewrite Hc.
  - repeat constructor.
  - destruct H1 as [[-> _]|(req & -> & _)]; simpl; repeat constructor.
  - destruct H2 as [[-> _]|(rq2 & -> & _)];
      destruct H1 as [[-> _]|(rq1 & -> & _)]; simpl; repeat constructor.
  - repeat constructor.
Qed.

(** X10.  Against any clients and in any world, the result of a run and its
    trace agree.  The saga returns [nil] exactly on the runs that attempt no
    compensation and end with the [CompleteOrder] call; otherwise it returns
    one of three errors, and the error names the failed step: after one
    compensation attempt failed to create order, after two failed to process
    payment, after three failed to arrange shipping, and [CompleteOrder] is
    not called.  The first call is always [CreateOrder] with the details
    given. *)
Theorem saga_result_matches_trace :
  forall (W : Type) (clients : grpc_clients.ServiceClients W)
         (ctx : context.Context) (details : commonpb.OrderDetails)
         (paymentInfo : commonpb.PaymentInfo)
         (shippingAddr : commonpb.ShippingAddress) (w : W),
    let r := fst (fst (orchestrator.ExecuteCreateOrderSaga clients ctx details
                         paymentInfo shippingAddr w)) in
    let t := snd (fst (orchestrator.ExecuteCreateOrderSaga clients ctx details
                         paymentInfo shippingAddr w)) in
    head (orchestrator.calls t)
    = Some (orchestrator.Call_CreateOrder ctx {| orderpb.Details := details |})
    /\ match r with
       | None =>
           orchestrator.attempts t = []
           /\ Exists (fun c => observe.is_CompleteOrder c = true)
                     (orchestrator.calls t)
       | Some msg =>
           Forall (fun c => observe.is_CompleteOrder c = false)
                  (orchestrator.calls t)
           /\ ((msg = "failed to create order"
                /\ length (orchestrator.attempts t) = 1%nat)
               \/ (msg = "failed to process payment"
                   /\ length (orchestrator.attempts t) = 2%nat)
               \/ (msg = "failed to arrange shipping"
                   /\ length (orchestrator.attempts t) = 3%nat))
       end.
Proof.
  intros W clients ctx details paymentInfo shippingAddr w r t.
  destruct (saga_shape clients ctx details paymentInfo shippingAddr w)
    as (r0 & t0 & w' & Hrun & Hshape).
  subst r t. rewrite Hrun. simpl.
  destruct Hshape
    as [(-> & Hc & Ha)
       |[(-> & req2 & cs1 & a1 & Hc & Ha & H1)
        |[(-> & req2 & req3 & cs2 & a2 & cs1 & a1 & Hc & Ha & H2 & H1)
         |(-> & Ha & req2 & req3 & req4 & Hc)]]];
    rewrite Hc, Ha.
  - split; [reflexivity|]. split; [repeat constructor|].
    left. split; reflexivity.
  - split; [reflexivity|]. split.
    + destruct H1 as [[-> _]|(req & -> & _)]; simpl; repeat constructor.
    + right; left. split; reflexivity.
  - split; [reflexivity|]. split.
    + destruct H2 as [[-> _]|(rq2 & -> & _)];
        destruct H1 as [[-> _]|(rq1 & -> & _)]; simpl; repeat constructor.
    + right; right. split; reflexivity.
  - split; [reflexivity|]. split; [reflexivity|].
    do 3 apply Exists_cons_tl. apply Exists_cons_hd. reflexivity.
Qed.

(** ** The deployed system, call by call *)

Section Wire.
Import system.

Implicit Types (w : World).

(** What a call leaves alone, whatever its fate. *)
Lemma remote_on_order_frame {A}
    (h : order.Server -> grpc.result A * order.Server) w r w' :
  remote (on_order h) w = (r, w') ->
  paymentSrv (servers w') = paymentSrv (servers w)
  /\ shippingSrv (servers w') = shippingSrv (servers w)
  /\ net w' = net w /\ sent w' = S (sent w)
  /\ dice w' = dice w /\ drawn w' = drawn w.
Proof.
  intros H.
  destruct (remote_cases _ _ _ _ H)
    as [[_ Hh]|[(err & _ & _ & ->)|(err & r0 & _ & _ & Hh)]];
    try (unfold on_order in Hh;
         destruct (h (orderSrv (servers (next_call w)))) as [r1 s1];
         injection Hh as _ <-);
    repeat split.
Qed.

Lemma remote_on_payment_frame {A}
    (h : payment.Server -> grpc.result A * payment.Server) w r w' :
  remote (on_payment h) w = (r, w') ->
  orderSrv (servers w') = orderSrv (servers w)
  /\ shippingSrv (servers w') = shippingSrv (servers w)
  /\ net w' = net w /\ sent w' = S (sent w)
  /\ dice w' = dice w /\ drawn w' = drawn w.
Proof.
  intros H.
  destruct (remote_cases _ _ _ _ H)
    as [[_ Hh]|[(err & _ & _ & ->)|(err & r0 & _ & _ & Hh)]];
    try (unfold on_payment in Hh;
         destruct (h (paymentSrv (servers (next_call w)))) as [r1 s1];
         injection Hh as _ <-);
    repeat split.
Qed.

(** What a call does when its request is not lost: the handler runs on the
    store of its server; when the call is delivered the stub returns what
    the handler returned. *)
Lemma remote_on_order_ran {A}
    (h : order.Server -> grpc.result A * order.Server) w r w' :
  remote (on_order h) w = (r, w') ->
  (forall err, net w (sent w) <> RequestLost err) ->
  orderSrv (servers w') = snd (h (orderSrv (servers w)))
  /\ (net w (sent w) = Delivered -> r = fst (h (orderSrv (servers w)))).
Proof.
  intros H Hnet.
  destruct (remote_cases _ _ _ _ H)
    as [[Hd Hh]|[(err & Hl & _ & _)|(err & r0 & Hl & _ & Hh)]];
    [| destruct (Hnet _ Hl) |];
    unfold on_order in Hh; simpl in Hh;
    destruct (h (orderSrv (servers w))) as [r1 s1];
    injection Hh as <- <-; simpl; split; try reflexivity.
  rewrite Hl. discriminate.
Qed.

Lemma remote_on_payment_ran {A}
    (h : payment.Server -> grpc.result A * payment.Server) w r w' :
  remote (on_payment h) w = (r, w') ->
  (forall err, net w (sent w) <> RequestLost err) ->
  paymentSrv (servers w') = snd (h (paymentSrv (servers w)))
  /\ (net w (sent w) = Delivered -> r = fst (h (paymentSrv (servers w)))).
Proof.
  intros H Hnet.
  destruct (remote_cases _ _ _ _ H)
    as [[Hd Hh]|[(err & Hl & _ & _)|(err & r0 & Hl & _ & Hh)]];
    [| destruct (Hnet _ Hl) |];
    unfold on_payment in Hh; simpl in Hh;
    destruct (h (paymentSrv (servers w))) as [r1 s1];
    injection Hh as <- <-; simpl; split; try reflexivity.
  rewrite Hl. discriminate.
Qed.

(** The two stubs whose handlers draw. *)
Lemma ProcessPayment_stub_ran ctx req w r w' :
  grpc_clients.ProcessPayment (grpc_clients.Payment clients) ctx req w
  = (r, w') ->
  (forall err, net w (sent w) <> RequestLost err) ->
  paymentSrv (servers w')
  = snd (payment.ProcessPayment (Z.modulo (dice w (drawn w)) 10)
           (paymentSrv (servers w)) req)
  /\ drawn w' = S (drawn w) /\ dice w' = dice w
  /\ (net w (sent w) = Delivered ->
      r = fst (payment.ProcessPayment (Z.modulo (dice w (drawn w)) 10)
                 (paymentSrv (servers w)) req)).
Proof.
  intros H Hnet. simpl in H.
  destruct (remote_cases _ _ _ _ H)
    as [[Hd Hh]|[(err & Hl & _ & _)|(err & r0 & Hl & _ & Hh)]];
    [| destruct (Hnet _ Hl) |];
    unfold on_payment in Hh; simpl in Hh;
    injection Hh as <- <-; simpl; repeat split.
  rewrite Hl. discriminate.
Qed.

Lemma ArrangeShipping_stub_ran ctx req w r w' :
  grpc_clients.ArrangeShipping (grpc_clients.Shipping clients) ctx req w
  = (r, w') ->
  (forall err, net w (sent w) <> RequestLost err) ->
  shippingSrv (servers w')
  = snd (shipping.ArrangeShipping (Z.modulo (dice w (drawn w)) 10)
           (shippingSrv (servers w)) req)
  /\ orderSrv (servers w') = orderSrv (servers w)
  /\ paymentSrv (servers w') = paymentSrv (servers w)
  /\ net w' = net w /\ sent w' = S (sent w)
  /\ (net w (sent w) = Delivered ->
      r = fst (shipping.ArrangeShipping (Z.modulo (dice w (drawn w)) 10)
                 (shippingSrv (servers w)) req))
  /\ (forall err, net w (sent w) = ReplyLost err -> r = inr err).
Proof.
  intros H Hnet. simpl in H.
  destruct (remote_cases _ _ _ _ H)
    as [[Hd Hh]|[(err & Hl & _ & _)|(err & r0 & Hl & -> & Hh)]];
    [| destruct (Hnet _ Hl) |];
    unfold on_shipping in Hh; simpl in Hh;
    destruct (shipping.ArrangeShipping (dice w (drawn w) `mod` 10)
                (shippingSrv (servers w)) req) as [r1 s1];
    injection Hh as <- <-; simpl; repeat split;
    try (rewrite Hd; discriminate); try (rewrite Hl; discriminate).
  intros err0 He. rewrite Hl in He. injection He as <-. reflexivity.
Qed.

(** Delivered calls return responses. *)
Lemma CreateOrder_stub_delivered ctx req w :
  net w (sent w) = Delivered ->
  exists w1,
    grpc_clients.CreateOrder (grpc_clients.Order clients) ctx req w
    = (inl {| orderpb.CreateOrderResponse_OrderId :=
                {| commonpb.Id :=
                     "order-" +:+ commonpb.UserId (orderpb.Details req) |};
              orderpb.CreateOrderResponse_Status :=
                orderpb.OrderStatus_PENDING |}, w1).
Proof.
  intros Hd. simpl. unfold remote. rewrite Hd. unfold on_order. simpl.
  eexists. reflexivity.
Qed.

End Wire.

Section EndToEnd.
Import system.

Implicit Types (w : World).

(** The first two steps when both calls are delivered and the payment goes
    through. *)
Lemma order_created_and_paid ctx details paymentInfo w :
  net w (sent w) = Delivered ->
  net w (S (sent w)) = Delivered ->
  2 < Z.modulo (dice w (drawn w)) 10 ->
  let oid := "order-" +:+ commonpb.UserId details in
  exists resp1 w1 resp2 w2,
    grpc_clients.CreateOrder (grpc_clients.Order clients) ctx
      {| orderpb.Details := details |} w = (inl resp1, w1)
    /\ grpc_clients.ProcessPayment (grpc_clients.Payment clients) ctx
         {| paymentpb.ProcessPaymentRequest_OrderId :=
              orderpb.CreateOrderResponse_OrderId resp1;
            paymentpb.PaymentInfo := paymentInfo |} w1 = (inl resp2, w2)
    /\ orderpb.CreateOrderResponse_OrderId resp1 = {| commonpb.Id := oid |}
    /\ paymentpb.ProcessPaymentResponse_PaymentId resp2 = "pay-" +:+ oid
    /\ orchestrator.paymentFailed (inl resp2) = false
    /\ order_status (servers w2) oid = Some orderpb.OrderStatus_PENDING
    /\ payment.payments (paymentSrv (servers w2)) !! ("pay-" +:+ oid)
       = Some {| paymentpb.Id := "pay-" +:+ oid;
                 paymentpb.OrderId := {| commonpb.Id := oid |};
                 paymentpb.Amount := commonpb.Amount paymentInfo;
                 paymentpb.Status := paymentpb.PaymentStatus_SUCCESS;
                 paymentpb.TransactionId := "" |}
    /\ shippingSrv (servers w2) = shippingSrv (servers w)
    /\ net w2 = net w /\ sent w2 = S (S (sent w))
    /\ dice w2 = dice w /\ drawn w2 = S (drawn w).
Proof.
  intros Hn0 Hn1 Hroll oid.
  apply Z.ltb_lt in Hroll.
  destruct (CreateOrder_stub_delivered ctx {| orderpb.Details := details |}
              w Hn0) as [w1 H1].
  destruct (CreateOrder_stub_ok _ _ _ _ _ H1)
    as (_ & Hpend & Hpay1 & Hship1 & Hnet1 & Hsent1).
  destruct (remote_on_order_frame _ _ _ _ H1)
    as (_ & _ & _ & _ & Hdice1 & Hdrawn1).
  destruct (grpc_clients.ProcessPayment (grpc_clients.Payment clients) ctx
              {| paymentpb.ProcessPaymentRequest_OrderId :=
                   {| commonpb.Id := oid |};
                 paymentpb.PaymentInfo := paymentInfo |} w1)
    as [r2 w2] eqn:H2.
  assert (Hd1 : net w1 (sent w1) = Delivered)
    by (rewrite Hnet1, Hsent1; exact Hn1).
  destruct (ProcessPayment_stub_ran _ _ _ _ _ H2)
    as (Hpay2 & Hdrawn2 & Hdice2 & Hr2);
    [intros err; rewrite Hd1; discriminate|].
  destruct (ProcessPayment_stub_frame _ _ _ _ _ H2)
    as (Hord2 & Hship2 & Hnet2 & Hsent2).
  specialize (Hr2 Hd1). rewrite ProcessPayment_response in Hr2.
  rewrite Hdice1, Hdrawn1 in Hr2, Hpay2. rewrite Hroll in Hr2.
  subst r2.
  eexists _, w1, _, w2. split; [exact H1|]. split; [exact H2|].
  split; [reflexivity|]. split; [reflexivity|]. split; [reflexivity|].
  split.
  { unfold order_status in *. rewrite Hord2. exact Hpend. }
  split.
  { rewrite Hpay2.
    pose proof (ProcessPayment_stored (dice w (drawn w) `mod` 10)
                  (paymentSrv (servers w1))
                  {| paymentpb.ProcessPaymentRequest_OrderId :=
                       {| commonpb.Id := oid |};
                     paymentpb.PaymentInfo := paymentInfo |}) as Hst.
    rewrite Hroll in Hst. exact Hst. }
  split; [rewrite Hship2; exact Hship1|].
  split; [rewrite Hnet2; exact Hnet1|].
  split; [rewrite Hsent2, Hsent1; reflexivity|].
  split; [rewrite Hdice2; exact Hdice1|].
  rewrite Hdrawn2, Hdrawn1. reflexivity.
Qed.

(** The refund and the cancellation of a paid order, when neither request
    is lost. *)
Lemma refund_then_cancel (orderID : commonpb.OrderID) (paymentID : string)
    (p : paymentpb.Payment) w :
  commonpb.Id orderID <> "" -> paymentID <> "" ->
  payment.payments (paymentSrv (servers w)) !! paymentID = Some p ->
  commonpb.Id (paymentpb.OrderId p) = commonpb.Id orderID ->
  paymentpb.Status p = paymentpb.PaymentStatus_SUCCESS ->
  is_Some (order_status (servers w) (commonpb.Id orderID)) ->
  (forall err, net w (sent w) <> RequestLost err) ->
  (forall err, net w (S (sent w)) <> RequestLost err) ->
  exists t2 w4 t1 w5,
    orchestrator.compensateProcessPayment clients orderID paymentID w
    = (tt, t2, w4)
    /\ orchestrator.compensateCreateOrder clients (Some orderID) w4
       = (tt, t1, w5)
    /\ orchestrator.attempts t2
       = [orchestrator.Called orchestrator.RefundPayment]
    /\ orchestrator.attempts t1
       = [orchestrator.Called orchestrator.CancelOrder]
    /\ payment_status (servers w5) paymentID
       = Some paymentpb.PaymentStatus_REFUNDED
    /\ order_status (servers w5) (commonpb.Id orderID)
       = Some orderpb.OrderStatus_CANCELLED
    /\ shippingSrv (servers w5) = shippingSrv (servers w).
Proof.
  intros Hoid Hpid Hp Hown Hst Hord Hn0 Hn1.
  destruct (grpc_clients.RefundPayment (grpc_clients.Payment clients)
              orchestrator.fresh_ctx
              {| paymentpb.RefundPaymentRequest_OrderId := orderID;
                 paymentpb.RefundPaymentRequest_PaymentId := paymentID |} w)
    as [r5 w4] eqn:H5.
  destruct (grpc_clients.CancelOrder (grpc_clients.Order clients)
              orchestrator.fresh_ctx
              {| orderpb.CancelOrderRequest_OrderId := orderID |} w4)
    as [r6 w5] eqn:H6.
  destruct (remote_on_payment_frame _ _ _ _ H5)
    as (Hord4 & Hship4 & Hnet4 & Hsent4 & _ & _).
  destruct (remote_on_payment_ran _ _ _ _ H5 Hn0) as [Hpay4 _].
  destruct (CancelOrder_stub_effect _ _ _ _ _ H6) as (Hpay5 & Hship5 & Hcancel).
  eexists _, w4, _, w5.
  split; [exact (compensateProcessPayment_calls clients _ _ _ _ _ Hpid H5)|].
  split; [exact (compensateCreateOrder_calls clients _ _ _ _ Hoid H6)|].
  split; [destruct r5; reflexivity|].
  split; [destruct r6; reflexivity|].
  split; [|split].
  - unfold payment_status. rewrite Hpay5, Hpay4.
    rewrite (RefundPayment_owned _
               {| paymentpb.RefundPaymentRequest_OrderId := orderID;
                  paymentpb.RefundPaymentRequest_PaymentId := paymentID |}
               p Hp Hown).
    rewrite decide_False by (rewrite Hst; discriminate).
    rewrite decide_False by (rewrite Hst; discriminate).
    simpl. rewrite lookup_insert_eq. reflexivity.
  - apply Hcancel.
    + rewrite Hnet4, Hsent4. exact Hn1.
    + unfold order_status in *. simpl. rewrite Hord4. exact Hord.
  - rewrite Hship5, Hship4. reflexivity.
Qed.

End EndToEnd.

(** ** The deployed system, end to end *)

(** X11.  In the deployed system, from any state of the three servers: when
    the four calls of the run are delivered, the payment draw exceeds 2 and
    the carrier draw exceeds 1, the saga returns [nil] with no compensation
    attempted, and the records of the order end COMPLETED (order), SUCCESS
    (payment) and SHIPPED (shipment), whatever records were stored under the
    same identifiers before. *)
Theorem saga_succeeds_end_to_end :
  forall (ctx : context.Context) (details : commonpb.OrderDetails)
         (paymentInfo : commonpb.PaymentInfo)
         (shippingAddr : commonpb.ShippingAddress) (w : system.World),
    let oid := "order-" +:+ commonpb.UserId details in
    system.net w (system.sent w) = system.Delivered ->
    system.net w (S (system.sent w)) = system.Delivered ->
    system.net w (S (S (system.sent w))) = system.Delivered ->
    system.net w (S (S (S (system.sent w)))) = system.Delivered ->
    2 < Z.modulo (system.dice w (system.drawn w)) 10 ->
    1 < Z.modulo (system.dice w (S (system.drawn w))) 10 ->
    exists t w',
      system.ExecuteCreateOrderSaga ctx details paymentInfo shippingAddr w
      = (None, t, w')
      /\ orchestrator.attempts t = []
      /\ system.order_status (system.servers w') oid
         = Some orderpb.OrderStatus_COMPLETED
      /\ system.payment_status (system.servers w') ("pay-" +:+ oid)
         = Some paymentpb.PaymentStatus_SUCCESS
      /\ system.shipment_status (system.servers w') ("ship-" +:+ oid)
         = Some shippingpb.ShippingStatus_SHIPPED.
Proof.
  intros ctx details paymentInfo shippingAddr w oid Hn0 Hn1 Hn2 Hn3 Hr1 Hr2.
  destruct (order_created_and_paid ctx details paymentInfo w Hn0 Hn1 Hr1)
    as (resp1 & w1 & resp2 & w2 & H1 & H2 & Hoid & Hpid & Hf & Hpend & Hpay
        & Hship2 & Hnet2 & Hsent2 & Hdice2 & Hdrawn2).
  fold oid in Hoid, Hpid, Hpend, Hpay.
  apply Z.ltb_lt in Hr2.
  destruct (grpc_clients.ArrangeShipping
              (grpc_clients.Shipping system.clients) ctx
              {| shippingpb.ArrangeShippingRequest_OrderId :=
                   orderpb.CreateOrderResponse_OrderId resp1;
                 shippingpb.ArrangeShippingRequest_Address := shippingAddr |}
              w2) as [r3 w3] eqn:H3.
  assert (Hd2 : system.net w2 (system.sent w2) = system.Delivered)
    by (rewrite Hnet2, Hsent2; exact Hn2).
  destruct (ArrangeShipping_stub_ran _ _ _ _ _ H3)
    as (Hship3 & Hord3 & Hpay3 & Hnet3 & Hsent3 & Hr3 & _);
    [intros err; rewrite Hd2; discriminate|].
  specialize (Hr3 Hd2). rewrite Hdice2, Hdrawn2 in Hr3, Hship3.
  rewrite (ArrangeShipping_success _ _ _ Hr2) in Hr3, Hship3.
  simpl in Hr3, Hship3. subst r3.
  destruct (grpc_clients.CompleteOrder (grpc_clients.Order system.clients)
              orchestrator.fresh_ctx
              {| orderpb.CompleteOrderRequest_OrderId :=
                   orderpb.CreateOrderResponse_OrderId resp1 |} w3)
    as [r4 w4] eqn:H4.
  assert (Hd3 : system.net w3 (system.sent w3) = system.Delivered)
    by (rewrite Hnet3, Hsent3, Hnet2, Hsent2; exact Hn3).
  destruct (remote_on_order_frame _ _ _ _ H4) as (Hpay4 & Hship4 & _).
  destruct (remote_on_order_ran _ _ _ _ H4) as [Hord4 _];
    [intros err; rewrite Hd3; discriminate|].
  eexists _, w4. split.
  - unfold system.ExecuteCreateOrderSaga.
    exact (saga_succeeded system.clients ctx details paymentInfo shippingAddr
             _ _ _ _ _ _ _ _ _ H1 H2 Hf H3 H4).
  - split; [destruct r4; reflexivity|]. split; [|split].
    + unfold system.order_status in *. rewrite Hord4.
      rewrite CompleteOrder_status. rewrite Hoid. simpl.
      rewrite decide_True by reflexivity. rewrite Hord3, Hpend. reflexivity.
    + unfold system.payment_status. rewrite Hpay4, Hpay3, Hpay. reflexivity.
    + unfold system.shipment_status. rewrite Hship4, Hship3. rewrite Hoid.
      simpl. rewrite lookup_insert_eq. reflexivity.
Qed.

(** X11 at work: the same user orders again after a saga whose carrier was
    down, and this time everything goes through: the CANCELLED order and the
    REFUNDED payment of the first saga are replaced. *)
Lemma saga_succeeds_end_to_end_witness :
  system.order_status examples.after_carrier_down "order-u1"
  = Some orderpb.OrderStatus_CANCELLED
  /\ exists t w',
      scenario.run
        (scenario.world examples.after_carrier_down scenario.reliable
           scenario.lucky)
      = (None, t, w')
      /\ orchestrator.attempts t = []
      /\ system.order_status (system.servers w') "order-u1"
         = Some orderpb.OrderStatus_COMPLETED
      /\ system.payment_status (system.servers w') "pay-order-u1"
         = Some paymentpb.PaymentStatus_SUCCESS
      /\ system.shipment_status (system.servers w') "ship-order-u1"
         = Some shippingpb.ShippingStatus_SHIPPED.
Proof.
  split; [vm_compute; reflexivity|].
  apply (saga_succeeds_end_to_end scenario.ctx scenario.details
           scenario.paymentInfo scenario.shippingAddr
           (scenario.world examples.after_carrier_down scenario.reliable
              scenario.lucky));
    reflexivity.
Defined.

(** X12.  In the deployed system, from any state of the servers: when the
    payment goes through, the carrier declines (its draw is at most 1), and
    the five calls of the run are delivered (for the two compensating calls
    it is enough that their requests are not lost), the saga returns failed
    to arrange shipping, and the compensations take effect: the order ends
    CANCELLED, the payment REFUNDED, and the shipping server is as it was
    before the run. *)
Theorem carrier_failure_is_compensated :
  forall (ctx : context.Context) (details : commonpb.OrderDetails)
         (paymentInfo : commonpb.PaymentInfo)
         (shippingAddr : commonpb.ShippingAddress) (w : system.World),
    let oid := "order-" +:+ commonpb.UserId details in
    system.net w (system.sent w) = system.Delivered ->
    system.net w (S (system.sent w)) = system.Delivered ->
    system.net w (S (S (system.sent w))) = system.Delivered ->
    (forall err,
        system.net w (S (S (S (system.sent w)))) <> system.RequestLost err) ->
    (forall err,
        system.net w (S (S (S (S (system.sent w)))))
        <> system.RequestLost err) ->
    2 < Z.modulo (system.dice w (system.drawn w)) 10 ->
    Z.modulo (system.dice w (S (system.drawn w))) 10 <= 1 ->
    exists t w',
      system.ExecuteCreateOrderSaga ctx details paymentInfo shippingAddr w
      = (Some "failed to arrange shipping", t, w')
      /\ system.order_status (system.servers w') oid
         = Some orderpb.OrderStatus_CANCELLED
      /\ system.payment_status (system.servers w') ("pay-" +:+ oid)
         = Some paymentpb.PaymentStatus_REFUNDED
      /\ system.shippingSrv (system.servers w')
         = system.shippingSrv (system.servers w).
Proof.
  intros ctx details paymentInfo shippingAddr w oid Hn0 Hn1 Hn2 Hn3 Hn4
    Hr1 Hr2.
  destruct (order_created_and_paid ctx details paymentInfo w Hn0 Hn1 Hr1)
    as (resp1 & w1 & resp2 & w2 & H1 & H2 & Hoid & Hpid & Hf & Hpend & Hpay
        & Hship2 & Hnet2 & Hsent2 & Hdice2 & Hdrawn2).
  fold oid in Hoid, Hpid, Hpend, Hpay.
  apply Z.ltb_ge in Hr2.
  destruct (grpc_clients.ArrangeShipping
              (grpc_clients.Shipping system.clients) ctx
              {| shippingpb.ArrangeShippingRequest_OrderId :=
                   orderpb.CreateOrderResponse_OrderId resp1;
                 shippingpb.ArrangeShippingRequest_Address := shippingAddr |}
              w2) as [r3 w3] eqn:H3.
  assert (Hd2 : system.net w2 (system.sent w2) = system.Delivered)
    by (rewrite Hnet2, Hsent2; exact Hn2).
  destruct (ArrangeShipping_stub_ran _ _ _ _ _ H3)
    as (Hship3 & Hord3 & Hpay3 & Hnet3 & Hsent3 & Hr3 & _);
    [intros err; rewrite Hd2; discriminate|].
  specialize (Hr3 Hd2). rewrite Hdice2, Hdrawn2 in Hr3, Hship3.
  rewrite (ArrangeShipping_failure _ _ _ Hr2) in Hr3, Hship3.
  simpl in Hr3, Hship3. subst r3.
  destruct (refund_then_cancel (orderpb.CreateOrderResponse_OrderId resp1)
              (paymentpb.ProcessPaymentResponse_PaymentId resp2)
              {| paymentpb.Id := "pay-" +:+ oid;
                 paymentpb.OrderId := {| commonpb.Id := oid |};
                 paymentpb.Amount := commonpb.Amount paymentInfo;
                 paymentpb.Status := paymentpb.PaymentStatus_SUCCESS;
                 paymentpb.TransactionId := "" |} w3)
    as (t2 & w4 & t1 & w5 & Hc2 & Hc1 & _ & _ & Hrefunded & Hcancelled & Hship5).
  { rewrite Hoid. apply order_id_nonempty. }
  { rewrite Hpid. apply payment_id_nonempty. }
  { rewrite Hpay3, Hpid. exact Hpay. }
  { rewrite Hoid. reflexivity. }
  { reflexivity. }
  { unfold system.order_status in *. rewrite Hord3, Hoid. simpl.
    rewrite Hpend. eexists; reflexivity. }
  { rewrite Hnet3, Hsent3, Hnet2, Hsent2. exact Hn3. }
  { rewrite Hnet3, Hsent3, Hnet2, Hsent2. exact Hn4. }
  eexists _, w5. split.
  - unfold system.ExecuteCreateOrderSaga.
    exact (saga_shipping_failed system.clients ctx details paymentInfo
             shippingAddr _ _ _ _ _ _ _ _ _ _ _ H1 H2 Hf H3 Hc2 Hc1).
  - rewrite Hoid in Hcancelled. rewrite Hpid in Hrefunded.
    split; [exact Hcancelled|]. split; [exact Hrefunded|].
    rewrite Hship5, Hship3. exact Hship2.
Qed.

(** X12 at work: the scenario with the carrier down, after a first saga
    that had succeeded; the shipment of the first saga is untouched. *)
Lemma carrier_failure_is_compensated_witness :
  exists t w',
    scenario.run
      (scenario.world scenario.after_success scenario.reliable
         scenario.carrier_down)
    = (Some "failed to arrange shipping", t, w')
    /\ system.order_status (system.servers w') "order-u1"
       = Some orderpb.OrderStatus_CANCELLED
    /\ system.payment_status (system.servers w') "pay-order-u1"
       = Some paymentpb.PaymentStatus_REFUNDED
    /\ system.shippingSrv (system.servers w')
       = system.shippingSrv scenario.after_success.
Proof.
  apply (carrier_failure_is_compensated scenario.ctx scenario.details
           scenario.paymentInfo scenario.shippingAddr
           (scenario.world scenario.after_success scenario.reliable
              scenario.carrier_down));
    try reflexivity; try (intros err; discriminate).
Defined.

(** X13.  In the deployed system a shipment can outlive its cancelled order.
    When the first two steps succeed and the carrier accepts, but the
    response of [ArrangeShipping] is lost, the orchestrator sees step 3 fail
    with no shipment id: it skips [CancelShipping], refunds the payment and
    cancels the order (their requests not being lost), and returns failed to
    arrange shipping, while the shipment record stays SHIPPED. *)
Theorem lost_shipping_reply_leaves_shipment :
  forall (ctx : context.Context) (details : commonpb.OrderDetails)
         (paymentInfo : commonpb.PaymentInfo)
         (shippingAddr : commonpb.ShippingAddress) (w : system.World)
         (lost : grpc.Status),
    let oid := "order-" +:+ commonpb.UserId details in
    system.net w (system.sent w) = system.Delivered ->
    system.net w (S (system.sent w)) = system.Delivered ->
    system.net w (S (S (system.sent w))) = system.ReplyLost lost ->
    (forall err,
        system.net w (S (S (S (system.sent w)))) <> system.RequestLost err) ->
    (forall err,
        system.net w (S (S (S (S (system.sent w)))))
        <> system.RequestLost err) ->
    2 < Z.modulo (system.dice w (system.drawn w)) 10 ->
    1 < Z.modulo (system.dice w (S (system.drawn w))) 10 ->
    exists t w',
      system.ExecuteCreateOrderSaga ctx details paymentInfo shippingAddr w
      = (Some "failed to arrange shipping", t, w')
      /\ orchestrator.attempts t
         = [orchestrator.Skipped orchestrator.CancelShipping;
            orchestrator.Called orchestrator.RefundPayment;
            orchestrator.Called orchestrator.CancelOrder]
      /\ system.order_status (system.servers w') oid
         = Some orderpb.OrderStatus_CANCELLED
      /\ system.payment_status (system.servers w') ("pay-" +:+ oid)
         = Some paymentpb.PaymentStatus_REFUNDED
      /\ system.shipment_status (system.servers w') ("ship-" +:+ oid)
         = Some shippingpb.ShippingStatus_SHIPPED.
Proof.
  intros ctx details paymentInfo shippingAddr w lost oid Hn0 Hn1 Hn2 Hn3 Hn4
    Hr1 Hr2.
  destruct (order_created_and_paid ctx details paymentInfo w Hn0 Hn1 Hr1)
    as (resp1 & w1 & resp2 & w2 & H1 & H2 & Hoid & Hpid & Hf & Hpend & Hpay
        & Hship2 & Hnet2 & Hsent2 & Hdice2 & Hdrawn2).
  fold oid in Hoid, Hpid, Hpend, Hpay.
  apply Z.ltb_lt in Hr2.
  destruct (grpc_clients.ArrangeShipping
              (grpc_clients.Shipping system.clients) ctx
              {| shippingpb.ArrangeShippingRequest_OrderId :=
                   orderpb.CreateOrderResponse_OrderId resp1;
                 shippingpb.ArrangeShippingRequest_Address := shippingAddr |}
              w2) as [r3 w3] eqn:H3.
  assert (Hl2 : system.net w2 (system.sent w2) = system.ReplyLost lost)
    by (rewrite Hnet2, Hsent2; exact Hn2).
  destruct (ArrangeShipping_stub_ran _ _ _ _ _ H3)
    as (Hship3 & Hord3 & Hpay3 & Hnet3 & Hsent3 & _ & Hr3);
    [intros err; rewrite Hl2; discriminate|].
  specialize (Hr3 _ Hl2). rewrite Hdice2, Hdrawn2 in Hship3.
  rewrite (ArrangeShipping_success _ _ _ Hr2) in Hship3.
  simpl in Hship3. subst r3.
  destruct (refund_then_cancel (orderpb.CreateOrderResponse_OrderId resp1)
              (paymentpb.ProcessPaymentResponse_PaymentId resp2)
              {| paymentpb.Id := "pay-" +:+ oid;
                 paymentpb.OrderId := {| commonpb.Id := oid |};
                 paymentpb.Amount := commonpb.Amount paymentInfo;
                 paymentpb.Status := paymentpb.PaymentStatus_SUCCESS;
                 paymentpb.TransactionId := "" |} w3)
    as (t2 & w4 & t1 & w5 & Hc2 & Hc1 & Ha2 & Ha1 & Hrefunded & Hcancelled
        & Hship5).
  { rewrite Hoid. apply order_id_nonempty. }
  { rewrite Hpid. apply payment_id_nonempty. }
  { rewrite Hpay3, Hpid. exact Hpay. }
  { rewrite Hoid. reflexivity. }
  { reflexivity. }
  { unfold system.order_status in *. rewrite Hord3, Hoid. simpl.
    rewrite Hpend. eexists; reflexivity. }
  { rewrite Hnet3, Hsent3, Hnet2, Hsent2. exact Hn3. }
  { rewrite Hnet3, Hsent3, Hnet2, Hsent2. exact Hn4. }
  eexists _, w5. split.
  - unfold system.ExecuteCreateOrderSaga.
    exact (saga_shipping_failed system.clients ctx details paymentInfo
             shippingAddr _ _ _ _ _ _ _ _ _ _ _ H1 H2 Hf H3 Hc2 Hc1).
  - rewrite Hoid in Hcancelled. rewrite Hpid in Hrefunded.
    split; [rewrite !attempts_app, Ha2, Ha1; reflexivity|].
    split; [exact Hcancelled|]. split; [exact Hrefunded|].
    unfold system.shipment_status. rewrite Hship5, Hship3, Hoid. simpl.
    rewrite lookup_insert_eq. reflexivity.
Qed.

(** X13 at work: the scenario on fresh servers, every draw lucky, the reply
    of the third call lost. *)
Lemma lost_shipping_reply_leaves_shipment_witness :
  exists t w',
    scenario.run
      (scenario.world system.NewServers (examples.dropping_reply 2)
         scenario.lucky)
    = (Some "failed to arrange shipping", t, w')
    /\ orchestrator.attempts t
       = [orchestrator.Skipped orchestrator.CancelShipping;
          orchestrator.Called orchestrator.RefundPayment;
          orchestrator.Called orchestrator.CancelOrder]
    /\ system.order_status (system.servers w') "order-u1"
       = Some orderpb.OrderStatus_CANCELLED
    /\ system.payment_status (system.servers w') "pay-order-u1"
       = Some paymentpb.PaymentStatus_REFUNDED
    /\ system.shipment_status (system.servers w') "ship-order-u1"
       = Some shippingpb.ShippingStatus_SHIPPED.
Proof.
  apply (lost_shipping_reply_leaves_shipment scenario.ctx scenario.details
           scenario.paymentInfo scenario.shippingAddr
           (scenario.world system.NewServers (examples.dropping_reply 2)
              scenario.lucky) scenario.timeout);
    try reflexivity; try (intros err; discriminate).
Defined.

(** X14.  In the deployed system, when [CreateOrder] fails the saga returns
    failed to create order after that one call: the order compensation is
    entered with a nil id and skips.  If the request was lost the servers
    are untouched.  If only the response was lost, the order service has
    stored the order, which stays PENDING: nothing cancels it. *)
Theorem create_failure_is_not_compensated :
  forall (ctx : context.Context) (details : commonpb.OrderDetails)
         (paymentInfo : commonpb.PaymentInfo)
         (shippingAddr : commonpb.ShippingAddress) (w : system.World)
         (lost : grpc.Status),
    let oid := "order-" +:+ commonpb.UserId details in
    (system.net w (system.sent w) = system.RequestLost lost ->
     exists t w',
       system.ExecuteCreateOrderSaga ctx details paymentInfo shippingAddr w
       = (Some "failed to create order", t, w')
       /\ orchestrator.calls t
          = [orchestrator.Call_CreateOrder ctx
               {| orderpb.Details := details |}]
       /\ orchestrator.attempts t
          = [orchestrator.Skipped orchestrator.CancelOrder]
       /\ system.servers w' = system.servers w)
    /\ (system.net w (system.sent w) = system.ReplyLost lost ->
        exists t w',
          system.ExecuteCreateOrderSaga ctx details paymentInfo shippingAddr w
          = (Some "failed to create order", t, w')
          /\ orchestrator.calls t
             = [orchestrator.Call_CreateOrder ctx
                  {| orderpb.Details := details |}]
          /\ orchestrator.attempts t
             = [orchestrator.Skipped orchestrator.CancelOrder]
          /\ system.order_status (system.servers w') oid
             = Some orderpb.OrderStatus_PENDING).
Proof.
  intros ctx details paymentInfo shippingAddr w lost oid. split; intros Hn.
  - assert (H1 : grpc_clients.CreateOrder
                   (grpc_clients.Order system.clients) ctx
                   {| orderpb.Details := details |} w
                 = (inr lost, system.next_call w))
      by (simpl; unfold system.remote; rewrite Hn; reflexivity).
    eexists _, _. split.
    + unfold system.ExecuteCreateOrderSaga.
      exact (saga_create_failed system.clients ctx details paymentInfo
               shippingAddr _ _ _ H1).
    + repeat split.
  - destruct (grpc_clients.CreateOrder
                (grpc_clients.Order system.clients) ctx
                {| orderpb.Details := details |} w) as [r1 w1] eqn:H1.
    assert (Hran := remote_on_order_ran _ _ _ _ H1).
    destruct Hran as [Hord _]; [intros err; rewrite Hn; discriminate|].
    assert (Hr : r1 = inr lost).
    { simpl in H1. unfold system.remote in H1. rewrite Hn in H1.
      destruct (system.on_order _ _) in H1. injection H1 as <- _.
      reflexivity. }
    subst r1. eexists _, w1. split.
    + unfold system.ExecuteCreateOrderSaga.
      exact (saga_create_failed system.clients ctx details paymentInfo
               shippingAddr _ _ _ H1).
    + split; [reflexivity|]. split; [reflexivity|].
      unfold system.order_status. rewrite Hord.
      exact (f_equal (fmap orderpb.Status)
               (CreateOrder_stored (system.orderSrv (system.servers w))
                  {| orderpb.Details := details |})).
Qed.

(** X14 at work: the scenario on fresh servers with the first request lost,
    and with the first reply lost. *)
Lemma create_failure_is_not_compensated_witness :
  (exists t w',
      scenario.run
        (scenario.world system.NewServers (scenario.losing 0) scenario.lucky)
      = (Some "failed to create order", t, w')
      /\ system.servers w' = system.NewServers)
  /\ (exists t w',
         scenario.run
           (scenario.world system.NewServers (examples.dropping_reply 0)
              scenario.lucky)
         = (Some "failed to create order", t, w')
         /\ system.order_status (system.servers w') "order-u1"
            = Some orderpb.OrderStatus_PENDING).
Proof.
  split.
  - destruct (proj1 (create_failure_is_not_compensated scenario.ctx
                       scenario.details scenario.paymentInfo
                       scenario.shippingAddr
                       (scenario.world system.NewServers (scenario.losing 0)
                          scenario.lucky) scenario.timeout) eq_refl)
      as (t & w' & Hrun & _ & _ & Hs).
    exists t, w'. split; [exact Hrun|exact Hs].
  - destruct (proj2 (create_failure_is_not_compensated scenario.ctx
                       scenario.details scenario.paymentInfo
                       scenario.shippingAddr
                       (scenario.world system.NewServers
                          (examples.dropping_reply 0) scenario.lucky)
                       scenario.timeout) eq_refl)
      as (t & w' & Hrun & _ & _ & Hs).
    exists t, w'. split; [exact Hrun|exact Hs].
Defined.

(** ** A saga and the records of other orders *)

Section Isolation.
Import system isolation.

Implicit Types (w : World).

Lemma untouched_refl oid (s s' : Servers) :
  s' = s -> untouched_outside oid s s'.
Proof. intros ->. repeat split. Qed.

Lemma untouched_trans oid (s1 s2 s3 : Servers) :
  untouched_outside oid s1 s2 -> untouched_outside oid s2 s3 ->
  untouched_outside oid s1 s3.
Proof.
  intros (A1 & B1 & C1) (A2 & B2 & C2). split; [|split]; intros k Hk.
  - rewrite A2, A1 by exact Hk. reflexivity.
  - rewrite B2, B1 by exact Hk. reflexivity.
  - rewrite C2, C1 by exact Hk. reflexivity.
Qed.

(** After a call the servers are as before, or as the handler left them. *)
Lemma remote_on_order_servers {A}
    (h : order.Server -> grpc.result A * order.Server) w r w' :
  remote (on_order h) w = (r, w') ->
  servers w' = servers w
  \/ servers w' = {| orderSrv := snd (h (orderSrv (servers w)));
                     paymentSrv := paymentSrv (servers w);
                     shippingSrv := shippingSrv (servers w) |}.
Proof.
  intros H.
  destruct (remote_cases _ _ _ _ H)
    as [[_ Hh]|[(err & _ & _ & ->)|(err & r0 & _ & _ & Hh)]];
    [|left; reflexivity|];
    unfold on_order in Hh; simpl in Hh;
    destruct (h (orderSrv (servers w))) as [r1 s1];
    injection Hh as _ <-; right; reflexivity.
Qed.

Lemma remote_on_payment_servers {A}
    (h : payment.Server -> grpc.result A * payment.Server) w r w' :
  remote (on_payment h) w = (r, w') ->
  servers w' = servers w
  \/ servers w' = {| orderSrv := orderSrv (servers w);
                     paymentSrv := snd (h (paymentSrv (servers w)));
                     shippingSrv := shippingSrv (servers w) |}.
Proof.
  intros H.
  destruct (remote_cases _ _ _ _ H)
    as [[_ Hh]|[(err & _ & _ & ->)|(err & r0 & _ & _ & Hh)]];
    [|left; reflexivity|];
    unfold on_payment in Hh; simpl in Hh;
    destruct (h (paymentSrv (servers w))) as [r1 s1];
    injection Hh as _ <-; right; reflexivity.
Qed.

Lemma CreateOrder_stub_untouched ctx req w r w' :
  grpc_clients.CreateOrder (grpc_clients.Order clients) ctx req w = (r, w') ->
  untouched_outside ("order-" +:+ commonpb.UserId (orderpb.Details req))
    (servers w) (servers w').
Proof.
  intros H. destruct (remote_on_order_servers _ _ _ _ H) as [->| ->];
    [apply untouched_refl; reflexivity|].
  split; [|split]; simpl; intros k Hk; try reflexivity.
  apply lookup_insert_ne. congruence.
Qed.

Lemma CancelOrder_stub_untouched ctx req w r w' :
  grpc_clients.CancelOrder (grpc_clients.Order clients) ctx req w = (r, w') ->
  untouched_outside (commonpb.Id (orderpb.CancelOrderRequest_OrderId req))
    (servers w) (servers w').
Proof.
  intros H. destruct (remote_on_order_servers _ _ _ _ H) as [->| ->];
    [apply untouched_refl; reflexivity|].
  split; [|split]; simpl; intros k Hk; try reflexivity.
  unfold order.CancelOrder.
  destruct (order.orders (orderSrv (servers w)) !! _) as [o|];
    [|reflexivity].
  case_decide; simpl; [reflexivity|].
  apply lookup_insert_ne. congruence.
Qed.

Lemma CompleteOrder_stub_untouched ctx req w r w' :
  grpc_clients.CompleteOrder (grpc_clients.Order clients) ctx req w
  = (r, w') ->
  untouched_outside (commonpb.Id (orderpb.CompleteOrderRequest_OrderId req))
    (servers w) (servers w').
Proof.
  intros H. destruct (remote_on_order_servers _ _ _ _ H) as [->| ->];
    [apply untouched_refl; reflexivity|].
  split; [|split]; simpl; intros k Hk; try reflexivity.
  unfold order.CompleteOrder.
  destruct (order.orders (orderSrv (servers w)) !! _) as [o|];
    [|reflexivity].
  simpl. case_decide; simpl; [|reflexivity].
  apply lookup_insert_ne. congruence.
Qed.

Lemma ProcessPayment_stub_untouched ctx req w r w' :
  grpc_clients.ProcessPayment (grpc_clients.Payment clients) ctx req w
  = (r, w') ->
  untouched_outside
    (commonpb.Id (paymentpb.ProcessPaymentRequest_OrderId req))
    (servers w) (servers w').
Proof.
  intros H. simpl in H.
  destruct (remote_cases _ _ _ _ H)
    as [[_ Hh]|[(err & _ & _ & ->)|(err & r0 & _ & _ & Hh)]];
    [|apply untouched_refl; reflexivity|];
    unfold on_payment in Hh; simpl in Hh; injection Hh as _ <-;
    (split; [|split]); simpl; intros k Hk; try reflexivity;
    apply lookup_insert_ne; congruence.
Qed.

Lemma RefundPayment_stub_untouched ctx req w r w' oid :
  grpc_clients.RefundPayment (grpc_clients.Payment clients) ctx req w
  = (r, w') ->
  paymentpb.RefundPaymentRequest_PaymentId req = "pay-" +:+ oid ->
  untouched_outside oid (servers w) (servers w').
Proof.
  intros H Hid. destruct (remote_on_payment_servers _ _ _ _ H) as [->| ->];
    [apply untouched_refl; reflexivity|].
  split; [|split]; simpl; intros k Hk; try reflexivity.
  apply RefundPayment_status_other. congruence.
Qed.

Lemma ArrangeShipping_stub_untouched ctx req w r w' :
  grpc_clients.ArrangeShipping (grpc_clients.Shipping clients) ctx req w
  = (r, w') ->
  untouched_outside
    (commonpb.Id (shippingpb.ArrangeShippingRequest_OrderId req))
    (servers w) (servers w').
Proof.
  intros H. simpl in H.
  destruct (remote_cases _ _ _ _ H)
    as [[_ Hh]|[(err & _ & _ & ->)|(err & r0 & _ & _ & Hh)]];
    [|apply untouched_refl; reflexivity|];
    unfold on_shipping in Hh; simpl in Hh;
    unfold shipping.ArrangeShipping in Hh;
    destruct (negb (1 <? dice w (drawn w) `mod` 10)%Z); simpl in Hh;
    injection Hh as _ <-;
    (split; [|split]); simpl; intros k Hk; try reflexivity;
    apply lookup_insert_ne; congruence.
Qed.

End Isolation.

(** X15.  In the deployed system, whatever the state of the servers, the
    fate of each call and the draws, a run of the saga for a user touches no
    record but the three of that user's order: under every key other than
    order-user, pay-order-user and ship-order-user the three stores hold
    after the run exactly what they held before. *)
Theorem saga_touches_only_its_own_records :
  forall (ctx : context.Context) (details : commonpb.OrderDetails)
         (paymentInfo : commonpb.PaymentInfo)
         (shippingAddr : commonpb.ShippingAddress) (w : system.World),
    isolation.untouched_outside ("order-" +:+ commonpb.UserId details)
      (system.servers w)
      (system.servers
         (snd (system.ExecuteCreateOrderSaga ctx details paymentInfo
                 shippingAddr w))).
Proof.
  intros ctx details paymentInfo shippingAddr w.
  unfold system.ExecuteCreateOrderSaga.
  destruct (grpc_clients.CreateOrder (grpc_clients.Order system.clients) ctx
              {| orderpb.Details := details |} w) as [[resp1|err1] w1] eqn:H1.
  2:{ rewrite (saga_create_failed system.clients _ _ _ _ _ _ _ H1). simpl.
      exact (CreateOrder_stub_untouched _ _ _ _ _ H1). }
  pose proof (CreateOrder_stub_untouched _ _ _ _ _ H1) as U1. simpl in U1.
  destruct (CreateOrder_stub_ok _ _ _ _ _ H1) as [Hid _]. simpl in Hid.
  assert (Hoid : commonpb.Id (orderpb.CreateOrderResponse_OrderId resp1) <> "")
    by (rewrite Hid; apply order_id_nonempty).
  destruct (grpc_clients.ProcessPayment (grpc_clients.Payment system.clients)
              ctx
              {| paymentpb.ProcessPaymentRequest_OrderId :=
                   orderpb.CreateOrderResponse_OrderId resp1;
                 paymentpb.PaymentInfo := paymentInfo |} w1)
    as [r2 w2] eqn:H2.
  pose proof (ProcessPayment_stub_untouched _ _ _ _ _ H2) as U2.
  simpl in U2. rewrite Hid in U2. simpl in U2.
  destruct (orchestrator.paymentFailed r2) eqn:Hf.
  - destruct (grpc_clients.CancelOrder (grpc_clients.Order system.clients)
                orchestrator.fresh_ctx
                {| orderpb.CancelOrderRequest_OrderId :=
                     orderpb.CreateOrderResponse_OrderId resp1 |} w2)
      as [r3 w3] eqn:H3.
    pose proof (CancelOrder_stub_untouched _ _ _ _ _ H3) as U3.
    simpl in U3. rewrite Hid in U3. simpl in U3.
    rewrite (saga_payment_failed system.clients _ _ _ _ _ _ _ _ _ _ _
               H1 H2 Hf (compensateCreateOrder_calls _ _ _ _ _ Hoid H3)).
    simpl. eauto using untouched_trans.
  - destruct r2 as [resp2|err2]; [|discriminate].
    destruct (ProcessPayment_stub_ok _ _ _ _ _ H2) as [Hpid _].
    simpl in Hpid. rewrite Hid in Hpid. simpl in Hpid.
    destruct (grpc_clients.ArrangeShipping
                (grpc_clients.Shipping system.clients) ctx
                {| shippingpb.ArrangeShippingRequest_OrderId :=
                     orderpb.CreateOrderResponse_OrderId resp1;
                   shippingpb.ArrangeShippingRequest_Address := shippingAddr |}
                w2) as [[resp3|err3] w3] eqn:H3;
      pose proof (ArrangeShipping_stub_untouched _ _ _ _ _ H3) as U3;
      simpl in U3; rewrite Hid in U3; simpl in U3.
    + destruct (grpc_clients.CompleteOrder
                  (grpc_clients.Order system.clients) orchestrator.fresh_ctx
                  {| orderpb.CompleteOrderRequest_OrderId :=
                       orderpb.CreateOrderResponse_OrderId resp1 |} w3)
        as [r4 w4] eqn:H4.
      pose proof (CompleteOrder_stub_untouched _ _ _ _ _ H4) as U4.
      simpl in U4. rewrite Hid in U4. simpl in U4.
      rewrite (saga_succeeded system.clients _ _ _ _ _ _ _ _ _ _ _ _ _
                 H1 H2 Hf H3 H4).
      simpl. eauto using untouched_trans.
    + assert (Hpne : paymentpb.ProcessPaymentResponse_PaymentId resp2 <> "")
        by (rewrite Hpid; apply payment_id_nonempty).
      destruct (grpc_clients.RefundPayment
                  (grpc_clients.Payment system.clients) orchestrator.fresh_ctx
                  {| paymentpb.RefundPaymentRequest_OrderId :=
                       orderpb.CreateOrderResponse_OrderId resp1;
                     paymentpb.RefundPaymentRequest_PaymentId :=
                       paymentpb.ProcessPaymentResponse_PaymentId resp2 |} w3)
        as [r5 w4] eqn:H5.
      pose proof (RefundPayment_stub_untouched _ _ _ _ _
                    ("order-" +:+ commonpb.UserId details) H5 Hpid) as U5.
      destruct (grpc_clients.CancelOrder (grpc_clients.Order system.clients)
                  orchestrator.fresh_ctx
                  {| orderpb.CancelOrderRequest_OrderId :=
                       orderpb.CreateOrderResponse_OrderId resp1 |} w4)
        as [r6 w5] eqn:H6.
      pose proof (CancelOrder_stub_untouched _ _ _ _ _ H6) as U6.
      simpl in U6. rewrite Hid in U6. simpl in U6.
      rewrite (saga_shipping_failed system.clients _ _ _ _ _ _ _ _ _ _ _ _ _
                 _ _ H1 H2 Hf H3
                 (compensateProcessPayment_calls _ _ _ _ _ _ Hpne H5)
                 (compensateCreateOrder_calls _ _ _ _ _ Hoid H6)).
      simpl. eauto using untouched_trans.
Qed.

(** ** A payment whose response is lost *)

(** X16.  In the deployed system a payment can be taken and never refunded.
    When [CreateOrder] is delivered, the payment service accepts the payment
    (its draw exceeds 2) and stores it, but the response of [ProcessPayment]
    is lost, the orchestrator sees step 2 fail with no payment id: it skips
    [RefundPayment], cancels the order (the request of [CancelOrder] not
    being lost) and returns failed to process payment, while the payment
    record stays SUCCESS. *)
Theorem lost_payment_reply_leaves_payment_unrefunded :
  forall (ctx : context.Context) (details : commonpb.OrderDetails)
         (paymentInfo : commonpb.PaymentInfo)
         (shippingAddr : commonpb.ShippingAddress) (w : system.World)
         (lost : grpc.Status),
    let oid := "order-" +:+ commonpb.UserId details in
    system.net w (system.sent w) = system.Delivered ->
    system.net w (S (system.sent w)) = system.ReplyLost lost ->
    (forall err,
        system.net w (S (S (system.sent w))) <> system.RequestLost err) ->
    2 < Z.modulo (system.dice w (system.drawn w)) 10 ->
    exists t w',
      system.ExecuteCreateOrderSaga ctx details paymentInfo shippingAddr w
      = (Some "failed to process payment", t, w')
      /\ orchestrator.attempts t
         = [orchestrator.Skipped orchestrator.RefundPayment;
            orchestrator.Called orchestrator.CancelOrder]
      /\ system.order_status (system.servers w') oid
         = Some orderpb.OrderStatus_CANCELLED
      /\ system.payment_status (system.servers w') ("pay-" +:+ oid)
         = Some paymentpb.PaymentStatus_SUCCESS.
Proof.
  intros ctx details paymentInfo shippingAddr w lost oid Hn0 Hn1 Hn2 Hroll.
  apply Z.ltb_lt in Hroll.
  destruct (CreateOrder_stub_delivered ctx {| orderpb.Details := details |}
              w Hn0) as [w1 H1].
  destruct (CreateOrder_stub_ok _ _ _ _ _ H1)
    as (_ & Hpend & _ & _ & Hnet1 & Hsent1).
  destruct (remote_on_order_frame _ _ _ _ H1)
    as (_ & _ & _ & _ & Hdice1 & Hdrawn1).
  destruct (grpc_clients.ProcessPayment (grpc_clients.Payment system.clients)
              ctx
              {| paymentpb.ProcessPaymentRequest_OrderId :=
                   {| commonpb.Id := oid |};
                 paymentpb.PaymentInfo := paymentInfo |} w1)
    as [r2 w2] eqn:H2.
  assert (Hl1 : system.net w1 (system.sent w1) = system.ReplyLost lost)
    by (rewrite Hnet1, Hsent1; exact Hn1).
  destruct (ProcessPayment_stub_ran _ _ _ _ _ H2) as (Hpay2 & _);
    [intros err; rewrite Hl1; discriminate|].
  destruct (ProcessPayment_stub_frame _ _ _ _ _ H2)
    as (Hord2 & _ & Hnet2 & Hsent2).
  assert (Hf : orchestrator.paymentFailed r2 = true).
  { pose proof H2 as H2'. simpl in H2'.
    destruct (remote_cases _ _ _ _ H2')
      as [[Hd _]|[(err & _ & -> & _)|(err & r0 & _ & -> & _)]];
      [rewrite Hl1 in Hd; discriminate|reflexivity|reflexivity]. }
  destruct (payment_failure_run ctx details paymentInfo shippingAddr
              w w1 w2 _ r2 H1 H2 Hf)
    as (t & r3 & w3 & H3 & Hrun & Hatt & _).
  destruct (CancelOrder_stub_effect _ _ _ _ _ H3) as (Hpay3 & _ & Hcancel).
  exists t, w3. split; [exact Hrun|]. split; [exact Hatt|]. split.
  - apply Hcancel.
    + rewrite Hnet2, Hsent2, Hnet1, Hsent1. exact Hn2.
    + unfold system.order_status in *.
      cbn [orderpb.CancelOrderRequest_OrderId
             orderpb.CreateOrderResponse_OrderId commonpb.Id].
      rewrite Hord2.
      change (is_Some
                (orderpb.Status <$>
                   order.orders (system.orderSrv (system.servers w1))
                     !! ("order-" +:+
                         commonpb.UserId
                           (orderpb.Details
                              {| orderpb.Details := details |})))).
      rewrite Hpend. eexists; reflexivity.
  - unfold system.payment_status. rewrite Hpay3, Hpay2, Hdice1, Hdrawn1.
    pose proof (ProcessPayment_stored (system.dice w (system.drawn w) `mod` 10)
                  (system.paymentSrv (system.servers w1))
                  {| paymentpb.ProcessPaymentRequest_OrderId :=
                       {| commonpb.Id := oid |};
                     paymentpb.PaymentInfo := paymentInfo |}) as Hst.
    rewrite Hroll in Hst.
    exact (f_equal (fmap paymentpb.Status) Hst).
Qed.

(** X16 at work: the scenario on fresh servers, every draw lucky, the reply
    of the second call lost. *)
Lemma lost_payment_reply_leaves_payment_unrefunded_witness :
  exists t w',
    scenario.run
      (scenario.world system.NewServers (examples.dropping_reply 1)
         scenario.lucky)
    = (Some "failed to process payment", t, w')
    /\ orchestrator.attempts t
       = [orchestrator.Skipped orchestrator.RefundPayment;
          orchestrator.Called orchestrator.CancelOrder]
    /\ system.order_status (system.servers w') "order-u1"
       = Some orderpb.OrderStatus_CANCELLED
    /\ system.payment_status (system.servers w') "pay-order-u1"
       = Some paymentpb.PaymentStatus_SUCCESS.
Proof.
  apply (lost_payment_reply_leaves_payment_unrefunded scenario.ctx
           scenario.details scenario.paymentInfo scenario.shippingAddr
           (scenario.world system.NewServers (examples.dropping_reply 1)
              scenario.lucky) scenario.timeout);
    try reflexivity; try (intros err; discriminate).
Defined.
